(** * AI-Research-Assistant: the aggregation and citation pipeline of [app.py]

    A shallow embedding of the content-aggregation and citation-resolution
    code of [src/app.py], and the properties of it that the specification
    states.

    Conventions.
    - A Python [str] is a [list ascii]; a character stands for the code point
      of the same number (0..255).  The character classes below are Python's
      on that range.
    - Python integers are [Z].
    - The outside world (network, language model, PDF backend) is a state [W]
      threaded through every call that touches it, so that two calls with the
      same arguments may answer differently.
    - A Python call that may raise returns an [outcome]. *)

From Stdlib Require Import ZArith List String Ascii Bool Lia.
From Stdlib.Strings Require Import Byte.
From stdpp Require Import base decidable countable gmap strings.
Import ListNotations.

Local Open Scope list_scope.

(** ** Text *)

Abbreviation text := (list ascii).

(** A string literal as a [text]. *)
Definition str (s : string) : text := list_ascii_of_string s.

Definition code (c : ascii) : N := N_of_ascii c.

Definition in_range (lo hi : N) (c : ascii) : bool :=
  (N.leb lo (code c) && N.leb (code c) hi)%bool.

(** [\d] of [re] on a [str] pattern: the decimal digits. *)
Definition is_digit (c : ascii) : bool := in_range 48 57 c.

(** [\s] of [re], and the characters [str.strip()] removes: those for which
    [str.isspace()] holds. *)
Definition is_space (c : ascii) : bool :=
  (in_range 9 13 c || in_range 28 32 c
   || N.eqb (code c) 133 || N.eqb (code c) 160)%bool.

(** The class [[a-zA-Z0-9]]. *)
Definition is_ascii_alnum (c : ascii) : bool :=
  (in_range 97 122 c || in_range 65 90 c || in_range 48 57 c)%bool.

(** [ch.isdigit()] for one character: the decimal digits and the three
    superscript digits of Latin-1. *)
Definition char_isdigit (c : ascii) : bool :=
  (is_digit c || N.eqb (code c) 178 || N.eqb (code c) 179
   || N.eqb (code c) 185)%bool.

(** [s.isdigit()]: at least one character, all of them digits. *)
Definition py_isdigit (s : text) : bool :=
  match s with
  | [] => false
  | _ => forallb char_isdigit s
  end.

Definition ascii_eqb (a b : ascii) : bool := Ascii.eqb a b.

Fixpoint text_eqb (a b : text) : bool :=
  match a, b with
  | [], [] => true
  | x :: a', y :: b' => (ascii_eqb x y && text_eqb a' b')%bool
  | _, _ => false
  end.

Fixpoint drop_while (p : ascii -> bool) (s : text) : text :=
  match s with
  | [] => []
  | c :: s' => if p c then drop_while p s' else s
  end.

Fixpoint take_while (p : ascii -> bool) (s : text) : text :=
  match s with
  | [] => []
  | c :: s' => if p c then c :: take_while p s' else []
  end.

(** [s.lstrip()], [s.rstrip()], [s.strip()]. *)
Definition lstrip (s : text) : text := drop_while is_space s.
Definition rstrip (s : text) : text := rev (drop_while is_space (rev s)).
Definition strip (s : text) : text := rstrip (lstrip s).

(** [s[:n]] for [n >= 0]. *)
Definition slice_to (n : nat) (s : text) : text := firstn n s.

(** [len(s)]. *)
Definition len {A} (s : list A) : Z := Z.of_nat (length s).

(** [sep.join(parts)]. *)
Fixpoint join (sep : text) (parts : list text) : text :=
  match parts with
  | [] => []
  | [p] => p
  | p :: rest => p ++ sep ++ join sep rest
  end.

(** [s.split(sep)] for a one-character separator. *)
Fixpoint split_on (sep : ascii) (s : text) : list text :=
  match s with
  | [] => [[]]
  | c :: s' =>
      if ascii_eqb c sep then [] :: split_on sep s'
      else match split_on sep s' with
           | [] => [[c]]
           | p :: ps => (c :: p) :: ps
           end
  end.

(** [prefix] is a prefix of [s]. *)
Fixpoint starts_with (prefix s : text) : bool :=
  match prefix, s with
  | [], _ => true
  | p :: prefix', c :: s' => (ascii_eqb p c && starts_with prefix' s')%bool
  | _ :: _, [] => false
  end.

(** [needle in s]. *)
Fixpoint contains (needle s : text) : bool :=
  (starts_with needle s ||
   match s with
   | [] => false
   | _ :: s' => contains needle s'
   end)%bool.

(** [s.lower()] on the characters [A-Z] and the upper-case letters of
    Latin-1. *)
Definition lower_char (c : ascii) : ascii :=
  if (in_range 65 90 c || in_range 192 214 c || in_range 216 222 c)%bool
  then ascii_of_N (code c + 32) else c.

Definition lower (s : text) : text := map lower_char s.

(** [int(s)] for a text of decimal digits. *)
Definition digit_val (c : ascii) : Z := Z.of_N (code c) - 48.

Definition py_int (s : text) : Z :=
  fold_left (fun acc c => 10 * acc + digit_val c)%Z s 0%Z.

(** [str(n)] for an integer. *)
Fixpoint pos_digits (fuel : nat) (n : Z) (acc : text) : text :=
  match fuel with
  | O => acc
  | S fuel' =>
      let d := ascii_of_N (Z.to_N (n mod 10) + 48) in
      if (n <? 10)%Z then d :: acc
      else pos_digits fuel' (n / 10)%Z (d :: acc)
  end.

Definition py_str (n : Z) : text :=
  if (n <? 0)%Z
  then "-"%char :: pos_digits (S (Z.to_nat (Z.log2 (- n)))) (- n)%Z []
  else pos_digits (S (Z.to_nat (Z.log2 n))) n [].

(** ** Regular expressions

    The patterns of [app.py] use literals, character classes, greedy
    repetition, capturing groups, a one-character negative look-behind and a
    negative look-ahead.  [rmatch] is a backtracking matcher in
    continuation-passing style with the priorities of [re]: a repetition
    tries the longest run first, and a failure of the continuation makes it
    give characters back. *)

Inductive regex : Type :=
| Eps
| Chr (c : ascii)
| Cls (p : ascii -> bool)
| Cat (r1 r2 : regex)
| Star (r : regex)
| Group (i : nat) (r : regex)
| NotBehind (p : ascii -> bool)
| NotAhead (r : regex).

(** [r+] and [r{2,}]. *)
Definition Plus (r : regex) : regex := Cat r (Star r).
Definition AtLeast2 (r : regex) : regex := Cat r (Cat r (Star r)).

(** A literal run of characters. *)
Fixpoint Lit (s : text) : regex :=
  match s with
  | [] => Eps
  | [c] => Chr c
  | c :: s' => Cat (Chr c) (Lit s')
  end.

(** The text captured by each group, latest first. *)
Definition captures := list (nat * text).

Fixpoint group (caps : captures) (i : nat) : text :=
  match caps with
  | [] => []
  | (j, t) :: caps' => if Nat.eqb i j then t else group caps' i
  end.

(** A position of the matcher: the character before it (none at the start of
    the string) and the text from it on. *)
Definition cont (R : Type) := option ascii -> text -> captures -> option R.

(** Greedy repetition of [body]: one more round of [body] first, the
    continuation when that fails.  A round has to consume a character; [n]
    bounds the number of rounds by the length of the text. *)
Fixpoint star_loop {R : Type}
    (body : option ascii -> text -> captures -> cont R -> option R)
    (n : nat) (prev : option ascii) (s : text) (caps : captures)
    (k : cont R) : option R :=
  match n with
  | O => k prev s caps
  | S n' =>
      match body prev s caps
              (fun prev' s' caps' =>
                 if Nat.ltb (length s') (length s)
                 then star_loop body n' prev' s' caps' k
                 else None) with
      | Some x => Some x
      | None => k prev s caps
      end
  end.

Fixpoint rmatch (R : Type) (r : regex) (prev : option ascii) (s : text)
    (caps : captures) (k : cont R) {struct r} : option R :=
  match r with
  | Eps => k prev s caps
  | Chr c =>
      match s with
      | x :: s' => if ascii_eqb x c then k (Some x) s' caps else None
      | [] => None
      end
  | Cls p =>
      match s with
      | x :: s' => if p x then k (Some x) s' caps else None
      | [] => None
      end
  | Cat r1 r2 =>
      rmatch R r1 prev s caps
        (fun prev' s' caps' => rmatch R r2 prev' s' caps' k)
  | Star r1 =>
      star_loop (fun p t c k' => rmatch R r1 p t c k') (length s) prev s caps k
  | Group i r1 =>
      rmatch R r1 prev s caps
        (fun prev' s' caps' =>
           k prev' s' ((i, firstn (length s - length s') s) :: caps'))
  | NotBehind p =>
      match prev with
      | Some x => if p x then None else k prev s caps
      | None => k prev s caps
      end
  | NotAhead r1 =>
      match rmatch unit r1 prev s caps (fun _ _ _ => Some tt) with
      | Some _ => None
      | None => k prev s caps
      end
  end.

(** One match attempt at a position: the captures, the last character
    consumed and the text after the match. *)
Definition re_match (r : regex) (prev : option ascii) (s : text)
  : option (captures * option ascii * text) :=
  rmatch _ r prev s [] (fun prev' s' caps' => Some (caps', prev', s')).

(** [re.sub(r, repl, s)]: from left to right, the leftmost match is replaced
    and the scan goes on after it; a character where no match starts is
    copied.  Every pattern of [app.py] consumes at least one character, so a
    match that consumes none is treated as no match. *)
Fixpoint sub_loop (r : regex) (repl : captures -> text) (fuel : nat)
    (prev : option ascii) (s : text) : text :=
  match fuel with
  | O => s
  | S fuel' =>
      match s with
      | [] => []
      | c :: s' =>
          match re_match r prev s with
          | Some (caps, prev', rest) =>
              if Nat.ltb (length rest) (length s)
              then repl caps ++ sub_loop r repl fuel' prev' rest
              else c :: sub_loop r repl fuel' (Some c) s'
          | None => c :: sub_loop r repl fuel' (Some c) s'
          end
      end
  end.

Definition re_sub_from (r : regex) (repl : captures -> text)
    (prev : option ascii) (s : text) : text :=
  sub_loop r repl (length s) prev s.

Definition re_sub (r : regex) (repl : captures -> text) (s : text) : text :=
  re_sub_from r repl None s.

(** ** Citation normalizer *)

Definition ws : regex := Cls is_space.
Definition digit : regex := Cls is_digit.

(** The pattern of line 205: an opening bracket, white space, group 1, white
    space, a closing bracket, where group 1 is a run of digits and white
    space followed by any number of rounds of a comma, white space, a run of
    digits and white space.  Every white space run may be empty. *)
Definition grouped_citation_re : regex :=
  Cat (Chr "[")
 (Cat (Star ws)
 (Cat (Group 1
        (Cat (Plus digit)
        (Cat (Star ws)
             (Star (Cat (Chr ",")
                   (Cat (Star ws) (Cat (Plus digit) (Star ws))))))))
 (Cat (Star ws) (Chr "]")))).

(** [replacer] of [preprocess_llm_text_for_citations]. *)
Definition replacer (caps : captures) : text :=
  let numbers := split_on "," (group caps 1) in
  join (str " ")
    (map (fun num => str "[" ++ strip num ++ str "]")
       (List.filter (fun num => py_isdigit (strip num)) numbers)).

(** The pattern of line 208: two bracketed runs of digits next to each other,
    groups 1 and 2. *)
Definition adjacent_markers_re : regex :=
  Cat (Group 1 (Cat (Chr "[") (Cat (Plus digit) (Chr "]"))))
      (Group 2 (Cat (Chr "[") (Cat (Plus digit) (Chr "]")))).

(** The replacement template of lines 208 and 226: group 1, a space,
    group 2. *)
Definition spaced_pair (caps : captures) : text :=
  group caps 1 ++ str " " ++ group caps 2.

Definition preprocess_llm_text_for_citations (t : text) : text :=
  let processed_text := re_sub grouped_citation_re replacer t in
  let processed_text := re_sub adjacent_markers_re spaced_pair processed_text in
  processed_text.

(** The class [[!\]/a-zA-Z0-9]] of the look-behind. *)
Definition marker_forbidden_before (c : ascii) : bool :=
  (ascii_eqb c "!" || ascii_eqb c "]" || ascii_eqb c "/"
   || is_ascii_alnum c)%bool.

(** The pattern of lines 223 and 468: not after a character of the class
    above, an opening bracket, group 1 = a run of digits, a closing bracket,
    not before another closing bracket. *)
Definition citation_marker_re : regex :=
  Cat (NotBehind marker_forbidden_before)
 (Cat (Chr "[")
 (Cat (Group 1 (Plus digit))
 (Cat (Chr "]")
      (NotAhead (Chr "]"))))).

(** [replace_citation_html] of [process_citation_markers_in_html]. *)
Definition replace_citation_html (caps : captures) : text :=
  let num := py_int (group caps 1) in
  str "<sup><a href='#' class='citation-marker' data-citation-index='"
  ++ py_str (num - 1) ++ str "' aria-label='Citation " ++ py_str num
  ++ str "'>[" ++ py_str num ++ str "]</a></sup>".

(** The pattern of line 226: a closing [sup] tag (group 1) next to an
    opening one (group 2). *)
Definition adjacent_sup_re : regex :=
  Cat (Group 1 (Lit (str "</sup>"))) (Group 2 (Lit (str "<sup>"))).

(** The first pass of [process_citation_markers_in_html]: every marker
    replaced. *)
Definition mark_citations (html_content : text) : text :=
  re_sub citation_marker_re replace_citation_html html_content.

(** Its second pass: a space between adjacent [sup] tags. *)
Definition space_sups (processed_html : text) : text :=
  re_sub adjacent_sup_re spaced_pair processed_html.

Definition process_citation_markers_in_html (html_content : text) : text :=
  let processed_html := mark_citations html_content in
  let processed_html := space_sups processed_html in
  processed_html.

(** The replacement of the marker pass inside [synthesize_with_gemini]: the
    anchor shows the digits as written and is followed by a space. *)
Definition inline_citation_anchor (caps : captures) : text :=
  str "<sup><a href='#' class='citation-marker' data-citation-index='"
  ++ py_str (py_int (group caps 1) - 1) ++ str "' aria-label='Citation "
  ++ group caps 1 ++ str "'>[" ++ group caps 1 ++ str "]</a></sup> ".

(** The pattern of line 474: group 1 = two or more white space
    characters. *)
Definition whitespace_run_re : regex := Group 1 (AtLeast2 ws).

(** Lines 465-474 of [synthesize_with_gemini]: the marker pass, then runs of
    white space collapsed. *)
Definition bind_citations_inline (html_answer : text) : text :=
  re_sub citation_marker_re inline_citation_anchor html_answer.

Definition collapse_whitespace (html_answer : text) : text :=
  re_sub whitespace_run_re (fun _ => str " ") html_answer.

Definition postprocess_answer_html (html_answer : text) : text :=
  collapse_whitespace (bind_citations_inline html_answer).

(** ** Effects

    An [action] runs in a state of the outside world and ends by returning a
    value or raising an exception; either way it leaves a new state. *)

Inductive exn_kind : Type :=
| TypeError
| ValueError
| IndexError
| RequestsTimeout
| RequestsHTTPError
| RequestsOther
| OtherException.

(** An exception: its class and [str(e)]. *)
Record exn : Type := { kind : exn_kind; message : text }.

Inductive outcome (A : Type) : Type :=
| Returns (a : A)
| Raises (e : exn).

Arguments Returns {A} a.
Arguments Raises {A} e.

Definition action (W A : Type) : Type := W -> outcome A * W.

Definition act_ret {W A} (a : A) : action W A := fun w => (Returns a, w).

Definition act_raise {W A} (e : exn) : action W A := fun w => (Raises e, w).

Definition act_lift {W A} (o : outcome A) : action W A := fun w => (o, w).

Definition act_bind {W A B} (m : action W A) (f : A -> action W B)
  : action W B :=
  fun w =>
    match m w with
    | (Returns a, w') => f a w'
    | (Raises e, w') => (Raises e, w')
    end.

(** [try: m except Exception as e: h e]. *)
Definition act_catch {W A} (m : action W A) (h : exn -> action W A)
  : action W A :=
  fun w =>
    match m w with
    | (Returns a, w') => (Returns a, w')
    | (Raises e, w') => h e w'
    end.

Notation "'do' x <- m ;; k" := (act_bind m (fun x => k))
  (at level 10, x name, m at level 99, k at level 200).

(** The truth value of a [str] or a list: not empty. *)
Definition truthy {A} (s : list A) : bool :=
  match s with
  | [] => false
  | _ :: _ => true
  end.

(** ** Constants *)

Definition QUICK_SEARCH_RESULTS : Z := 7.
Definition DEEP_SEARCH_RESULTS : Z := 18.
Definition MAX_CONTENT_LENGTH_PER_SITE : Z := 15000.
Definition MAX_TOTAL_CONTENT_LENGTH : Z := 200000.
Definition SOURCE_PREVIEW_LENGTH : Z := 300.

(** ** Extractor: [scrape_url] *)

(** What [requests.get] returns, as far as [scrape_url] looks at it. *)
Record response : Type := {
  status_code : Z;
  content_type : option text;   (* headers.get('Content-Type') *)
  content : list Byte.byte      (* the raw payload *)
}.

(** [response.raise_for_status()]. *)
Definition raise_for_status (r : response) : outcome unit :=
  if ((400 <=? status_code r) && (status_code r <? 600))%Z
  then Raises {| kind := RequestsHTTPError; message := py_str (status_code r) |}
  else Returns tt.

(** The lookups of [potential_containers], in order; the document itself is
    the last candidate. *)
Inductive selector : Type :=
| Article
| Main
| DivIdContent
| DivClassContent
| DivIdMainContent
| DivClassMainContent
| DivClassEntryContent
| DivRoleMain.

Definition container_selectors : list selector :=
  [Article; Main; DivIdContent; DivClassContent; DivIdMainContent;
   DivClassMainContent; DivClassEntryContent; DivRoleMain].

Section Extractor.

Context {W : Type}.

(** [trafilatura.fetch_url] and [trafilatura.extract]. *)
Variable trafilatura_fetch_url : text -> action W (option text).
Variable trafilatura_extract : text -> outcome (option text).

(** [requests.get(url, timeout=..., headers=..., verify=True)]. *)
Variable requests_get : text -> action W response.

(** [BeautifulSoup(content, 'lxml')], [soup.find(...)] for each selector,
    and the [get_text(strip=True)] of every [p] below a node. *)
Variable Soup : Type.
Variable BeautifulSoup : list Byte.byte -> outcome Soup.
Variable find : Soup -> selector -> option Soup.
Variable find_all_p : Soup -> list text.

(** [x.strip()[:MAX_CONTENT_LENGTH_PER_SITE]] *)
Definition clip (x : text) : text :=
  slice_to (Z.to_nat MAX_CONTENT_LENGTH_PER_SITE) (strip x).

(** Step 1, the try block around Trafilatura.  [Some t]: the function
    returns [t]; [None]: it goes on with the fallback. *)
Definition scrape_primary (url : text) : action W (option text) :=
  act_catch
    (do downloaded <- trafilatura_fetch_url url ;;
     match downloaded with
     | Some d =>
         if truthy d then
           do main_content <- act_lift (trafilatura_extract d) ;;
           match main_content with
           | Some mc =>
               if (truthy mc && (100 <? len mc)%Z)%bool
               then act_ret (Some (clip mc))
               else act_ret None
           | None => act_ret None
           end
         else act_ret None
     | None => act_ret None
     end)
    (fun _ => act_ret None).

(** The loop over [potential_containers]: the text of the first candidate
    whose paragraphs join to more than 200 characters. *)
Fixpoint first_container_text (containers : list (option Soup)) : text :=
  match containers with
  | [] => []
  | None :: rest => first_container_text rest
  | Some container :: rest =>
      let paragraphs := find_all_p container in
      if truthy paragraphs then
        let extracted_text := join (str " ") paragraphs in
        if (200 <? len extracted_text)%Z then extracted_text
        else first_container_text rest
      else first_container_text rest
  end.

Definition soup_text (soup : Soup) : text :=
  let potential_containers :=
    map (find soup) container_selectors ++ [Some soup] in
  let text := first_container_text potential_containers in
  if truthy text then text
  else
    let all_paragraphs := find_all_p soup in
    if truthy all_paragraphs then
      let extracted_text := join (str " ") all_paragraphs in
      if (100 <? len extracted_text)%Z then extracted_text else []
    else [].

(** Step 2, the try block around the BeautifulSoup fallback. *)
Definition scrape_fallback (url : text) : action W (option text) :=
  act_catch
    (do response <- requests_get url ;;
     do _ <- act_lift (raise_for_status response) ;;
     let content_type :=
       lower (match content_type response with
              | Some v => v
              | None => []
              end) in
     if negb (contains (str "html") content_type) then act_ret None
     else if (7000000 <? len (content response))%Z then act_ret None
     else
       do soup <- act_lift (BeautifulSoup (content response)) ;;
       let text := soup_text soup in
       if truthy text then act_ret (Some (clip text))
       else act_ret None)
    (fun _ => act_ret None).

Definition scrape_url (url : text) : action W (option text) :=
  do r <- scrape_primary url ;;
  match r with
  | Some t => act_ret (Some t)
  | None => scrape_fallback url
  end.

End Extractor.

(** ** Aggregator: [scrape_urls] *)

(** An entry of [scraped_data]. *)
Record scraped : Type := {
  item_id : Z;
  item_url : text;
  item_text : text
}.

(** The variables of the loop of [scrape_urls]. *)
Record scrape_state : Type := {
  scraped_data : list scraped;
  total_content_length : Z;
  urls_attempted : gset text
}.

Section Aggregator.

Context {W : Type}.

(** [scrape_url], with the outside world it reads. *)
Variable scrape_url : text -> action W (option text).

Definition scrape_start : scrape_state :=
  {| scraped_data := []; total_content_length := 0; urls_attempted := ∅ |}.

(** The body of [if content: ...]. *)
Definition record_content (st : scrape_state) (url content : text)
  : scrape_state :=
  {| scraped_data :=
       scraped_data st
       ++ [{| item_id := len (scraped_data st); item_url := url;
              item_text := content |}];
     total_content_length := total_content_length st + len content;
     urls_attempted := urls_attempted st |}.

(** The loop.  Line 178 reads
    [if url in urls_attempted: continue; urls_attempted.add(url)]: both
    statements are the suite of the [if], so the [add] comes after the
    [continue] and is never run, and [urls_attempted] stays as it is.
    [time.sleep] has no counterpart. *)
Fixpoint scrape_loop (urls : list text) (st : scrape_state)
  : action W scrape_state :=
  match urls with
  | [] => act_ret st
  | url :: rest =>
      if decide (url ∈ urls_attempted st) then scrape_loop rest st
      else if (MAX_TOTAL_CONTENT_LENGTH <=? total_content_length st)%Z
      then act_ret st
      else
        do content <- scrape_url url ;;
        let st' :=
          match content with
          | Some c => if truthy c then record_content st url c else st
          | None => st
          end in
        scrape_loop rest st'
  end.

Definition scrape_urls (urls : list text) : action W (list scraped) :=
  do st <- scrape_loop urls scrape_start ;;
  act_ret (scraped_data st).

End Aggregator.

(** [format_context_for_llm] *)
Definition format_context_for_llm (scraped_data : list scraped) : text :=
  fold_left
    (fun context_str item =>
       context_str ++ str "Source [" ++ py_str (item_id item + 1)
       ++ str "] (" ++ item_url item ++ str "):" ++ [ascii_of_nat 10]
       ++ item_text item ++ str "

---

")
    scraped_data [].

(** ** Prompt builder *)

Definition dq : text := [ascii_of_nat 34].
Definition nl : text := [ascii_of_nat 10].

Definition structure_prompt (query context_string : text) : text :=
  str "
    User Query: "
  ++ dq
  ++ query
  ++ dq
  ++ str "

    Based on the provided sources, generate ONLY the Title, Abstract, and Introduction sections
    for a comprehensive academic research article. Focus on creating a strong foundation for the
    article with a clear research question, context, and objectives.

    Sources:
    --- START OF SOURCES ---
    "
  ++ context_string
  ++ str "
    --- END OF SOURCES ---
    ".

Definition middle_prompt (query context_string : text) : text :=
  str "
    User Query: "
  ++ dq
  ++ query
  ++ dq
  ++ str "

    Based on the provided sources, generate ONLY the Literature Review and Analysis/Discussion sections
    for a comprehensive academic research article. The Title, Abstract, and Introduction have already been generated.
    Focus on thorough analysis of existing research and detailed discussion of findings.

    Sources:
    --- START OF SOURCES ---
    "
  ++ context_string
  ++ str "
    --- END OF SOURCES ---
    ".

Definition conclusion_prompt (query context_string : text) : text :=
  str "
    User Query: "
  ++ dq
  ++ query
  ++ dq
  ++ str "

    Based on the provided sources, generate ONLY the Conclusion and References sections
    for a comprehensive academic research article. The previous sections have already been generated.
    Focus on summarizing key findings and properly formatting all references.

    Sources:
    --- START OF SOURCES ---
    "
  ++ context_string
  ++ str "
    --- END OF SOURCES ---
    ".

Definition base_instructions (query context_string : text) : text :=
  str "User Query: "
  ++ dq
  ++ query
  ++ dq
  ++ str "

Sources:
--- START OF SOURCES ---
"
  ++ context_string
  ++ str "
--- END OF SOURCES ---

General Instructions:
1.  Analyze the User Query and ALL provided Sources meticulously. Ignore irrelevant sources.
2.  **Cite (Inline):** Add `[N]` after information from Source N. Use individual markers `[1][4][5]` for combined info. Place before punctuation. **Accuracy is critical.**
3.  **Source Reliance:** Base the response *exclusively* on the provided sources. NO outside knowledge.
4.  **Clarity & Structure:** Use clear language and Markdown formatting.
5.  **Handling Gaps:** If sources lack info, state it clearly. Do not invent.
6.  **Tone:** Objective, factual, neutral.
7.  **Output:** Generate ONLY the Markdown answer, starting directly without preamble.
".

Definition deep_specific_instructions (query context_string : text) : text :=
  str "
COMPREHENSIVE ACADEMIC RESEARCH ARTICLE GENERATION GUIDELINES

Research Query: "
  ++ dq
  ++ query
  ++ dq
  ++ str "

ARTICLE STRUCTURE AND EXPECTATIONS:
1. Length: Generate a comprehensive research article of approximately 10-15 pages (2500-3750 words)
2. Academic Rigor: Produce a scholarly, well-researched, and critically analyzed response
3. Formatting: Use academic writing conventions with clear structure

DETAILED ARTICLE COMPONENTS:

I. Title Page
- Concise, informative title reflecting the research query
- Subtitle if appropriate
- Implied academic affiliation (e.g., "
  ++ dq
  ++ str "Interdisciplinary Research Institute"
  ++ dq
  ++ str ")

II. Abstract (250-300 words)
- Clearly state research query
- Summarize key findings
- Highlight research significance
- Briefly mention methodological approach

III. Introduction (500-600 words)
- Contextualize the research query
- State research objectives
- Explain significance and relevance
- Provide theoretical or conceptual framework
- Present central research questions or hypotheses

IV. Comprehensive Literature Review (800-1000 words)
- Systematic review of existing research
- Critical analysis of current knowledge
- Identify gaps and controversies
- Synthesize perspectives from multiple sources
- Demonstrate deep understanding of the topic

V. Detailed Analysis and Discussion (1200-1500 words)
- In-depth exploration of research findings
- Integrate evidence from provided sources
- Present multiple perspectives
- Critical interpretation of information
- Address potential counterarguments
- Connect findings to broader context

VI. Conclusion (400-500 words)
- Summarize key findings
- Reflect on research implications
- Suggest future research directions
- Provide definitive insights

VII. References
- Comprehensive list of sources
- Formatted in APA, MLA, or Chicago style
- Include all cited sources from web scraping
- Ensure proper academic citation format

SPECIFIC RESEARCH GUIDELINES:
- Use academic, formal language
- Maintain objective, analytical tone
- Critically evaluate and synthesize information
- Provide nuanced, balanced perspectives
- Demonstrate scholarly depth and intellectual rigor

CITATION INSTRUCTIONS:
- Use numbered citation markers [1], [2], etc.
- Cite sources for all claims and data points
- Paraphrase and quote appropriately
- Maintain academic integrity

CONTEXT FROM WEB SOURCES:
"
  ++ context_string
  ++ str "

FINAL INSTRUCTIONS:
- Prioritize accuracy and scholarly integrity
- Do not fabricate information
- If sources are insufficient, clearly state limitations
- Aim for a comprehensive, authoritative response

Generate the complete research article following these guidelines.".

Definition quick_specific_instructions  : text :=
  str "
Specific Instructions for Quick Answer:
*   **Goal:** Concise, informative answer synthesizing key points from sources.
*   **Structure:** Use paragraphs, `### Subheadings` (optional), `* Bullet points`.
".

(** [create_gemini_prompt] *)
Definition create_gemini_prompt (query context_string depth : text) : text :=
  if text_eqb depth (str "deep")
  then base_instructions query context_string
       ++ deep_specific_instructions query context_string
       ++ nl ++ str "Synthesized Deep Research Article (Markdown format):"
  else base_instructions query context_string
       ++ quick_specific_instructions
       ++ nl ++ str "Synthesized Answer (Markdown format):".

(** ** Synthesizer *)

(** A candidate of a model response: the name of its finish reason and the
    texts of [content.parts], [None] when [content] has no such attribute. *)
Record candidate : Type := {
  finish_reason : text;
  parts : option (list text)
}.

(** A model response: its candidates, the name of
    [prompt_feedback.block_reason] when there is one, and what the accessor
    [response.text] gives. *)
Record model_response : Type := {
  candidates : list candidate;
  block_reason : option text;
  response_text : outcome text
}.

(** What [synthesize_with_gemini] returns: the dictionary with the key
    [error], or the one with [answer_raw] and [answer_html]. *)
Inductive synthesis_result : Type :=
| Error (error : text)
| Answer (answer_raw answer_html : text).

(** [response.candidates and hasattr(response.candidates[0].content, 'parts')] *)
Definition has_content_parts (r : model_response) : bool :=
  match candidates r with
  | [] => false
  | c :: _ =>
      match parts c with
      | Some _ => true
      | None => false
      end
  end.

(** [error_map.get(reason, ...)] *)
Definition finish_error (reason : text) : text :=
  if text_eqb reason (str "MAX_TOKENS") then str "AI response cut short."
  else if text_eqb reason (str "SAFETY") then str "Blocked by safety."
  else if text_eqb reason (str "RECITATION") then str "Blocked (recitation)."
  else str "AI failed (Reason: " ++ reason ++ str ").".

(** The message the exception handler of [synthesize_with_gemini] makes of
    [str(e)]. *)
Definition communication_error (e : text) : text :=
  if (contains (str "API key not valid") e
      || contains (str "invalidated api key") (lower e))%bool
  then str "Invalid Gemini API Key."
  else if (contains (str "Rate limit exceeded") e
           || contains (str "quota") (lower e)
           || contains (str "429") e)%bool
  then str "AI model rate limit exceeded. Please try again later or check your API quota."
  else if contains (str "User location is not supported") e
  then str "AI model access restricted by location."
  else if (contains (str "exceeds the maximum token limit") (lower e)
           || contains (str "token limit") (lower e))%bool
  then str "Content too large for AI model. Try with fewer sources or 'Quick' mode."
  else str "AI communication error: " ++ e.

Section Synthesizer.

Context {W : Type}.

(** [model.generate_content(prompt, ...)] with the prompt and
    [max_output_tokens]; the safety settings and the temperature are the
    same in every call. *)
Variable generate_content : text -> Z -> action W model_response.

(** The Markdown parser made by [mistune.create_markdown]. *)
Variable markdown_parser : text -> outcome text.

(** The step after a chunk that is not the first: its text is appended
    after a blank line when the response has candidates with parts. *)
Definition append_chunk (generated_text : text) (r : model_response)
  : action W text :=
  if has_content_parts r then
    do t <- act_lift (response_text r) ;;
    act_ret (generated_text ++ nl ++ nl ++ t)
  else act_ret generated_text.

(** [generate_chunked_deep_research]; [prompt] and [safety_settings] play
    no part in its result. *)
Definition generate_chunked_deep_research (query context_string : text)
  : action W (option text) :=
  do structure_response <-
    generate_content (structure_prompt query context_string) 2000 ;;
  if negb (has_content_parts structure_response) then act_ret None
  else
    do generated_text <- act_lift (response_text structure_response) ;;
    do middle_response <-
      generate_content (middle_prompt query context_string) 3000 ;;
    do generated_text <- append_chunk generated_text middle_response ;;
    do conclusion_response <-
      generate_content (conclusion_prompt query context_string) 2000 ;;
    do generated_text <- append_chunk generated_text conclusion_response ;;
    act_ret (Some generated_text).

(** The branch for the quick depth: [inl] is an early [return] of an
    error, [inr] the raw text. *)
Definition quick_generation (prompt : text)
  : action W (synthesis_result + text) :=
  let max_tokens := 8192%Z in
  do response <- generate_content prompt max_tokens ;;
  match candidates response with
  | c :: _ =>
      if negb (text_eqb (finish_reason c) (str "STOP"))
      then act_ret (inl (Error (finish_error (finish_reason c))))
      else
        match parts c with
        | None => act_ret (inl (Error (str "AI returned empty response.")))
        | Some [] =>
            act_raise {| kind := IndexError;
                         message := str "list index out of range" |}
        | Some (p :: _) =>
            if negb (truthy p)
            then act_ret (inl (Error (str "AI returned empty response.")))
            else
              do generated_text_raw <- act_lift (response_text response) ;;
              act_ret (inr generated_text_raw)
        end
  | [] =>
      match block_reason response with
      | Some reason =>
          act_ret (inl (Error (str "Prompt blocked (" ++ reason ++ str ").")))
      | None => act_ret (inl (Error (str "AI returned empty response.")))
      end
  end.

(** The branch for the deep depth. *)
Definition deep_generation (query context_string : text)
  : action W (synthesis_result + text) :=
  do generated_text_raw <-
    generate_chunked_deep_research query context_string ;;
  match generated_text_raw with
  | Some t =>
      if truthy t then act_ret (inr t)
      else act_ret (inl (Error (str "Failed to generate deep research content")))
  | None =>
      act_ret (inl (Error (str "Failed to generate deep research content")))
  end.

(** Lines 458-477: the citation passes around the Markdown parser. *)
Definition render_answer (generated_text_raw : text)
  : action W synthesis_result :=
  let generated_text_processed :=
    preprocess_llm_text_for_citations generated_text_raw in
  do html_answer <- act_lift (markdown_parser generated_text_processed) ;;
  let html_answer := postprocess_answer_html html_answer in
  act_ret (Answer generated_text_processed html_answer).

Definition synthesize_with_gemini (query : text)
    (scraped_data : list scraped) (api_key depth : text)
  : action W synthesis_result :=
  if negb (truthy api_key) then act_ret (Error (str "AI key missing."))
  else if negb (truthy scraped_data)
  then act_ret (Error (str "No content to synthesize."))
  else
    let context_string := format_context_for_llm scraped_data in
    let prompt := create_gemini_prompt query context_string depth in
    act_catch
      (do generated <-
         (if text_eqb depth (str "deep")
          then deep_generation query context_string
          else quick_generation prompt) ;;
       match generated with
       | inl early => act_ret early
       | inr generated_text_raw => render_answer generated_text_raw
       end)
      (fun e => act_ret (Error (communication_error (message e)))).

End Synthesizer.

(** ** Reports and the paginated-document renderer *)

(** An entry of the result list of [perform_search]. *)
Record search_hit : Type := {
  hit_title : text;
  hit_url : text;
  hit_body : text
}.

(** An entry of [sources_final]. *)
Record source : Type := {
  source_id : Z;
  source_url : text;
  source_title : text;
  source_text_preview : text
}.

Record report : Type := {
  report_query : text;
  report_answer_raw : text;
  report_answer_html : text;
  report_sources : list source;
  report_research_depth : text
}.

(** [url_to_title_map] of [process_query_route]: a later hit for a URL
    replaces an earlier one. *)
Definition url_to_title_map (search_results : list search_hit)
  : gmap text text :=
  fold_left
    (fun m r => if truthy (hit_url r) then <[hit_url r := hit_title r]> m else m)
    search_results ∅.

(** [sources_final] of [process_query_route]. *)
Definition sources_final (search_results : list search_hit)
    (scraped_data : list scraped) : list source :=
  map (fun item =>
         {| source_id := item_id item;
            source_url := item_url item;
            source_title :=
              match url_to_title_map search_results !! item_url item with
              | Some title => title
              | None => str "Source " ++ py_str (item_id item + 1)
              end;
            source_text_preview :=
              slice_to (Z.to_nat SOURCE_PREVIEW_LENGTH) (item_text item) |})
      scraped_data.

(** [s.replace(old, new)] for a one-character [old]. *)
Definition replace_char (old : ascii) (new : text) (s : text) : text :=
  flat_map (fun c => if ascii_eqb c old then new else [c]) s.

(** [html.escape(s)], with [quote=True]. *)
Definition html_escape (s : text) : text :=
  let s := replace_char "&" (str "&amp;") s in
  let s := replace_char "<" (str "&lt;") s in
  let s := replace_char ">" (str "&gt;") s in
  let s := replace_char (ascii_of_nat 34) (str "&quot;") s in
  let s := replace_char "'" (str "&#x27;") s in
  s.

(** The list item of one source, [i] counting from 0. *)
Definition source_item_html (research_depth : text) (i : Z) (s : source)
  : text :=
  let title := html_escape (source_title s) in
  let url := html_escape (source_url s) in
  let preview := html_escape (source_text_preview s) in
  let item :=
    str "<li><span class=" ++ dq ++ str "source-number" ++ dq ++ str ">["
    ++ py_str (i + 1) ++ str "]</span> <span class=" ++ dq
    ++ str "source-title" ++ dq ++ str ">" ++ title ++ str "</span>" in
  let item :=
    if (text_eqb research_depth (str "deep") && truthy url)%bool
    then item ++ str " <a href=" ++ dq ++ url ++ dq ++ str " class=" ++ dq
         ++ str "source-url" ++ dq ++ str ">(" ++ url ++ str ")</a>"
    else if (text_eqb research_depth (str "quick") && truthy url)%bool
    then item ++ str "<br><a href=" ++ dq ++ url ++ dq ++ str " class=" ++ dq
         ++ str "source-url" ++ dq ++ str ">" ++ url ++ str "</a>"
    else item in
  let item :=
    if (text_eqb research_depth (str "quick") && truthy preview)%bool
    then item ++ str "<p class=" ++ dq ++ str "source-preview" ++ dq ++ str ">"
         ++ preview ++ str "...</p>"
    else item in
  item ++ str "</li>".

(** The items of [enumerate(sources)] from index [i] on. *)
Fixpoint source_items_html (research_depth : text) (i : Z)
    (sources : list source) : text :=
  match sources with
  | [] => []
  | s :: rest =>
      source_item_html research_depth i s
      ++ source_items_html research_depth (i + 1) rest
  end.

Definition source_list_html (research_depth : text) (sources : list source)
  : text :=
  if truthy sources then
    let list_class :=
      str "sources-list "
      ++ (if text_eqb research_depth (str "deep")
          then str "deep-list" else str "quick-list") in
    str "<ul class=" ++ dq ++ list_class ++ dq ++ str ">"
    ++ source_items_html research_depth 0 sources
    ++ str "</ul>"
  else str "<p>No sources were cited.</p>".

Definition sources_heading_text (research_depth : text) : text :=
  if text_eqb research_depth (str "deep")
  then str "References" else str "Sources Cited".

Definition pdf_html (query answer_html_content sources_heading_text
    source_list_html : text) : text :=
  str "
        <!DOCTYPE html><html><head><meta charset="
  ++ dq
  ++ str "UTF-8"
  ++ dq
  ++ str "><title>Report: "
  ++ html_escape query
  ++ str "</title><style>
            /* Base styles */
            @page { size: a4 portrait; margin: 2cm 1.5cm; @frame header_frame { -pdf-frame-content: header_content; left: 1.5cm; width: 18cm; top: 1cm; height: 1cm; } @frame footer_frame { -pdf-frame-content: footer_content; left: 1.5cm; width: 18cm; top: 26.7cm; height: 1cm; } }
            body { font-family: Arial, Helvetica, sans-serif; font-size: 10pt; line-height: 1.4; color: #333; }
            #header_content, #footer_content { font-size: 9pt; color: #777; } #header_content { text-align: left; } #footer_content { text-align: right; }
            h1.report-title { font-size: 16pt; color: #2c3e50; margin-bottom: 5px; font-weight: bold; }
            h2.query-title { font-size: 11pt; color: #555; font-weight: normal; margin-bottom: 20px; border-bottom: 1px solid #eee; padding-bottom: 10px; }
            /* Content Styles */
            .answer-content h2 { font-size: 14pt; color: #2c3e50; margin-top: 1.2em; margin-bottom: 0.6em; font-weight: bold; border-bottom: 1px solid #ccc; padding-bottom: 3px; }
            .answer-content h3 { font-size: 12pt; color: #2c3e50; margin-top: 1em; margin-bottom: 0.5em; font-weight: bold; border-bottom: 1px solid #eee; padding-bottom: 2px; }
            .answer-content p { margin-bottom: 0.8em; text-align: justify; }
            .answer-content ul, .answer-content ol { margin-left: 20px; margin-bottom: 0.8em; } .answer-content ul { list-style-type: disc; } .answer-content ol { list-style-type: decimal; } .answer-content li { margin-bottom: 0.3em; }
            .answer-content a { color: #0066cc; text-decoration: underline; }
            /* Citation Marker Style - Improved for PDF */
            .answer-content sup { display: inline-block; margin: 0 1px; }
            sup a.citation-marker {
                font-size: 0.8em;
                vertical-align: super;
                padding: 1px 2px;
                margin: 0 1px;
                color: #0066cc;
                text-decoration: none;
                background-color: #f0f0f0;
                border-radius: 2px;
                display: inline-block;
            }
            /* Source List Styles */
            h3.sources-heading { font-size: 14pt; color: #2c3e50; margin-top: 25px; margin-bottom: 10px; border-bottom: 1px solid #ccc; padding-bottom: 5px; page-break-before: always; }
            ul.sources-list { list-style-type: none; padding-left: 5px; margin-top: 0; }
            ul.sources-list li { margin-bottom: 8px; font-size: 9pt; line-height: 1.3; }
            span.source-number { font-weight: bold; margin-right: 5px; color: #111; } span.source-title { color: #333; font-weight: 600; }
            a.source-url { color: #0066cc; text-decoration: none; font-size: 0.9em; word-break: break-all; }
            ul.quick-list li { background-color: #f8f8f8; padding: 8px; border: 1px solid #eee; border-radius: 3px;}
            ul.quick-list a.source-url { display: block; margin-top: 2px; }
            p.source-preview { color: #555; font-size: 0.85em; margin-top: 5px; margin-bottom: 0; padding-left: 15px; border-left: 2px solid #ddd; max-height: 4.5em; overflow: hidden; }
            ul.deep-list li { background-color: transparent; padding: 2px 0; border: none; }
            ul.deep-list a.source-url { display: inline; margin-left: 5px; }
            ul.deep-list p.source-preview { display: none; }
            </style></head><body>
            <div id="
  ++ dq
  ++ str "header_content"
  ++ dq
  ++ str ">Research Report</div><div id="
  ++ dq
  ++ str "footer_content"
  ++ dq
  ++ str ">Page <pdf:pagenumber> of <pdf:pagecount></div>
            <h1 class="
  ++ dq
  ++ str "report-title"
  ++ dq
  ++ str ">Research Report</h1><h2 class="
  ++ dq
  ++ str "query-title"
  ++ dq
  ++ str ">Query: "
  ++ html_escape query
  ++ str "</h2>
            <div class="
  ++ dq
  ++ str "answer-content"
  ++ dq
  ++ str ">"
  ++ answer_html_content
  ++ str "</div>
            <h3 class="
  ++ dq
  ++ str "sources-heading"
  ++ dq
  ++ str ">"
  ++ sources_heading_text
  ++ str "</h3>
            "
  ++ source_list_html
  ++ str "
            </body></html>".

(** The page handed to the PDF backend. *)
Definition report_pdf_html (report_data : report) : text :=
  pdf_html (report_query report_data) (report_answer_html report_data)
    (sources_heading_text (report_research_depth report_data))
    (source_list_html (report_research_depth report_data)
       (report_sources report_data)).

(** What [pisa.CreatePDF] reports: the error count and the bytes written to
    the destination stream. *)
Record pisa_status : Type := {
  err : Z;
  dest : list Byte.byte
}.

Section Renderer.

Context {W : Type}.

Variable pisa_CreatePDF : text -> action W pisa_status.

Definition generate_pdf (report_data : report)
  : action W (option (list Byte.byte)) :=
  act_catch
    (do status <- pisa_CreatePDF (report_pdf_html report_data) ;;
     if negb (err status =? 0)%Z then act_ret None
     else act_ret (Some (dest status)))
    (fun _ => act_ret None).

End Renderer.

(** ** Report store: [add_to_report_store] *)

Definition REPORT_STORE_MAX_ITEMS : Z := 100.

(** The module-level variables [report_store] and [report_order]. *)
Record store : Type := {
  report_store : gmap text report;
  report_order : list text
}.

Definition empty_store : store := {| report_store := ∅; report_order := [] |}.

(** [report_order.pop(0)] raises [IndexError] on an empty list, which the
    function passes over. *)
Definition add_to_report_store (report_id : text) (data : report)
    (st : store) : store :=
  let st :=
    if (REPORT_STORE_MAX_ITEMS <=? Z.of_nat (size (report_store st)))%Z then
      match report_order st with
      | oldest_id :: rest =>
          {| report_store :=
               if decide (is_Some (report_store st !! oldest_id))
               then delete oldest_id (report_store st)
               else report_store st;
             report_order := rest |}
      | [] => st
      end
    else st in
  {| report_store := <[report_id := data]> (report_store st);
     report_order := report_order st ++ [report_id] |}.

(** ** Search: [perform_search] *)

(** A result of [DDGS.text], as far as [perform_search] reads it: the values
    under the keys [title], [href] and [body], each of which may be
    missing. *)
Record ddgs_result : Type := {
  result_title : option text;
  result_href : option text;
  result_body : option text
}.

(** [d.get(key, default)] *)
Definition get_or {A} (default : A) (v : option A) : A :=
  match v with
  | Some x => x
  | None => default
  end.

Section Search.

Context {W : Type}.

(** Opening the [DDGS] session and [list(ddgs.text(query, max_results))]. *)
Variable ddgs_text : text -> Z -> action W (list ddgs_result).

Definition perform_search (query : text) (num_results : Z)
  : action W (list search_hit) :=
  act_catch
    (do search_results <- ddgs_text query num_results ;;
     if truthy search_results then
       act_ret
         (map (fun r =>
                 {| hit_title := get_or [] (result_title r);
                    hit_url := get_or [] (result_href r);
                    hit_body := get_or [] (result_body r) |})
            (List.filter (fun r => truthy (get_or [] (result_href r)))
               search_results))
     else act_ret [])
    (fun _ => act_ret []).

End Search.

(** ** Word-processor renderer: [generate_docx] *)

Inductive paragraph_style : Type :=
| StyleNormal
| StyleListBullet
| StyleListNumber.

Record docx_run : Type := { run_text : text; run_bold : bool }.

(** What the calls on the document add to it: a heading with its level, a
    paragraph with its style, its hanging indent and its runs, a page
    break. *)
Inductive docx_block : Type :=
| DocHeading (heading_text : text) (level : Z)
| DocParagraph (style : paragraph_style) (hanging : bool)
    (runs : list docx_run)
| DocPageBreak.

Definition plain_run (t : text) : docx_run :=
  {| run_text := t; run_bold := false |}.

Definition bold_run (t : text) : docx_run :=
  {| run_text := t; run_bold := true |}.

(** [document.add_paragraph(text, style)] makes one run of a text that is
    not empty. *)
Definition text_paragraph (style : paragraph_style) (t : text) : docx_block :=
  DocParagraph style false (if truthy t then [plain_run t] else []).

(** [paragraph.add_run(text)] *)
Definition add_run (r : docx_run) (b : docx_block) : docx_block :=
  match b with
  | DocParagraph style hanging runs => DocParagraph style hanging (runs ++ [r])
  | _ => b
  end.

(** [s.lstrip(chars)], [s.strip(chars)] for the characters [p] holds of. *)
Definition lstrip_chars (p : ascii -> bool) (s : text) : text :=
  drop_while p s.

Definition strip_chars (p : ascii -> bool) (s : text) : text :=
  rev (drop_while p (rev (drop_while p s))).

(** [s.count(c, 0, n)] for a character [c]. *)
Definition count_char (c : ascii) (n : nat) (s : text) : Z :=
  len (List.filter (ascii_eqb c) (firstn n s)).

Definition is_hash_or_space (c : ascii) : bool :=
  (ascii_eqb c "#" || ascii_eqb c " ")%bool.

(** The start of the text, in a pattern without the multi-line flag: the
    position no character comes before. *)
Definition Bol : regex := NotBehind (fun _ => true).

(** The pattern of lines 527 and 529: at the start, a run of digits, a full
    stop and a run of white space. *)
Definition numbered_item_re : regex :=
  Cat Bol (Cat (Plus digit) (Cat (Chr ".") (Plus ws))).

(** The variables of the loop over the lines of the answer:
    [current_paragraph] is a reference to a paragraph of the document, kept
    as its position. *)
Record docx_state : Type := {
  document : list docx_block;
  current_paragraph : option nat
}.

(** One round of the loop of lines 508-548. *)
Definition docx_line (st : docx_state) (line : text) : docx_state :=
  let stripped_line := strip line in
  if starts_with (str "#") stripped_line then
    let level := count_char "#" 3 stripped_line in
    let heading_text := strip (lstrip_chars is_hash_or_space stripped_line) in
    {| document :=
         if truthy heading_text
         then document st ++ [DocHeading heading_text (Z.min level 3)]
         else document st;
       current_paragraph := None |}
  else
    let '(is_list_item, list_content, list_style) :=
      if (starts_with (str "* ") stripped_line
          || starts_with (str "- ") stripped_line)%bool
      then (true, skipn 2 stripped_line, StyleListBullet)
      else
        match re_match numbered_item_re None stripped_line with
        | Some _ =>
            (true, re_sub numbered_item_re (fun _ => []) stripped_line,
             StyleListNumber)
        | None => (false, [], StyleListBullet)
        end in
    if is_list_item then
      {| document :=
           if truthy list_content
           then document st ++ [text_paragraph list_style list_content]
           else document st;
         current_paragraph := None |}
    else if truthy stripped_line then
      match current_paragraph st with
      | None =>
          {| document :=
               document st ++ [text_paragraph StyleNormal stripped_line];
             current_paragraph := Some (length (document st)) |}
      | Some i =>
          {| document :=
               alter (add_run (plain_run (nl ++ stripped_line))) i
                 (document st);
             current_paragraph := Some i |}
      end
    else {| document := document st; current_paragraph := None |}.

(** The paragraph of one source, [i] counting from 0. *)
Definition docx_source_paragraph (research_depth : text) (i : Z) (s : source)
  : docx_block :=
  DocParagraph StyleNormal true
    ([bold_run (str "[" ++ py_str (i + 1) ++ str "] ");
      plain_run (source_title s)]
     ++ (if (text_eqb research_depth (str "deep")
             && truthy (source_url s))%bool
         then [plain_run (str " (" ++ source_url s ++ str ")")]
         else [])).

Fixpoint docx_source_paragraphs (research_depth : text) (i : Z)
    (sources : list source) : list docx_block :=
  match sources with
  | [] => []
  | s :: rest =>
      docx_source_paragraph research_depth i s
      :: docx_source_paragraphs research_depth (i + 1) rest
  end.

(** Lines 502-503: the title, the query line and an empty paragraph. *)
Definition docx_head (query : text) : list docx_block :=
  [DocHeading (str "Research Report") 1;
   DocParagraph StyleNormal false [bold_run (str "Query: "); plain_run query];
   DocParagraph StyleNormal false []].

(** Lines 553-564: the sources section. *)
Definition docx_sources_section (research_depth : text)
    (sources : list source) : list docx_block :=
  [DocPageBreak; DocHeading (sources_heading_text research_depth) 1]
  ++ (if truthy sources
      then docx_source_paragraphs research_depth 0 sources
      else [text_paragraph StyleNormal (str "No sources were cited.")]).

(** The content [generate_docx] gives the document, for a stored report
    (which has every key). *)
Definition docx_document (report_data : report) : list docx_block :=
  let st :=
    fold_left docx_line
      (split_on (ascii_of_nat 10) (report_answer_raw report_data))
      {| document := docx_head (report_query report_data);
         current_paragraph := None |} in
  document st
  ++ docx_sources_section (report_research_depth report_data)
       (report_sources report_data).

Section DocxRenderer.

Context {W : Type}.

(** The document library: building the document from its content and
    [document.save]; it raises on a text it cannot store. *)
Variable docx_write : list docx_block -> action W (list Byte.byte).

(** [generate_docx]: an exception is logged and raised again. *)
Definition generate_docx (report_data : report)
  : action W (list Byte.byte) :=
  act_catch (docx_write (docx_document report_data))
    (fun e => act_raise e).

End DocxRenderer.

(** ** Routes *)

(** [c.isalnum()] on the code points 0..255: the letters, the decimal
    digits, the superscript digits and the three fractions. *)
Definition char_isalnum (c : ascii) : bool :=
  (in_range 48 57 c || in_range 65 90 c || in_range 97 122 c
   || N.eqb (code c) 170 || N.eqb (code c) 178 || N.eqb (code c) 179
   || N.eqb (code c) 181 || N.eqb (code c) 185 || N.eqb (code c) 186
   || in_range 188 190 c || in_range 192 214 c || in_range 216 246 c
   || in_range 248 255 c)%bool.

Definition is_underscore (c : ascii) : bool := ascii_eqb c "_".

(** [query_slug] of the download routes. *)
Definition query_slug (query : text) : text :=
  strip_chars is_underscore
    (slice_to 30
       (map (fun c => if char_isalnum c then c else "_"%char) query)).

(** [filename] of the download routes, for the extension with its dot. *)
Definition download_filename (query extension : text) : text :=
  let slug := query_slug query in
  str "Research_Report_" ++ (if truthy slug then slug else str "report")
  ++ extension.

(** The JSON object of a request to [/process], as far as the route reads
    it: the strings under [query] and [depth], each of which may be
    missing. *)
Record process_request : Type := {
  request_query : option text;
  request_depth : option text
}.

(** The JSON bodies the route answers with. *)
Inductive process_body : Type :=
| Failure (error : text)
| SynthesisFailure (error : text) (sources : list source)
    (research_depth : text)
| Result (answer_html : text) (sources : list source) (report_id : text)
    (research_depth : text).

(** What a download route answers with: a message with a status, or a file
    with its name. *)
Inductive download_reply : Type :=
| Message (body : text) (status : Z)
| File (payload : list Byte.byte) (download_name : text).

(** An action on the outside world, run next to the report store. *)
Definition act_world {W A} (m : action W A) : action (W * store) A :=
  fun ws =>
    match m (fst ws) with
    | (o, w') => (o, (w', snd ws))
    end.

(** A change of the report store. *)
Definition act_store {W} (f : store -> store) : action (W * store) unit :=
  fun ws => (Returns tt, (fst ws, f (snd ws))).

(** [report_store.get(report_id)] *)
Definition act_lookup {W} (report_id : text)
  : action (W * store) (option report) :=
  fun ws => (Returns (report_store (snd ws) !! report_id), ws).

Section Routes.

Context {W : Type}.

Variable ddgs_text : text -> Z -> action W (list ddgs_result).
Variable trafilatura_fetch_url : text -> action W (option text).
Variable trafilatura_extract : text -> outcome (option text).
Variable requests_get : text -> action W response.
Variable Soup : Type.
Variable BeautifulSoup : list Byte.byte -> outcome Soup.
Variable find : Soup -> selector -> option Soup.
Variable find_all_p : Soup -> list text.
Variable generate_content : text -> Z -> action W model_response.
Variable markdown_parser : text -> outcome text.
Variable pisa_CreatePDF : text -> action W pisa_status.
Variable docx_write : list docx_block -> action W (list Byte.byte).

(** [str(uuid.uuid4())] *)
Variable uuid4 : action W text.

(** [process_query_route], for a request with a JSON object; [api_key] is
    the configured key, empty when there is none. *)
Definition process_query_route (data : process_request) (api_key : text)
  : action (W * store) (process_body * Z) :=
  let query := strip (get_or [] (request_query data)) in
  let research_depth := get_or (str "quick") (request_depth data) in
  if negb (truthy query)
  then act_ret (Failure (str "Query cannot be empty."), 400%Z)
  else if negb (truthy api_key)
  then act_ret (Failure (str "AI model not configured."), 500%Z)
  else
    act_catch
      (let num_results :=
         if text_eqb research_depth (str "deep")
         then DEEP_SEARCH_RESULTS else QUICK_SEARCH_RESULTS in
       do search_results <-
         act_world (perform_search ddgs_text query num_results) ;;
       let urls_to_scrape :=
         map hit_url
           (List.filter (fun r => truthy (hit_url r)) search_results) in
       if negb (truthy urls_to_scrape)
       then act_ret
              (Failure (str "Could not find relevant web sources."), 404%Z)
       else
         do scraped_data <-
           act_world
             (scrape_urls
                (scrape_url trafilatura_fetch_url trafilatura_extract
                   requests_get Soup BeautifulSoup find find_all_p)
                urls_to_scrape) ;;
         if negb (truthy scraped_data)
         then act_ret
                (Failure
                   (str "Failed to retrieve usable content from web sources."),
                 500%Z)
         else
           do synthesis_result <-
             act_world
               (synthesize_with_gemini generate_content markdown_parser
                  query scraped_data api_key research_depth) ;;
           let sources_final := sources_final search_results scraped_data in
           match synthesis_result with
           | Error error_msg =>
               act_ret
                 (SynthesisFailure (str "AI Synthesis Error: " ++ error_msg)
                    sources_final research_depth, 500%Z)
           | Answer answer_raw answer_html =>
               do report_id <- act_world uuid4 ;;
               let report_full_data :=
                 {| report_query := query;
                    report_answer_raw := answer_raw;
                    report_answer_html := answer_html;
                    report_sources := sources_final;
                    report_research_depth := research_depth |} in
               do _ <-
                 act_store (add_to_report_store report_id report_full_data) ;;
               act_ret
                 (Result answer_html sources_final report_id research_depth,
                  200%Z)
           end)
      (fun _ =>
         act_ret (Failure (str "An unexpected internal server error."), 500%Z)).

(** [download_docx_route] *)
Definition download_docx_route (report_id : text)
  : action (W * store) download_reply :=
  do report_data <- act_lookup report_id ;;
  match report_data with
  | None => act_ret (Message (str "Report not found or has expired.") 404)
  | Some report_data =>
      act_catch
        (do file_stream <- act_world (generate_docx docx_write report_data) ;;
         let filename :=
           download_filename (report_query report_data) (str ".docx") in
         act_ret (File file_stream filename))
        (fun _ => act_ret (Message (str "Error generating DOCX file.") 500))
  end.

(** [download_pdf_route] *)
Definition download_pdf_route (report_id : text)
  : action (W * store) download_reply :=
  do report_data <- act_lookup report_id ;;
  match report_data with
  | None => act_ret (Message (str "Report not found or has expired.") 404)
  | Some report_data =>
      act_catch
        (do pdf_stream <- act_world (generate_pdf pisa_CreatePDF report_data) ;;
         match pdf_stream with
         | None =>
             act_ret
               (Message (str "Error generating PDF file (check server logs).")
                  500)
         | Some pdf =>
             let filename :=
               download_filename (report_query report_data) (str ".pdf") in
             act_ret (File pdf filename)
         end)
        (fun _ => act_ret (Message (str "Error generating PDF file.") 500))
  end.

End Routes.

(** * Notions the properties are stated with *)

(** ** Positions, markers and anchors *)

(** The character before the position reached after [s]. *)
Definition last_char (prev : option ascii) (s : text) : option ascii :=
  fold_left (fun _ c => Some c) s prev.

(** One round of a repetition of a character class. *)
Definition class_body {R : Type} (p : ascii -> bool)
  : option ascii -> text -> captures -> cont R -> option R :=
  fun q t c k' => rmatch R (Cls p) q t c k'.

(** A standalone citation marker at a position, read off the text directly:
    the position is not after a character of the forbidden class, the text
    starts with an opening bracket, a run of one or more digits and a closing
    bracket, and no closing bracket follows.  The result is the digits and
    the text after the marker. *)
Definition marker_at (prev : option ascii) (s : text) : option (text * text) :=
  if match prev with
     | Some c => marker_forbidden_before c
     | None => false
     end
  then None
  else
    match s with
    | c :: t =>
        if ascii_eqb c "[" then
          match take_while is_digit t, drop_while is_digit t with
          | (_ :: _) as ds, c2 :: rest =>
              if ascii_eqb c2 "]" then
                match rest with
                | c3 :: _ => if ascii_eqb c3 "]" then None else Some (ds, rest)
                | [] => Some (ds, rest)
                end
              else None
          | _, _ => None
          end
        else None
    | [] => None
    end.

(** The marker pass with either replacement, from a position on. *)
Definition mark_from (repl : captures -> text) (prev : option ascii)
    (s : text) : text :=
  re_sub_from citation_marker_re repl prev s.

(** A marker may start after [pre]: [pre] is empty or its last character is
    none of [!], a closing bracket, a slash, a letter or a digit. *)
Definition may_precede_marker (pre : text) : Prop :=
  match last_char None pre with
  | Some c => marker_forbidden_before c = false
  | None => True
  end.

(** A marker may end before [post]: [post] does not start with a closing
    bracket. *)
Definition may_follow_marker (post : text) : Prop :=
  match post with
  | c :: _ => ascii_eqb c "]" = false
  | [] => True
  end.

(** The text of the marker with the digits [ds]. *)
Definition marker (ds : text) : text := str "[" ++ ds ++ str "]".

(** The anchor of a citation: the index it carries, the number in its label
    and between its brackets. *)
Definition citation_anchor (index : Z) (shown : text) : text :=
  str "<sup><a href='#' class='citation-marker' data-citation-index='"
  ++ py_str index ++ str "' aria-label='Citation " ++ shown
  ++ str "'>[" ++ shown ++ str "]</a></sup>".

(** The digit character of a value from 0 to 9. *)
Definition digit_char (m : Z) : ascii := ascii_of_N (Z.to_N m + 48).

(** ** White space and tags *)

(** A run of two or more white space characters at the head of [s]: the text
    after the run. *)
Definition space_run_at (s : text) : option text :=
  match s with
  | a :: b :: t =>
      if (is_space a && is_space b)%bool then Some (drop_while is_space t)
      else None
  | _ => None
  end.

(** No two white space characters next to each other, and none at the end. *)
Fixpoint tight (s : text) : bool :=
  match s with
  | [] => true
  | c :: s' =>
      if is_space c then
        match s' with
        | c2 :: _ => (negb (is_space c2) && tight s')%bool
        | [] => false
        end
      else tight s'
  end.






(** ** The state of the aggregator *)

(** The accumulated length of the extracted texts of a source list. *)
Definition text_total (data : list scraped) : Z :=
  fold_right (fun item acc => len (item_text item) + acc)%Z 0%Z data.

(** The indices count up from 0 without a gap. *)
Definition contiguous_ids (data : list scraped) : Prop :=
  map item_id data = map Z.of_nat (seq 0 (length data)).

(** Until its last entry was added, the list held less than the cap. *)
Definition below_cap_before_last (data : list scraped) : Prop :=
  forall init last,
    data = init ++ [last] -> (text_total init < MAX_TOTAL_CONTENT_LENGTH)%Z.

(** What holds of the loop variables of [scrape_urls] at every round. *)
Record scrape_invariant (st : scrape_state) : Prop := {
  inv_ids : contiguous_ids (scraped_data st);
  inv_total : total_content_length st = text_total (scraped_data st);
  inv_last : below_cap_before_last (scraped_data st);
  inv_clipped :
    Forall (fun item => (len (item_text item) <= MAX_CONTENT_LENGTH_PER_SITE)%Z)
      (scraped_data st);
  inv_attempted : urls_attempted st = ∅
}.

(** ** What the fallback fetch rejects *)


(** ** Chunks and responses of the model *)




(** ** Markup characters *)

(** The characters that open or close a tag or an attribute value. *)
Definition is_markup (c : ascii) : bool :=
  (ascii_eqb c "<" || ascii_eqb c ">" || ascii_eqb c (ascii_of_nat 34)
   || ascii_eqb c "'")%bool.

(** The markup characters of a text, in order: its tag skeleton. *)
Definition skeleton (t : text) : text := List.filter is_markup t.




(** ** Worlds used as examples *)

(** A page whose text has [n] characters. *)
Definition page_text (n : nat) : text := repeat "a"%char n.

(** A web in which every download gives a page of [n] characters of text,
    and every plain fetch answers with status [status] and content type
    [ctype].  The state is the list of the URLs downloaded so far. *)
Definition web_fetch_url (url : text) : action (list text) (option text) :=
  fun log => (Returns (Some (str "<html>")), log ++ [url]).

Definition web_extract (n : nat) (downloaded : text) : outcome (option text) :=
  Returns (Some (page_text n)).

Definition web_get (status : Z) (ctype : text) (url : text)
  : action (list text) response :=
  fun log =>
    (Returns {| status_code := status; content_type := Some ctype;
                content := [] |}, log).



(** The extractor on such a web; no page is parsed. *)
Definition web_scrape_url (n : nat) (status : Z) (ctype : text)
  : text -> action (list text) (option text) :=
  scrape_url web_fetch_url (web_extract n) (web_get status ctype) unit
    (fun _ => Returns tt) (fun _ _ => None) (fun _ => []).


Definition example_url : text := str "http://example.org/a".

(** Fourteen different URLs. *)
Definition fourteen_urls : list text :=
  map (fun n => str "http://example.org/" ++ py_str (Z.of_nat n)) (seq 1 14).

(** The web on which every page has as many characters as the per-source cap
    allows. *)
Definition full_page_web : text -> action (list text) (option text) :=
  web_scrape_url (Z.to_nat MAX_CONTENT_LENGTH_PER_SITE) 200 (str "text/html").

(** A model that answers from a script, one entry a call; the state is what
    is left of the script. *)
Definition scripted_generate_content (prompt : text) (max_output_tokens : Z)
  : action (list (outcome model_response)) model_response :=
  fun script =>
    match script with
    | [] =>
        (Raises {| kind := OtherException; message := str "no answer" |}, [])
    | o :: rest => (o, rest)
    end.




(** A Markdown parser that wraps the text in one paragraph. *)
Definition paragraph_markdown (t : text) : outcome text :=
  Returns (str "<p>" ++ t ++ str "</p>" ++ nl).

Definition one_source : list scraped :=
  [{| item_id := 0; item_url := example_url; item_text := str "Some text." |}].

(** ** The report store over time *)

(** The store after the reports of [entries] were added to [st] one after
    the other, each under its identifier. *)
Definition add_reports (entries : list (text * report)) (st : store) : store :=
  fold_left (fun st e => add_to_report_store (fst e) (snd e) st) entries st.

(** The last [REPORT_STORE_MAX_ITEMS] of the entries. *)
Definition latest (entries : list (text * report)) : list (text * report) :=
  skipn (length entries - Z.to_nat REPORT_STORE_MAX_ITEMS) entries.

(** ** Further examples *)

Definition example_report : report :=
  {| report_query := str "What is AI?";
     report_answer_raw := str "# AI" ++ nl ++ str "A field [1].";
     report_answer_html := str "<h1>AI</h1>";
     report_sources :=
       [{| source_id := 0; source_url := example_url;
           source_title := str "A title"; source_text_preview := str "p" |}];
     report_research_depth := str "quick" |}.

(** ** The context handed to the model *)

(** The block of the context for one source, under its number. *)
Definition context_block (number : Z) (url content : text) : text :=
  str "Source [" ++ py_str number ++ str "] (" ++ url ++ str "):" ++ nl
  ++ content ++ nl ++ nl ++ str "---" ++ nl ++ nl.

(** ** Texts without brackets, without runs of white space *)

(** No character of the text is an opening bracket. *)
Definition no_bracket (t : text) : bool :=
  forallb (fun c => negb (ascii_eqb c "[")) t.

(** No two white space characters next to each other. *)
Fixpoint no_space_run (s : text) : bool :=
  match s with
  | a :: t =>
      match t with
      | b :: _ => (negb (is_space a && is_space b) && no_space_run t)%bool
      | [] => true
      end
  | [] => true
  end.

(** ** Responses that differ in their finish reasons *)

(** The response with the finish reason of every candidate renamed. *)
Definition with_finish_reasons (f : text -> text) (r : model_response)
  : model_response :=
  {| candidates :=
       map (fun c => {| finish_reason := f (finish_reason c);
                        parts := parts c |})
         (candidates r);
     block_reason := block_reason r;
     response_text := response_text r |}.

(** The model that answers as [generate_content] does, but for the finish
    reasons. *)
Definition renamed_reasons {W : Type} (f : text -> text)
    (generate_content : text -> Z -> action W model_response)
  : text -> Z -> action W model_response :=
  fun prompt max_output_tokens w =>
    match generate_content prompt max_output_tokens w with
    | (Returns r, w') => (Returns (with_finish_reasons f r), w')
    | (Raises e, w') => (Raises e, w')
    end.

(** A response cut short at the token limit, with the text [t]. *)
Definition cut_short_response (t : text) : model_response :=
  {| candidates := [{| finish_reason := str "MAX_TOKENS"; parts := Some [t] |}];
     block_reason := None;
     response_text := Returns t |}.

(** ** The blocks of a word-processor document *)

(** A block of the body of a report: a heading with a text and a level from
    1 to 3, or a paragraph without hanging indent whose runs are plain, not
    empty, and at least one. *)
Definition body_block (b : docx_block) : bool :=
  match b with
  | DocHeading t level => (truthy t && (1 <=? level)%Z && (level <=? 3)%Z)%bool
  | DocParagraph _ hanging runs =>
      (negb hanging && truthy runs
       && forallb (fun r => truthy (run_text r) && negb (run_bold r)) runs)%bool
  | DocPageBreak => false
  end.

(** What holds of the loop variables of [generate_docx] at every round,
    [head] being what the document held before the loop: the blocks added
    are body blocks, and [current_paragraph] refers to the last block, a
    paragraph of the style [Normal]. *)
Definition docx_invariant (head : list docx_block) (st : docx_state) : Prop :=
  exists added,
    document st = head ++ added
    /\ Forall (fun b => body_block b = true) added
    /\ match current_paragraph st with
       | None => True
       | Some i =>
           exists init runs,
             added = init ++ [DocParagraph StyleNormal false runs]
             /\ i = length (head ++ init)
       end.

(** A numbered list item at the head of [s], read off the text directly: a
    run of one or more digits, a full stop and a run of one or more white
    space characters.  The result is the text after them. *)
Definition numbered_item_at (s : text) : option text :=
  match take_while is_digit s, drop_while is_digit s with
  | _ :: _, c :: t =>
      if ascii_eqb c "." then
        match t with
        | b :: _ => if is_space b then Some (drop_while is_space t) else None
        | [] => None
        end
      else None
  | _, _ => None
  end.

(** A line of plain text: not blank, no heading, no list item. *)
Definition plain_line (line : text) : bool :=
  let s := strip line in
  (truthy s && negb (starts_with (str "#") s)
   && negb (starts_with (str "* ") s || starts_with (str "- ") s)
   && match numbered_item_at s with Some _ => false | None => true end)%bool.

(** ** File names *)

(** A character of a slug: alphanumeric, or the underscore. *)
Definition slug_char (c : ascii) : bool :=
  (char_isalnum c || is_underscore c)%bool.

(** ** Replies of the routes *)

(** The reply of a download route for a report that is not in the store. *)
Definition report_not_found : download_reply :=
  Message (str "Report not found or has expired.") 404.

(** The sources a reply of [/process] carries. *)
Definition body_sources (body : process_body) : option (list source) :=
  match body with
  | Failure _ => None
  | SynthesisFailure _ sources _ => Some sources
  | Result _ sources _ _ => Some sources
  end.

(** A PDF backend that writes nothing and reports no error, and a document
    library that writes nothing; the world is of no account. *)
Definition quiet_CreatePDF (src : text) : action unit pisa_status :=
  fun w => (Returns {| err := 0; dest := [] |}, w).

Definition quiet_docx_write (content : list docx_block)
  : action unit (list Byte.byte) :=
  fun w => (Returns [], w).

(** * Properties *)

(** ** Characters *)

Ltac by_cases_on_char c :=
  destruct c as [[] [] [] [] [] [] [] []]; vm_compute; congruence.

Lemma digit_not_close_bracket (c : ascii) :
  is_digit c = true -> ascii_eqb c "]" = false.
Proof. by_cases_on_char c. Qed.

Lemma digit_not_space (c : ascii) : is_digit c = true -> is_space c = false.
Proof. by_cases_on_char c. Qed.

Lemma ascii_eqb_eq (a b : ascii) : ascii_eqb a b = true <-> a = b.
Proof. unfold ascii_eqb. apply Ascii.eqb_eq. Qed.

Lemma ascii_eqb_refl (a : ascii) : ascii_eqb a a = true.
Proof. apply ascii_eqb_eq. reflexivity. Qed.

Lemma text_eqb_eq (a b : text) : text_eqb a b = true <-> a = b.
Proof.
  revert b. induction a as [|x a IH]; intros [|y b]; simpl;
    try (split; [discriminate|discriminate]); [tauto|].
  rewrite andb_true_iff, ascii_eqb_eq, IH. split.
  - intros [-> ->]. reflexivity.
  - intros [= -> ->]. auto.
Qed.


(** ** Runs of a character class *)

Lemma take_drop_while (p : ascii -> bool) (s : text) :
  take_while p s ++ drop_while p s = s.
Proof.
  induction s as [|c s IH]; simpl; [reflexivity|].
  destruct (p c); simpl; [rewrite IH|]; reflexivity.
Qed.

Lemma take_while_all (p : ascii -> bool) (s : text) :
  forallb p (take_while p s) = true.
Proof.
  induction s as [|c s IH]; simpl; [reflexivity|].
  destruct (p c) eqn:E; simpl; [rewrite E|]; auto.
Qed.

Lemma take_while_app_stop (p : ascii -> bool) (s : text) (x : ascii) (t : text) :
  forallb p s = true -> p x = false ->
  take_while p (s ++ x :: t) = s /\ drop_while p (s ++ x :: t) = x :: t.
Proof.
  intros Hs Hx. induction s as [|c s IH]; simpl in *.
  - rewrite Hx. auto.
  - apply andb_prop in Hs as [Hc Hs]. rewrite Hc.
    destruct (IH Hs) as [-> ->]. auto.
Qed.

Lemma run_app_stopped (p : ascii -> bool) (s t : text) :
  drop_while p s <> [] ->
  take_while p (s ++ t) = take_while p s
  /\ drop_while p (s ++ t) = drop_while p s ++ t.
Proof.
  induction s as [|c s IH]; simpl; [congruence|].
  destruct (p c); [|auto].
  intros H. destruct (IH H) as [-> ->]. auto.
Qed.

Lemma drop_while_length (p : ascii -> bool) (s : text) :
  length (drop_while p s) <= length s.
Proof.
  induction s as [|c s IH]; simpl; [lia|]. destruct (p c); simpl; lia.
Qed.

Lemma firstn_take_while (p : ascii -> bool) (s : text) :
  firstn (length s - length (drop_while p s)) s = take_while p s.
Proof.
  rewrite <- (take_drop_while p s) at 1 3.
  rewrite length_app.
  replace (length (take_while p s) + length (drop_while p s)
           - length (drop_while p s)) with (length (take_while p s) + 0) by lia.
  rewrite firstn_app_2. simpl. apply app_nil_r.
Qed.

Lemma last_char_app (prev : option ascii) (s t : text) :
  last_char prev (s ++ t) = last_char (last_char prev s) t.
Proof. unfold last_char. apply fold_left_app. Qed.

(** ** The matcher on a greedy class run *)

Section StarClass.

Context {R : Type}.
Variable p : ascii -> bool.

(** When the continuation cannot start at a character of the class, the
    run is taken whole. *)
Lemma star_class_greedy (k : cont R) (n : nat) (s : text)
    (prev : option ascii) (caps : captures) :
  length s <= n ->
  (forall q c t cs, p c = true -> k q (c :: t) cs = None) ->
  star_loop (class_body p) n prev s caps k
  = k (last_char prev (take_while p s)) (drop_while p s) caps.
Proof.
  intros Hn Hk. revert n prev Hn.
  induction s as [|c s IH]; intros n prev Hn.
  - destruct n; reflexivity.
  - destruct n as [|n]; [simpl in Hn; lia|].
    cbn [star_loop take_while drop_while]. unfold class_body at 1.
    cbn [rmatch]. destruct (p c) eqn:Hc.
    + replace (length s <? length (c :: s)) with true
        by (symmetry; apply Nat.ltb_lt; simpl; lia).
      rewrite IH by (simpl in Hn; lia).
      change (last_char prev (c :: take_while p s))
        with (last_char (Some c) (take_while p s)).
      destruct (k (last_char (Some c) (take_while p s)) _ _); [reflexivity|].
      apply Hk. exact Hc.
    + reflexivity.
Qed.

(** When the continuation accepts the position after the whole run, that
    is the answer. *)
Lemma star_class_longest (k : cont R) (n : nat) (s : text)
    (prev : option ascii) (caps : captures) (x : R) :
  length s <= n ->
  k (last_char prev (take_while p s)) (drop_while p s) caps = Some x ->
  star_loop (class_body p) n prev s caps k = Some x.
Proof.
  revert n prev.
  induction s as [|c s IH]; intros n prev Hn Hk.
  - destruct n; exact Hk.
  - destruct n as [|n]; [simpl in Hn; lia|].
    cbn [star_loop take_while drop_while] in *. unfold class_body at 1.
    cbn [rmatch]. destruct (p c) eqn:Hc.
    + replace (length s <? length (c :: s)) with true
        by (symmetry; apply Nat.ltb_lt; simpl; lia).
      rewrite (IH n (Some c)); [reflexivity|simpl in Hn; lia|exact Hk].
    + exact Hk.
Qed.

End StarClass.

Lemma rmatch_plus_class {R : Type} (p : ascii -> bool) (k : cont R)
    (prev : option ascii) (s : text) (caps : captures) :
  (forall q c t cs, p c = true -> k q (c :: t) cs = None) ->
  rmatch R (Plus (Cls p)) prev s caps k
  = match take_while p s with
    | [] => None
    | _ :: _ => k (last_char prev (take_while p s)) (drop_while p s) caps
    end.
Proof.
  intros Hk. unfold Plus. cbn [rmatch].
  destruct s as [|c s]; [reflexivity|].
  cbn [take_while drop_while]. destruct (p c) eqn:Hc; [|reflexivity].
  apply (star_class_greedy p k (length s) s (Some c) caps); [lia|exact Hk].
Qed.

(** ** The citation marker pattern *)

(** The pattern matches exactly at the standalone markers. *)
Lemma re_match_citation_marker (prev : option ascii) (s : text) :
  re_match citation_marker_re prev s
  = match marker_at prev s with
    | Some (ds, rest) => Some ([(1, ds)], Some "]"%char, rest)
    | None => None
    end.
Proof.
  unfold re_match, citation_marker_re, marker_at.
  cbn [rmatch].
  destruct (match prev with Some c => marker_forbidden_before c | None => false end)
    eqn:Hprev.
  { destruct prev as [c|]; [rewrite Hprev; reflexivity|discriminate]. }
  assert (Hskip : forall (X : option (captures * option ascii * text)),
             match prev with
             | Some x => if marker_forbidden_before x then None else X
             | None => X
             end = X).
  { intros X. destruct prev as [c|]; [rewrite Hprev|]; reflexivity. }
  rewrite Hskip. clear Hskip.
  destruct s as [|c t]; [reflexivity|].
  destruct (ascii_eqb c "[") eqn:Hc; [|reflexivity].
  unfold digit. rewrite rmatch_plus_class.
  2:{ intros q d t' cs Hd. cbn [rmatch].
      rewrite (digit_not_close_bracket d Hd). reflexivity. }
  rewrite firstn_take_while.
  destruct (take_while is_digit t) as [|d ds] eqn:Hds; [reflexivity|].
  destruct (drop_while is_digit t) as [|c2 rest]; [reflexivity|].
  cbn [rmatch].
  destruct (ascii_eqb c2 "]") eqn:Hc2; [|reflexivity].
  apply ascii_eqb_eq in Hc2. subst c2.
  destruct rest as [|c3 rest]; [reflexivity|].
  destruct (ascii_eqb c3 "]"); reflexivity.
Qed.

Lemma marker_at_inv (prev : option ascii) (s ds rest : text) :
  marker_at prev s = Some (ds, rest) ->
  s = marker ds ++ rest /\ ds <> [] /\ forallb is_digit ds = true
  /\ may_follow_marker rest
  /\ match prev with
     | Some c => marker_forbidden_before c = false
     | None => True
     end.
Proof.
  unfold marker_at, marker, may_follow_marker. intros H.
  assert (Hprev : match prev with
                  | Some c => marker_forbidden_before c = false
                  | None => True
                  end).
  { destruct prev as [c|]; [|exact I].
    destruct (marker_forbidden_before c); [discriminate|reflexivity]. }
  destruct (match prev with Some c => marker_forbidden_before c | None => false end);
    [discriminate|].
  destruct s as [|c t]; [discriminate|].
  destruct (ascii_eqb c "[") eqn:Hc; [|discriminate].
  apply ascii_eqb_eq in Hc. subst c.
  pose proof (take_drop_while is_digit t) as Ht.
  pose proof (take_while_all is_digit t) as Hall.
  destruct (take_while is_digit t) as [|d ds'] eqn:Hds; [discriminate|].
  destruct (drop_while is_digit t) as [|c2 rest'] eqn:Hrest; [discriminate|].
  destruct (ascii_eqb c2 "]") eqn:Hc2; [|discriminate].
  apply ascii_eqb_eq in Hc2. subst c2.
  assert (ds = d :: ds' /\ rest = rest'
          /\ match rest' with c3 :: _ => ascii_eqb c3 "]" = false | [] => True end)
    as (-> & -> & Hfollow).
  { destruct rest' as [|c3 r]; [inversion H; auto|].
    destruct (ascii_eqb c3 "]"); [discriminate|inversion H; auto]. }
  repeat split; try assumption; try discriminate.
  rewrite <- Ht. simpl. rewrite <- app_assoc. reflexivity.
Qed.

Lemma marker_at_intro (prev : option ascii) (ds rest : text) :
  ds <> [] -> forallb is_digit ds = true -> may_follow_marker rest ->
  match prev with
  | Some c => marker_forbidden_before c = false
  | None => True
  end ->
  marker_at prev (marker ds ++ rest) = Some (ds, rest).
Proof.
  intros Hne Hds Hfollow Hprev. unfold marker_at, marker.
  replace (match prev with Some c => marker_forbidden_before c | None => false end)
    with false by (destruct prev as [c|]; [symmetry; exact Hprev|reflexivity]).
  cbn [str list_ascii_of_string app]. rewrite ascii_eqb_refl.
  rewrite <- app_assoc. cbn [app].
  destruct (take_while_app_stop is_digit ds "]" rest Hds eq_refl) as [-> ->].
  destruct ds as [|d ds]; [congruence|].
  rewrite ascii_eqb_refl.
  destruct rest as [|c3 r]; [reflexivity|].
  simpl in Hfollow. rewrite Hfollow. reflexivity.
Qed.

(** A marker that starts before an opening bracket ends before it. *)
Lemma marker_at_before_bracket (prev : option ascii) (pre tail : text) :
  pre <> [] ->
  marker_at prev (pre ++ "["%char :: tail)
  = match marker_at prev pre with
    | Some (ds, rest) => Some (ds, rest ++ "["%char :: tail)
    | None => None
    end.
Proof.
  intros Hne. unfold marker_at.
  destruct (match prev with Some c => marker_forbidden_before c | None => false end);
    [reflexivity|].
  destruct pre as [|c t]; [congruence|]. cbn [app].
  destruct (ascii_eqb c "["); [|reflexivity].
  pose proof (take_drop_while is_digit t) as Ht.
  pose proof (take_while_all is_digit t) as Hall.
  destruct (drop_while is_digit t) as [|c2 rest] eqn:Hrest.
  - rewrite app_nil_r in Ht. rewrite Ht in Hall.
    destruct (take_while_app_stop is_digit t "[" tail Hall eq_refl) as [-> ->].
    rewrite Ht. destruct t; reflexivity.
  - destruct (run_app_stopped is_digit t ("["%char :: tail)) as [-> ->];
      [rewrite Hrest; discriminate|].
    rewrite Hrest. cbn [app].
    destruct (take_while is_digit t) as [|d ds]; [reflexivity|].
    destruct (ascii_eqb c2 "]"); [|reflexivity].
    destruct rest as [|c3 r]; [reflexivity|]. cbn [app].
    destruct (ascii_eqb c3 "]"); reflexivity.
Qed.

(** ** Substitution *)

(** More fuel than the length of the text changes nothing. *)
Lemma sub_loop_fuel (r : regex) (repl : captures -> text) (n m : nat)
    (prev : option ascii) (s : text) :
  length s <= n -> length s <= m ->
  sub_loop r repl n prev s = sub_loop r repl m prev s.
Proof.
  revert m prev s. induction n as [|n IH]; intros m prev s Hn Hm.
  - destruct s; [|simpl in Hn; lia]. destruct m; reflexivity.
  - destruct m as [|m].
    { destruct s; [reflexivity|simpl in Hm; lia]. }
    cbn [sub_loop]. destruct s as [|c s']; [reflexivity|].
    destruct (re_match r prev (c :: s')) as [[[caps prev'] rest]|].
    + destruct (length rest <? length (c :: s')) eqn:Hlt.
      * apply Nat.ltb_lt in Hlt. f_equal. apply IH; lia.
      * f_equal. apply IH; simpl in *; lia.
    + f_equal. apply IH; simpl in *; lia.
Qed.

Lemma marker_length (ds rest : text) :
  length rest < length (marker ds ++ rest).
Proof. unfold marker. rewrite !length_app. simpl. lia. Qed.

Section MarkerPass.

Variable repl : captures -> text.

(** One step of the marker pass. *)
Lemma mark_from_cons (prev : option ascii) (c : ascii) (s : text) :
  mark_from repl prev (c :: s)
  = match marker_at prev (c :: s) with
    | Some (ds, rest) => repl [(1, ds)] ++ mark_from repl (Some "]"%char) rest
    | None => c :: mark_from repl (Some c) s
    end.
Proof.
  unfold mark_from, re_sub_from. cbn [length sub_loop].
  rewrite re_match_citation_marker.
  destruct (marker_at prev (c :: s)) as [[ds rest]|] eqn:Hm; [|reflexivity].
  apply marker_at_inv in Hm as (Hs & _).
  pose proof (marker_length ds rest) as Hlen. rewrite <- Hs in Hlen.
  replace (length rest <? S (length s)) with true
    by (symmetry; apply Nat.ltb_lt; exact Hlen).
  f_equal. apply sub_loop_fuel; simpl in *; lia.
Qed.

(** The pass can be cut before any opening bracket. *)
Lemma mark_from_split (pre tail : text) (prev : option ascii) :
  mark_from repl prev (pre ++ "["%char :: tail)
  = mark_from repl prev pre
    ++ mark_from repl (last_char prev pre) ("["%char :: tail).
Proof.
  remember (length pre) as n eqn:Hn. revert pre prev Hn.
  induction n as [n IH] using lt_wf_ind. intros pre prev Hn.
  destruct pre as [|c pre]; [reflexivity|].
  change ((c :: pre) ++ "["%char :: tail) with (c :: (pre ++ "["%char :: tail)).
  rewrite (mark_from_cons prev c (pre ++ "["%char :: tail)).
  rewrite (mark_from_cons prev c pre).
  change (c :: (pre ++ "["%char :: tail)) with ((c :: pre) ++ "["%char :: tail).
  rewrite marker_at_before_bracket by discriminate.
  destruct (marker_at prev (c :: pre)) as [[ds rest]|] eqn:Hm.
  - apply marker_at_inv in Hm as (Hs & _).
    pose proof (marker_length ds rest) as Hlen. rewrite <- Hs in Hlen.
    rewrite (IH (length rest)) by (subst n; simpl in *; lia || reflexivity).
    rewrite <- app_assoc. do 2 f_equal.
    rewrite Hs. unfold marker. rewrite !last_char_app. reflexivity.
  - cbn [app]. f_equal.
    rewrite (IH (length pre)) by (subst n; simpl; lia || reflexivity).
    reflexivity.
Qed.

(** A standalone marker is replaced, whatever stands around it. *)
Lemma mark_from_marker (pre ds post : text) (prev : option ascii) :
  ds <> [] -> forallb is_digit ds = true ->
  match last_char prev pre with
  | Some c => marker_forbidden_before c = false
  | None => True
  end ->
  may_follow_marker post ->
  mark_from repl prev (pre ++ marker ds ++ post)
  = mark_from repl prev pre ++ repl [(1, ds)]
    ++ mark_from repl (Some "]"%char) post.
Proof.
  intros Hne Hds Hpre Hpost.
  assert (E : marker ds ++ post = "["%char :: (ds ++ "]"%char :: post)).
  { unfold marker. cbn [str list_ascii_of_string app].
    rewrite <- app_assoc. reflexivity. }
  rewrite E, mark_from_split. f_equal.
  rewrite mark_from_cons, <- E.
  rewrite marker_at_intro by assumption. reflexivity.
Qed.

End MarkerPass.


Lemma inline_citation_anchor_anchor (ds : text) :
  inline_citation_anchor [(1, ds)]
  = citation_anchor (py_int ds - 1) ds ++ str " ".
Proof.
  unfold inline_citation_anchor, citation_anchor. cbn [group Nat.eqb].
  rewrite <- ?app_assoc. reflexivity.
Qed.


(** ** Collapsing white space *)

Lemma drop_while_app_stop (p : ascii -> bool) (s : text) (x : ascii) (t : text) :
  p x = false -> drop_while p (s ++ x :: t) = drop_while p s ++ x :: t.
Proof.
  intros Hx. induction s as [|c s IH]; simpl.
  - rewrite Hx. reflexivity.
  - destruct (p c); [exact IH|reflexivity].
Qed.

(** The pattern of line 474 matches exactly at the runs of two or more. *)
Lemma re_match_whitespace_run (prev : option ascii) (s : text) :
  re_match whitespace_run_re prev s
  = match space_run_at s with
    | Some rest =>
        let run := firstn (length s - length rest) s in
        Some ([(1, run)], last_char prev (take_while is_space s), rest)
    | None => None
    end.
Proof.
  unfold re_match, whitespace_run_re, AtLeast2, ws, space_run_at.
  cbn [rmatch].
  destruct s as [|a [|b t]]; [reflexivity| |].
  - destruct (is_space a); reflexivity.
  - destruct (is_space a) eqn:Ha; [|reflexivity].
    destruct (is_space b) eqn:Hb; [|reflexivity].
    cbn [andb take_while]. rewrite Ha, Hb.
    apply (star_class_longest is_space _ (length t) t (Some b) []); [lia|].
    reflexivity.
Qed.

(** The pattern has no look-behind: the character before plays no part. *)
Lemma collapse_loop_prev (n : nat) (s : text) (p q : option ascii) :
  sub_loop whitespace_run_re (fun _ => str " ") n p s
  = sub_loop whitespace_run_re (fun _ => str " ") n q s.
Proof.
  revert s p q. induction n as [|n IH]; intros s p q; [reflexivity|].
  cbn [sub_loop]. destruct s as [|c s']; [reflexivity|].
  rewrite !re_match_whitespace_run.
  destruct (space_run_at (c :: s')) as [rest|]; cbv beta iota zeta.
  - destruct (length rest <? length (c :: s')); [|reflexivity].
    f_equal. apply IH.
  - reflexivity.
Qed.

Lemma space_run_shorter (s rest : text) :
  space_run_at s = Some rest -> length rest < length s.
Proof.
  unfold space_run_at. destruct s as [|a [|b t]]; try discriminate.
  destruct (is_space a && is_space b)%bool; [|discriminate].
  intros [= <-]. pose proof (drop_while_length is_space t). simpl. lia.
Qed.

(** One step of the collapsing pass. *)
Lemma collapse_cons (c : ascii) (s : text) :
  collapse_whitespace (c :: s)
  = match space_run_at (c :: s) with
    | Some rest => str " " ++ collapse_whitespace rest
    | None => c :: collapse_whitespace s
    end.
Proof.
  unfold collapse_whitespace, re_sub, re_sub_from. cbn [length sub_loop].
  rewrite re_match_whitespace_run.
  destruct (space_run_at (c :: s)) as [rest|] eqn:Hrun; cbv beta iota zeta.
  - apply space_run_shorter in Hrun.
    replace (length rest <? S (length s)) with true
      by (symmetry; apply Nat.ltb_lt; exact Hrun).
    f_equal. rewrite (collapse_loop_prev _ _ _ None).
    apply sub_loop_fuel; simpl in *; lia.
  - f_equal. apply collapse_loop_prev.
Qed.

Lemma space_run_before_text (x : text) (y : ascii) (t : text) :
  x <> [] -> is_space y = false ->
  space_run_at (x ++ y :: t)
  = match space_run_at x with
    | Some rest => Some (rest ++ y :: t)
    | None => None
    end.
Proof.
  intros Hx Hy. unfold space_run_at.
  destruct x as [|a [|b x']]; [congruence| |]; cbn [app].
  - rewrite Hy, andb_false_r. reflexivity.
  - destruct (is_space a && is_space b)%bool; [|reflexivity].
    rewrite drop_while_app_stop by exact Hy. reflexivity.
Qed.

(** The pass can be cut before any character that is not white space. *)
Lemma collapse_split (x : text) (y : ascii) (t : text) :
  is_space y = false ->
  collapse_whitespace (x ++ y :: t)
  = collapse_whitespace x ++ collapse_whitespace (y :: t).
Proof.
  intros Hy. remember (length x) as n eqn:Hn. revert x Hn.
  induction n as [n IH] using lt_wf_ind. intros x Hn.
  destruct x as [|c x]; [reflexivity|].
  change ((c :: x) ++ y :: t) with (c :: (x ++ y :: t)).
  rewrite (collapse_cons c (x ++ y :: t)), (collapse_cons c x).
  change (c :: (x ++ y :: t)) with ((c :: x) ++ y :: t).
  rewrite space_run_before_text by (discriminate || exact Hy).
  destruct (space_run_at (c :: x)) as [rest|] eqn:Hrun.
  - apply space_run_shorter in Hrun.
    rewrite (IH (length rest)) by (subst n; simpl in *; lia || reflexivity).
    rewrite <- app_assoc. reflexivity.
  - cbn [app]. f_equal.
    apply (IH (length x)); [subst n; simpl; lia|reflexivity].
Qed.

(** A tight text is copied. *)
Lemma collapse_tight (x t : text) :
  tight x = true ->
  collapse_whitespace (x ++ t) = x ++ collapse_whitespace t.
Proof.
  induction x as [|c x IH]; intros Hx; [reflexivity|].
  cbn [app]. rewrite collapse_cons. cbn [tight] in Hx.
  assert (Hrun : space_run_at (c :: x ++ t) = None /\ tight x = true).
  { unfold space_run_at. destruct (is_space c) eqn:Hc.
    - destruct x as [|c2 x']; [discriminate|].
      apply andb_prop in Hx as [Hc2 Hx]. apply negb_true_iff in Hc2.
      cbn [app]. rewrite Hc2. auto.
    - split; [|exact Hx]. destruct (x ++ t); reflexivity. }
  destruct Hrun as [-> Hx']. f_equal. apply IH. exact Hx'.
Qed.

Lemma tight_app (a b : text) : tight a = true -> tight (a ++ b) = tight b.
Proof.
  induction a as [|c a IH]; intros Ha; [reflexivity|].
  cbn [app tight] in *. destruct (is_space c).
  - destruct a as [|c2 a']; [discriminate|].
    apply andb_prop in Ha as [Hc2 Ha]. cbn [app]. rewrite Hc2.
    cbn [andb]. apply IH. exact Ha.
  - apply IH. exact Ha.
Qed.

Lemma tight_no_space (s : text) :
  forallb (fun c => negb (is_space c)) s = true -> tight s = true.
Proof.
  induction s as [|c s IH]; intros H; [reflexivity|].
  cbn [forallb tight] in *. apply andb_prop in H as [Hc Hs].
  apply negb_true_iff in Hc. rewrite Hc. apply IH. exact Hs.
Qed.

(** ** Numbers and their digits *)

Lemma digit_char_spec (m : Z) :
  (0 <= m < 10)%Z ->
  is_digit (digit_char m) = true /\ digit_val (digit_char m) = m.
Proof.
  intros Hm.
  assert (m = 0 \/ m = 1 \/ m = 2 \/ m = 3 \/ m = 4 \/ m = 5 \/ m = 6
          \/ m = 7 \/ m = 8 \/ m = 9)%Z as H by lia.
  repeat (destruct H as [->|H]; [split; reflexivity|]).
  subst m. split; reflexivity.
Qed.

Lemma pos_digits_digits (fuel : nat) (n : Z) (acc : text) :
  (0 <= n)%Z -> forallb is_digit acc = true ->
  forallb is_digit (pos_digits fuel n acc) = true.
Proof.
  revert n acc. induction fuel as [|fuel IH]; intros n acc Hn Hacc.
  - exact Hacc.
  - cbn [pos_digits].
    assert (Hd : is_digit (digit_char (n mod 10)) = true)
      by (apply digit_char_spec; apply Z.mod_pos_bound; lia).
    fold (digit_char (n mod 10)).
    destruct (n <? 10)%Z.
    + cbn [forallb]. rewrite Hd. exact Hacc.
    + apply IH; [apply Z.div_pos; lia|].
      cbn [forallb]. rewrite Hd. exact Hacc.
Qed.

Lemma pos_digits_value (fuel : nat) (n : Z) (acc : text) :
  (0 <= n < 10 ^ Z.of_nat fuel)%Z ->
  fold_left (fun a c => 10 * a + digit_val c)%Z (pos_digits fuel n acc) 0%Z
  = fold_left (fun a c => 10 * a + digit_val c)%Z acc n.
Proof.
  revert n acc. induction fuel as [|fuel IH]; intros n acc Hn.
  - change (10 ^ Z.of_nat 0)%Z with 1%Z in Hn.
    assert (n = 0)%Z as -> by lia. reflexivity.
  - cbn [pos_digits]. fold (digit_char (n mod 10)).
    assert (Hd : digit_val (digit_char (n mod 10)) = (n mod 10)%Z)
      by (apply digit_char_spec; apply Z.mod_pos_bound; lia).
    destruct (n <? 10)%Z eqn:Hlt.
    + apply Z.ltb_lt in Hlt. cbn [fold_left]. rewrite Hd.
      rewrite Z.mod_small by lia. reflexivity.
    + apply Z.ltb_ge in Hlt. rewrite IH.
      * cbn [fold_left]. rewrite Hd. f_equal.
        pose proof (Z.div_mod n 10). lia.
      * split; [apply Z.div_pos; lia|].
        apply Z.div_lt_upper_bound; [lia|].
        rewrite Nat2Z.inj_succ, Z.pow_succ_r in Hn by lia. lia.
Qed.

Lemma log2_fuel (n : Z) :
  (0 <= n)%Z -> (n < 10 ^ Z.of_nat (S (Z.to_nat (Z.log2 n))))%Z.
Proof.
  intros Hn. rewrite Nat2Z.inj_succ, Z2Nat.id by apply Z.log2_nonneg.
  destruct (Z.eq_dec n 0%Z) as [->|Hz]; [reflexivity|].
  assert (n < 2 ^ Z.succ (Z.log2 n))%Z by (apply Z.log2_spec; lia).
  assert (2 ^ Z.succ (Z.log2 n) <= 10 ^ Z.succ (Z.log2 n))%Z.
  { apply Z.pow_le_mono_l. lia. }
  lia.
Qed.

(** [int(str(n)) == n] for a number that is not negative. *)
Lemma py_int_py_str (n : Z) : (0 <= n)%Z -> py_int (py_str n) = n.
Proof.
  intros Hn. unfold py_int, py_str.
  replace (n <? 0)%Z with false by (symmetry; apply Z.ltb_ge; exact Hn).
  rewrite pos_digits_value; [reflexivity|].
  split; [exact Hn|apply log2_fuel; exact Hn].
Qed.

Lemma pos_digits_nonempty (fuel : nat) (n : Z) (acc : text) :
  acc <> [] \/ fuel <> O -> pos_digits fuel n acc <> [].
Proof.
  revert n acc. induction fuel as [|fuel IH]; intros n acc H.
  - destruct H as [H|H]; [exact H|congruence].
  - cbn [pos_digits]. destruct (n <? 10)%Z; [discriminate|].
    apply IH. left. discriminate.
Qed.

Lemma py_str_digits (n : Z) :
  (0 <= n)%Z -> py_str n <> [] /\ forallb is_digit (py_str n) = true.
Proof.
  intros Hn. unfold py_str.
  replace (n <? 0)%Z with false by (symmetry; apply Z.ltb_ge; exact Hn).
  split; [|apply pos_digits_digits; [exact Hn|reflexivity]].
  apply pos_digits_nonempty. right. discriminate.
Qed.

Lemma py_str_no_space (n : Z) :
  forallb (fun c => negb (is_space c)) (py_str n) = true.
Proof.
  assert (Hdig : forall s, forallb is_digit s = true ->
                           forallb (fun c => negb (is_space c)) s = true).
  { induction s as [|c s IH]; [reflexivity|]. cbn [forallb].
    intros H. apply andb_prop in H as [Hc Hs].
    rewrite (digit_not_space c Hc). apply IH. exact Hs. }
  unfold py_str. destruct (n <? 0)%Z eqn:Hneg.
  - apply Z.ltb_lt in Hneg. cbn [forallb].
    apply andb_true_intro. split; [reflexivity|].
    apply Hdig, pos_digits_digits; [lia|reflexivity].
  - apply Z.ltb_ge in Hneg.
    apply Hdig, pos_digits_digits; [lia|reflexivity].
Qed.

(** ** The marker pass followed by the collapsing pass *)

Lemma digits_no_space (s : text) :
  forallb is_digit s = true ->
  forallb (fun c => negb (is_space c)) s = true.
Proof.
  induction s as [|c s IH]; [reflexivity|]. cbn [forallb].
  intros H. apply andb_prop in H as [Hc Hs].
  rewrite (digit_not_space c Hc). apply IH. exact Hs.
Qed.

Lemma citation_anchor_tight (index : Z) (ds : text) :
  ds <> [] -> forallb is_digit ds = true ->
  tight (citation_anchor index ds) = true.
Proof.
  intros Hne Hds. unfold citation_anchor.
  rewrite tight_app by reflexivity.
  rewrite tight_app by (apply tight_no_space, py_str_no_space).
  change (str "' aria-label='Citation ")
    with (str "' aria-label='Citation" ++ str " ").
  rewrite <- app_assoc. rewrite tight_app by reflexivity.
  assert (Hhead : exists d ds', ds = d :: ds' /\ is_digit d = true).
  { destruct ds as [|d ds']; [congruence|]. exists d, ds'.
    cbn [forallb] in Hds. apply andb_prop in Hds as [Hd _]. auto. }
  destruct Hhead as (d & ds' & E & Hd).
  rewrite E at 1. cbn [str list_ascii_of_string app].
  match goal with
  | |- tight (" "%char :: d :: ?x) = true =>
      change (tight (" "%char :: d :: x))
        with (negb (is_space d) && tight (d :: x))%bool;
      change (d :: x) with ((d :: ds') ++ str "'>[" ++ ds ++ str "]</a></sup>")
  end.
  rewrite (digit_not_space d Hd). cbn [negb andb]. rewrite <- E.
  rewrite tight_app by (apply tight_no_space, digits_no_space, Hds).
  rewrite tight_app by reflexivity.
  rewrite tight_app by (apply tight_no_space, digits_no_space, Hds).
  reflexivity.
Qed.

(** Through both passes of lines 465-474 a standalone marker becomes its
    anchor, set between the text before it and the text after it. *)
Lemma postprocess_marker (pre ds post : text) :
  ds <> [] -> forallb is_digit ds = true ->
  may_precede_marker pre -> may_follow_marker post ->
  postprocess_answer_html (pre ++ marker ds ++ post)
  = postprocess_answer_html pre
    ++ citation_anchor (py_int ds - 1) ds
    ++ collapse_whitespace
         (str " " ++ mark_from inline_citation_anchor (Some "]"%char) post).
Proof.
  intros Hne Hds Hpre Hpost. unfold postprocess_answer_html.
  unfold bind_citations_inline at 1, re_sub.
  fold (mark_from inline_citation_anchor None (pre ++ marker ds ++ post)).
  rewrite mark_from_marker by assumption.
  rewrite inline_citation_anchor_anchor.
  fold (mark_from inline_citation_anchor None pre).
  assert (Hhead : exists a, citation_anchor (py_int ds - 1) ds = "<"%char :: a).
  { unfold citation_anchor. eexists. reflexivity. }
  destruct Hhead as [a Ha].
  rewrite <- (app_assoc (citation_anchor _ _)).
  rewrite Ha at 1. cbn [app].
  rewrite collapse_split by reflexivity.
  change ("<"%char :: a ++ ?x) with (("<"%char :: a) ++ x).
  f_equal. rewrite <- Ha.
  apply collapse_tight, citation_anchor_tight; assumption.
Qed.


(** ** The pass that sets adjacent anchors apart *)

Lemma ascii_eqb_sym (a b : ascii) : ascii_eqb a b = ascii_eqb b a.
Proof. unfold ascii_eqb. apply Ascii.eqb_sym. Qed.


Lemma starts_with_app_self (l s : text) : starts_with l (l ++ s) = true.
Proof.
  induction l as [|c l IH]; [reflexivity|].
  cbn [app starts_with]. rewrite ascii_eqb_refl. exact IH.
Qed.


























(** The same for a marker written as the number [n]: its anchor carries the
    index [n - 1]. *)
Lemma marker_of_number (pre post : text) (n : Z) :
  (0 <= n)%Z -> may_precede_marker pre -> may_follow_marker post ->
  postprocess_answer_html (pre ++ marker (py_str n) ++ post)
  = postprocess_answer_html pre
    ++ citation_anchor (n - 1) (py_str n)
    ++ collapse_whitespace
         (str " " ++ mark_from inline_citation_anchor (Some "]"%char) post).
Proof.
  intros Hn Hpre Hpost. destruct (py_str_digits n Hn) as [Hne Hds].
  rewrite postprocess_marker by assumption.
  rewrite py_int_py_str by exact Hn. reflexivity.
Qed.

(** ** Actions *)

Lemma act_bind_returns {W A B} (m : action W A) (f : A -> action W B)
    (w w' : W) (a : A) :
  m w = (Returns a, w') -> act_bind m f w = f a w'.
Proof. intros H. unfold act_bind. rewrite H. reflexivity. Qed.

(** ** The aggregator *)

Lemma text_total_app (a b : list scraped) :
  text_total (a ++ b) = (text_total a + text_total b)%Z.
Proof.
  unfold text_total. induction a as [|x a IH]; simpl; [reflexivity|].
  rewrite IH. lia.
Qed.

Lemma scrape_start_invariant : scrape_invariant scrape_start.
Proof.
  split; simpl; try reflexivity.
  - intros init last H. destruct init; discriminate.
  - constructor.
Qed.

Lemma text_total_clipped (data : list scraped) :
  Forall (fun item => (len (item_text item) <= MAX_CONTENT_LENGTH_PER_SITE)%Z)
    data ->
  below_cap_before_last data ->
  (text_total data < MAX_TOTAL_CONTENT_LENGTH + MAX_CONTENT_LENGTH_PER_SITE)%Z.
Proof.
  intros Hclip Hlast.
  destruct (rev data) as [|last rinit] eqn:Hrev.
  - apply (f_equal (@rev _)) in Hrev. rewrite rev_involutive in Hrev.
    subst data. reflexivity.
  - apply (f_equal (@rev _)) in Hrev. rewrite rev_involutive in Hrev.
    simpl in Hrev. subst data.
    pose proof (Hlast _ _ eq_refl) as Hinit.
    apply Forall_app in Hclip as [_ Hl]. inversion Hl as [|? ? Hx _]; subst.
    rewrite text_total_app. simpl. unfold len in *. lia.
Qed.

Lemma record_content_invariant (st : scrape_state) (url content : text) :
  scrape_invariant st ->
  (total_content_length st < MAX_TOTAL_CONTENT_LENGTH)%Z ->
  (len content <= MAX_CONTENT_LENGTH_PER_SITE)%Z ->
  scrape_invariant (record_content st url content).
Proof.
  intros [Hids Htot Hlast Hclip Hatt] Hcap Hlen. split; simpl.
  - unfold contiguous_ids in *. rewrite length_app, map_app. simpl.
    rewrite Nat.add_1_r, seq_S, map_app, Hids. reflexivity.
  - rewrite text_total_app, Htot. simpl. lia.
  - intros init last H. apply app_inj_tail in H as [<- _].
    rewrite <- Htot. exact Hcap.
  - apply Forall_app. split; [exact Hclip|]. constructor; [exact Hlen|constructor].
  - exact Hatt.
Qed.

Section AggregatorFacts.

Context {W : Type}.
Variable fetch : text -> action W (option text).

(** The extractor returns, and what it returns is clipped. *)
Hypothesis fetch_returns :
  forall url w, exists r w', fetch url w = (Returns r, w').
Hypothesis fetch_clipped :
  forall url w c w',
    fetch url w = (Returns (Some c), w') ->
    (len c <= MAX_CONTENT_LENGTH_PER_SITE)%Z.

(** Once the cap is reached the loop adds nothing and fetches nothing. *)
Lemma scrape_loop_capped (urls : list text) (st : scrape_state) (w : W) :
  (MAX_TOTAL_CONTENT_LENGTH <= total_content_length st)%Z ->
  scrape_loop fetch urls st w = (Returns st, w).
Proof.
  intros Hcap. induction urls as [|url rest IH]; [reflexivity|].
  cbn [scrape_loop]. destruct (decide (url ∈ urls_attempted st)); [exact IH|].
  replace (MAX_TOTAL_CONTENT_LENGTH <=? total_content_length st)%Z with true
    by (symmetry; apply Z.leb_le; exact Hcap).
  reflexivity.
Qed.

(** One round of the loop: nothing changes, or one entry is appended with
    the next index, for an extraction that gave a text that is not empty
    while the total was below the cap. *)
Lemma scrape_loop_one (url : text) (st : scrape_state) (w : W) :
  scrape_invariant st ->
  exists st' w',
    scrape_loop fetch [url] st w = (Returns st', w')
    /\ scrape_invariant st'
    /\ (st' = st
        \/ exists c,
             truthy c = true
             /\ fetch url w = (Returns (Some c), w')
             /\ (total_content_length st < MAX_TOTAL_CONTENT_LENGTH)%Z
             /\ st' = record_content st url c).
Proof.
  intros Hinv. cbn [scrape_loop].
  destruct (decide (url ∈ urls_attempted st)).
  { exists st, w. auto. }
  destruct (MAX_TOTAL_CONTENT_LENGTH <=? total_content_length st)%Z eqn:Hcap.
  { exists st, w. auto. }
  apply Z.leb_gt in Hcap.
  destruct (fetch_returns url w) as (r & w' & Hf).
  rewrite (act_bind_returns _ _ _ _ _ Hf).
  destruct r as [c|]; [|exists st, w'; auto].
  destruct (truthy c) eqn:Hc; [|exists st, w'; auto].
  exists (record_content st url c), w'. split; [reflexivity|]. split.
  - apply record_content_invariant; [exact Hinv|exact Hcap|].
    exact (fetch_clipped _ _ _ _ Hf).
  - right. exists c. auto.
Qed.

(** The loop over two lists in a row is the loop over the first, then the
    loop over the second. *)
Lemma scrape_loop_app (us1 us2 : list text) (st : scrape_state) (w : W) :
  scrape_loop fetch (us1 ++ us2) st w
  = act_bind (scrape_loop fetch us1 st) (scrape_loop fetch us2) w.
Proof.
  revert st w. induction us1 as [|url rest IH]; intros st w.
  - reflexivity.
  - cbn [app scrape_loop].
    destruct (decide (url ∈ urls_attempted st)); [apply IH|].
    destruct (MAX_TOTAL_CONTENT_LENGTH <=? total_content_length st)%Z eqn:Hcap.
    + apply Z.leb_le in Hcap. unfold act_bind, act_ret.
      symmetry. apply scrape_loop_capped. exact Hcap.
    + unfold act_bind in *.
      destruct (fetch url w) as [[r|e] w']; [|reflexivity].
      apply IH.
Qed.

(** The loop returns, keeps the invariant and only appends. *)
Lemma scrape_loop_returns (urls : list text) (st : scrape_state) (w : W) :
  scrape_invariant st ->
  exists st' w' added,
    scrape_loop fetch urls st w = (Returns st', w')
    /\ scrape_invariant st'
    /\ scraped_data st' = scraped_data st ++ added.
Proof.
  revert st w. induction urls as [|url rest IH]; intros st w Hinv.
  - exists st, w, []. rewrite app_nil_r. auto.
  - change (url :: rest) with ([url] ++ rest). rewrite scrape_loop_app.
    destruct (scrape_loop_one url st w Hinv) as (st1 & w1 & H1 & Hinv1 & Hstep).
    rewrite (act_bind_returns _ _ _ _ _ H1).
    destruct (IH st1 w1 Hinv1) as (st' & w' & added & H2 & Hinv' & Hadd).
    destruct Hstep as [->|(c & _ & _ & _ & ->)].
    + exists st', w', added. auto.
    + exists st', w', ([{| item_id := len (scraped_data st); item_url := url;
                          item_text := c |}] ++ added).
      split; [exact H2|]. split; [exact Hinv'|].
      rewrite Hadd. simpl. rewrite <- app_assoc. reflexivity.
Qed.

End AggregatorFacts.

(** ** The extractor *)

Lemma clip_length (x : text) : (len (clip x) <= MAX_CONTENT_LENGTH_PER_SITE)%Z.
Proof.
  unfold clip, slice_to, len.
  pose proof (firstn_le_length (Z.to_nat MAX_CONTENT_LENGTH_PER_SITE) (strip x)).
  rewrite length_firstn. unfold MAX_CONTENT_LENGTH_PER_SITE. lia.
Qed.

Section ExtractorFacts.

Context {W : Type}.
Variable trafilatura_fetch_url : text -> action W (option text).
Variable trafilatura_extract : text -> outcome (option text).
Variable requests_get : text -> action W response.
Variable Soup : Type.
Variable BeautifulSoup : list Byte.byte -> outcome Soup.
Variable find : Soup -> selector -> option Soup.
Variable find_all_p : Soup -> list text.

Let primary := scrape_primary trafilatura_fetch_url trafilatura_extract.
Let fallback :=
  scrape_fallback requests_get Soup BeautifulSoup find find_all_p.
Let extractor :=
  scrape_url trafilatura_fetch_url trafilatura_extract requests_get Soup
    BeautifulSoup find find_all_p.

Lemma scrape_primary_returns (url : text) (w : W) :
  exists r w',
    primary url w = (Returns r, w')
    /\ forall c, r = Some c -> (len c <= MAX_CONTENT_LENGTH_PER_SITE)%Z.
Proof.
  unfold primary, scrape_primary, act_catch, act_bind, act_ret, act_lift.
  destruct (trafilatura_fetch_url url w) as [[[d|]|e] w1];
    try (eexists _, _; split; [reflexivity|discriminate]).
  destruct (truthy d);
    [|eexists _, _; split; [reflexivity|discriminate]].
  destruct (trafilatura_extract d) as [[mc|]|e];
    try (eexists _, _; split; [reflexivity|discriminate]).
  destruct (truthy mc && (100 <? len mc)%Z)%bool;
    [|eexists _, _; split; [reflexivity|discriminate]].
  eexists _, _. split; [reflexivity|].
  intros c [= <-]. apply clip_length.
Qed.

Lemma scrape_fallback_returns (url : text) (w : W) :
  exists r w',
    fallback url w = (Returns r, w')
    /\ forall c, r = Some c -> (len c <= MAX_CONTENT_LENGTH_PER_SITE)%Z.
Proof.
  unfold fallback, scrape_fallback, act_catch, act_bind, act_ret, act_lift.
  destruct (requests_get url w) as [[r|e] w1];
    [|eexists _, _; split; [reflexivity|discriminate]].
  destruct (raise_for_status r) as [[]|e];
    [|eexists _, _; split; [reflexivity|discriminate]].
  destruct (negb _); [eexists _, _; split; [reflexivity|discriminate]|].
  destruct (7000000 <? len (content r))%Z;
    [eexists _, _; split; [reflexivity|discriminate]|].
  destruct (BeautifulSoup (content r)) as [soup|e];
    [|eexists _, _; split; [reflexivity|discriminate]].
  destruct (truthy (soup_text Soup find find_all_p soup));
    [|eexists _, _; split; [reflexivity|discriminate]].
  eexists _, _. split; [reflexivity|].
  intros c [= <-]. apply clip_length.
Qed.

(** The extractor never raises, and a text it returns is clipped to the
    per-source cap. *)
Lemma scrape_url_returns (url : text) (w : W) :
  exists r w', extractor url w = (Returns r, w').
Proof.
  unfold extractor, scrape_url.
  destruct (scrape_primary_returns url w) as (r & w1 & H1 & _).
  fold primary. rewrite (act_bind_returns _ _ _ _ _ H1).
  destruct r as [t|]; [eexists _, _; reflexivity|].
  destruct (scrape_fallback_returns url w1) as (r2 & w2 & H2 & _).
  exists r2, w2. exact H2.
Qed.

Lemma scrape_url_clipped (url : text) (w : W) (c : text) (w' : W) :
  extractor url w = (Returns (Some c), w') ->
  (len c <= MAX_CONTENT_LENGTH_PER_SITE)%Z.
Proof.
  unfold extractor, scrape_url.
  destruct (scrape_primary_returns url w) as (r & w1 & H1 & Hc1).
  fold primary. rewrite (act_bind_returns _ _ _ _ _ H1).
  destruct r as [t|].
  - intros [= <- _]. apply Hc1. reflexivity.
  - destruct (scrape_fallback_returns url w1) as (r2 & w2 & H2 & Hc2).
    fold fallback. rewrite H2. intros [= -> _]. apply Hc2. reflexivity.
Qed.



End ExtractorFacts.



(** ** The aggregator over the extractor *)

Lemma sources_final_ids (hits : list search_hit) (data : list scraped) :
  map source_id (sources_final hits data) = map item_id data.
Proof. unfold sources_final. rewrite map_map. reflexivity. Qed.

Section Aggregation.

Context {W : Type}.
Variable trafilatura_fetch_url : text -> action W (option text).
Variable trafilatura_extract : text -> outcome (option text).
Variable requests_get : text -> action W response.
Variable Soup : Type.
Variable BeautifulSoup : list Byte.byte -> outcome Soup.
Variable find : Soup -> selector -> option Soup.
Variable find_all_p : Soup -> list text.

Let extractor :=
  scrape_url trafilatura_fetch_url trafilatura_extract requests_get Soup
    BeautifulSoup find find_all_p.
Let aggregate := scrape_urls extractor.

Let extractor_returns :=
  scrape_url_returns trafilatura_fetch_url trafilatura_extract requests_get
    Soup BeautifulSoup find find_all_p.
Let extractor_clipped :=
  scrape_url_clipped trafilatura_fetch_url trafilatura_extract requests_get
    Soup BeautifulSoup find find_all_p.

Lemma scrape_urls_loop (urls : list text) (w : W) :
  exists st w',
    scrape_loop extractor urls scrape_start w = (Returns st, w')
    /\ aggregate urls w = (Returns (scraped_data st), w')
    /\ scrape_invariant st.
Proof.
  destruct (scrape_loop_returns extractor extractor_returns extractor_clipped
              urls scrape_start w scrape_start_invariant)
    as (st & w' & added & Hloop & Hinv & _).
  exists st, w'. split; [exact Hloop|]. split; [|exact Hinv].
  unfold aggregate, scrape_urls.
  rewrite (act_bind_returns _ _ _ _ _ Hloop). reflexivity.
Qed.


(** C3, as the code has it.  The accumulated length stays below the total
    cap plus the per-source cap: it was below the total cap until the last
    source was added, and a source has at most 15000 characters.  Once it
    has reached the total cap no further source is added, whatever URLs
    follow. *)
Theorem total_length_below_cap_plus_one_source (urls : list text) (w : W) :
  exists data w',
    aggregate urls w = (Returns data, w')
    /\ (text_total data
        < MAX_TOTAL_CONTENT_LENGTH + MAX_CONTENT_LENGTH_PER_SITE)%Z
    /\ below_cap_before_last data
    /\ ((MAX_TOTAL_CONTENT_LENGTH <= text_total data)%Z ->
        forall more, aggregate (urls ++ more) w = (Returns data, w')).
Proof.
  destruct (scrape_urls_loop urls w) as (st & w' & Hloop & Hagg & Hinv).
  exists (scraped_data st), w'. split; [exact Hagg|].
  split; [apply text_total_clipped; apply Hinv|].
  split; [apply Hinv|].
  intros Hcap more. unfold aggregate, scrape_urls. unfold act_bind at 1.
  rewrite scrape_loop_app, (act_bind_returns _ _ _ _ _ Hloop).
  rewrite scrape_loop_capped; [reflexivity|].
  rewrite (inv_total _ Hinv). exact Hcap.
Qed.

(** The set [urls_attempted] is empty at the end of every run. *)
Lemma urls_attempted_stays_empty (urls : list text) (w : W) :
  exists st w',
    scrape_loop extractor urls scrape_start w = (Returns st, w')
    /\ urls_attempted st = ∅.
Proof.
  destruct (scrape_urls_loop urls w) as (st & w' & Hloop & _ & Hinv).
  exists st, w'. split; [exact Hloop|apply Hinv].
Qed.

End Aggregation.

(** *** A web of full pages *)

Lemma rev_page_text (n : nat) : rev (page_text n) = page_text n.
Proof.
  unfold page_text. induction n as [|n IH]; [reflexivity|].
  simpl. rewrite IH. symmetry. apply repeat_cons.
Qed.

Lemma strip_page_text (n : nat) : strip (page_text n) = page_text n.
Proof.
  assert (H : drop_while is_space (page_text n) = page_text n)
    by (destruct n; reflexivity).
  unfold strip, rstrip, lstrip.
  rewrite H, rev_page_text, H. apply rev_page_text.
Qed.

Lemma len_page_text (n : nat) : len (page_text n) = Z.of_nat n.
Proof. unfold len, page_text. rewrite repeat_length. reflexivity. Qed.

(** On the web of pages of [n] characters, [n] between 101 and the
    per-source cap, every extraction gives the whole page. *)
Lemma web_scrape_url_page (n : nat) (ctype url : text) (log : list text) :
  (100 < Z.of_nat n <= MAX_CONTENT_LENGTH_PER_SITE)%Z ->
  web_scrape_url n 200 ctype url log
  = (Returns (Some (page_text n)), log ++ [url]).
Proof.
  intros Hn.
  unfold web_scrape_url, scrape_url, scrape_primary, act_bind, act_catch,
    act_ret, act_lift, web_fetch_url, web_extract.
  cbn [truthy str list_ascii_of_string].
  assert (Htruthy : truthy (page_text n) = true).
  { destruct n; [simpl in Hn; lia|reflexivity]. }
  rewrite Htruthy, len_page_text.
  replace (100 <? Z.of_nat n)%Z with true by (symmetry; apply Z.ltb_lt; lia).
  cbn [andb]. unfold clip, slice_to. rewrite strip_page_text.
  rewrite firstn_all2; [reflexivity|].
  unfold page_text. rewrite repeat_length. lia.
Qed.

Lemma web_loop_full_pages (n : nat) (ctype : text) (urls : list text)
    (st : scrape_state) (log : list text) :
  (100 < Z.of_nat n <= MAX_CONTENT_LENGTH_PER_SITE)%Z ->
  urls_attempted st = ∅ ->
  (total_content_length st + Z.of_nat n * (len urls - 1)
   < MAX_TOTAL_CONTENT_LENGTH)%Z ->
  exists st',
    scrape_loop (web_scrape_url n 200 ctype) urls st log
    = (Returns st', log ++ urls)
    /\ total_content_length st'
       = (total_content_length st + Z.of_nat n * len urls)%Z.
Proof.
  intros Hn. revert st log.
  induction urls as [|url rest IH]; intros st log Hatt Hcap.
  - exists st. rewrite app_nil_r. split; [reflexivity|].
    unfold len; simpl; lia.
  - cbn [scrape_loop].
    destruct (decide (url ∈ urls_attempted st)) as [Hin|_].
    { rewrite Hatt in Hin. set_solver. }
    assert (Hlen : len (url :: rest) = (len rest + 1)%Z)
      by (unfold len; simpl length; lia).
    rewrite Hlen in Hcap.
    assert (0 <= len rest)%Z by (unfold len; lia).
    replace (MAX_TOTAL_CONTENT_LENGTH <=? total_content_length st)%Z with false
      by (symmetry; apply Z.leb_gt; nia).
    rewrite (act_bind_returns _ _ _ _ _
               (web_scrape_url_page n ctype url log Hn)).
    replace (truthy (page_text n)) with true
      by (destruct n; [simpl in Hn; lia|reflexivity]).
    destruct (IH (record_content st url (page_text n)) (log ++ [url]))
      as (st' & Hloop & Htot).
    + exact Hatt.
    + cbn [record_content total_content_length]. rewrite len_page_text. nia.
    + exists st'. rewrite <- app_assoc in Hloop. split; [exact Hloop|].
      rewrite Htot. cbn [record_content total_content_length].
      rewrite len_page_text, Hlen. lia.
Qed.

(** On such a web every occurrence of a URL in the input is downloaded, in
    input order, as long as the cap is not reached: no URL is skipped for
    having been attempted before. *)
Lemma page_web_downloads_every_occurrence (n : nat) (ctype : text)
    (urls : list text) :
  (100 < Z.of_nat n <= MAX_CONTENT_LENGTH_PER_SITE)%Z ->
  (Z.of_nat n * (len urls - 1) < MAX_TOTAL_CONTENT_LENGTH)%Z ->
  exists data,
    scrape_urls (web_scrape_url n 200 ctype) urls [] = (Returns data, urls).
Proof.
  intros Hn Hcap.
  destruct (web_loop_full_pages n ctype urls scrape_start [] Hn eq_refl)
    as (st & Hloop & _); [exact Hcap|].
  exists (scraped_data st). unfold scrape_urls.
  rewrite (act_bind_returns _ _ _ _ _ Hloop). reflexivity.
Qed.

(** Fourteen pages of 15000 characters each, every one under the per-source
    cap, are all added: 210000 characters in all. *)
Lemma fourteen_full_pages_total :
  exists data log,
    scrape_urls full_page_web fourteen_urls [] = (Returns data, log)
    /\ Forall (fun item =>
                (len (item_text item) <= MAX_CONTENT_LENGTH_PER_SITE)%Z) data
    /\ text_total data = 210000%Z.
Proof.
  unfold full_page_web, web_scrape_url.
  set (n := Z.to_nat MAX_CONTENT_LENGTH_PER_SITE).
  assert (Hn : (100 < Z.of_nat n <= MAX_CONTENT_LENGTH_PER_SITE)%Z).
  { subst n. rewrite Z2Nat.id; unfold MAX_CONTENT_LENGTH_PER_SITE; lia. }
  destruct (scrape_urls_loop web_fetch_url (web_extract n)
              (web_get 200 (str "text/html")) unit (fun _ => Returns tt)
              (fun _ _ => None) (fun _ => []) fourteen_urls [])
    as (st & log & Hloop & Hagg & Hinv).
  destruct (web_loop_full_pages n (str "text/html") fourteen_urls
              scrape_start [] Hn eq_refl) as (st' & Hloop' & Htot).
  { change (len fourteen_urls) with 14%Z.
    unfold MAX_TOTAL_CONTENT_LENGTH, MAX_CONTENT_LENGTH_PER_SITE in *.
    cbn [scrape_start total_content_length]. lia. }
  unfold web_scrape_url in Hloop'.
  rewrite Hloop in Hloop'. injection Hloop' as <- _.
  change (len fourteen_urls) with 14%Z in Htot.
  cbn [scrape_start total_content_length] in Htot.
  exists (scraped_data st), log. split; [exact Hagg|].
  split; [apply Hinv|].
  rewrite <- (inv_total _ Hinv), Htot. subst n.
  rewrite Z2Nat.id; unfold MAX_CONTENT_LENGTH_PER_SITE; lia.
Qed.

(** C3 as stated fails: on that web the total passes the cap of 200000. *)
Lemma fourteen_full_pages_exceed_cap :
  exists data log,
    scrape_urls full_page_web fourteen_urls [] = (Returns data, log)
    /\ Forall (fun item =>
                (len (item_text item) <= MAX_CONTENT_LENGTH_PER_SITE)%Z) data
    /\ text_total data = 210000%Z
    /\ (MAX_TOTAL_CONTENT_LENGTH < text_total data)%Z.
Proof.
  destruct fourteen_full_pages_total as (data & log & Hagg & Hclip & Htot).
  exists data, log. split; [exact Hagg|]. split; [exact Hclip|].
  split; [exact Htot|]. rewrite Htot. reflexivity.
Qed.

Lemma total_length_below_cap_plus_one_source_witness :
  exists data log,
    scrape_urls full_page_web fourteen_urls [] = (Returns data, log)
    /\ (text_total data
        < MAX_TOTAL_CONTENT_LENGTH + MAX_CONTENT_LENGTH_PER_SITE)%Z
    /\ (MAX_TOTAL_CONTENT_LENGTH <= text_total data)%Z
    /\ forall more,
         scrape_urls full_page_web (fourteen_urls ++ more) []
         = (Returns data, log).
Proof.
  destruct (total_length_below_cap_plus_one_source web_fetch_url
              (web_extract (Z.to_nat MAX_CONTENT_LENGTH_PER_SITE))
              (web_get 200 (str "text/html")) unit (fun _ => Returns tt)
              (fun _ _ => None) (fun _ => []) fourteen_urls [])
    as (data & log & Hagg & Hlt & _ & Hmore).
  destruct fourteen_full_pages_total as (data2 & log2 & Hagg2 & _ & Htot).
  unfold full_page_web, web_scrape_url in *.
  rewrite Hagg in Hagg2. injection Hagg2 as <- <-.
  assert (Hcap : (MAX_TOTAL_CONTENT_LENGTH <= text_total data)%Z)
    by (rewrite Htot; unfold MAX_TOTAL_CONTENT_LENGTH; lia).
  exists data, log. split; [exact Hagg|]. split; [exact Hlt|].
  split; [exact Hcap|]. exact (Hmore Hcap).
Defined.

(** C4: the code at an input with a duplicate.  The same URL twice is
    downloaded twice and recorded as two sources. *)
Theorem duplicate_url_scraped_twice :
  scrape_urls (web_scrape_url 150 200 (str "text/html"))
    [example_url; example_url] []
  = (Returns [ {| item_id := 0; item_url := example_url;
                  item_text := page_text 150 |};
               {| item_id := 1; item_url := example_url;
                  item_text := page_text 150 |} ],
     [example_url; example_url]).
Proof. vm_compute. reflexivity. Qed.

(** ** The synthesizer *)

Section SynthesizerFacts.

Context {W : Type}.
Variable generate_content : text -> Z -> action W model_response.
Variable markdown_parser : text -> outcome text.

Let synthesize := synthesize_with_gemini generate_content markdown_parser.









End SynthesizerFacts.

(** *** The synthesizer on scripted models *)





(** *** The normalizer on the texts of the specification *)

(** C5 as stated fails: the markers of a comma group come out with a space
    between them, and the post-render pass on its own leaves the second of
    two adjacent markers as it is. *)
Lemma comma_group_split_with_space :
  preprocess_llm_text_for_citations (str "[2,5]") <> str "[2][5]"
  /\ process_citation_markers_in_html (str "[1][2]")
     = citation_anchor 0 (str "1") ++ str "[2]"
  /\ postprocess_answer_html (str "[1][2]")
     = citation_anchor 0 (str "1") ++ str " [2]".
Proof. split; [vm_compute; discriminate|]. split; vm_compute; reflexivity. Qed.

(** C5, as the code has it.  The pre-render pass turns the comma group into
    the two markers with one space between them, and puts one space between
    two adjacent markers; on that text each of the post-render passes gives
    two anchors with one space between them. *)
Theorem comma_group_and_adjacent_markers :
  preprocess_llm_text_for_citations (str "[2,5]") = str "[2] [5]"
  /\ preprocess_llm_text_for_citations (str "[1][2]") = str "[1] [2]"
  /\ process_citation_markers_in_html
       (preprocess_llm_text_for_citations (str "[1][2]"))
     = citation_anchor 0 (str "1") ++ str " " ++ citation_anchor 1 (str "2")
  /\ postprocess_answer_html
       (preprocess_llm_text_for_citations (str "[1][2]"))
     = citation_anchor 0 (str "1") ++ str " " ++ citation_anchor 1 (str "2")
       ++ str " ".
Proof. repeat split; vm_compute; reflexivity. Qed.

(** C6: the code at a run of three adjacent markers.  One application leaves
    the second and third marker adjacent, a second application separates
    them, so the two differ; and so does the markup made of them: the third
    marker is an anchor only after the second application. *)
Theorem three_adjacent_markers_not_idempotent :
  preprocess_llm_text_for_citations (str "[1][2][3]") = str "[1] [2][3]"
  /\ preprocess_llm_text_for_citations
       (preprocess_llm_text_for_citations (str "[1][2][3]"))
     = str "[1] [2] [3]"
  /\ postprocess_answer_html (str "[1] [2][3]")
     = citation_anchor 0 (str "1") ++ str " " ++ citation_anchor 1 (str "2")
       ++ str " [3]"
  /\ postprocess_answer_html (str "[1] [2] [3]")
     = citation_anchor 0 (str "1") ++ str " " ++ citation_anchor 1 (str "2")
       ++ str " " ++ citation_anchor 2 (str "3") ++ str " ".
Proof. repeat split; vm_compute; reflexivity. Qed.

(** ** The paginated-document renderer *)





Lemma skeleton_app (a b : text) : skeleton (a ++ b) = skeleton a ++ skeleton b.
Proof. apply List.filter_app. Qed.



Lemma skeleton_digits (s : text) :
  forallb is_digit s = true -> skeleton s = [].
Proof.
  induction s as [|c s IH]; [reflexivity|]. cbn [forallb]. intros H.
  apply andb_prop in H as [Hc Hs]. unfold skeleton in *. cbn [List.filter].
  replace (is_markup c) with false; [apply IH; exact Hs|].
  clear - Hc. revert Hc. by_cases_on_char c.
Qed.

Lemma skeleton_py_str (n : Z) : skeleton (py_str n) = [].
Proof.
  unfold py_str. destruct (n <? 0)%Z eqn:Hneg.
  - apply Z.ltb_lt in Hneg. change ("-"%char :: ?x) with (str "-" ++ x).
    rewrite skeleton_app. cbn [app].
    apply skeleton_digits, pos_digits_digits; [lia|reflexivity].
  - apply Z.ltb_ge in Hneg.
    apply skeleton_digits, pos_digits_digits; [lia|reflexivity].
Qed.








(** * Further properties *)

(** ** The report store *)

Lemma add_reports_snoc (entries : list (text * report)) (id : text)
    (data : report) (st : store) :
  add_reports (entries ++ [(id, data)]) st
  = add_to_report_store id data (add_reports entries st).
Proof. unfold add_reports. rewrite fold_left_app. reflexivity. Qed.

(** With identifiers that are all different, the store is the map of the
    latest entries, and the order list their identifiers. *)
Lemma add_reports_latest (entries : list (text * report)) :
  NoDup (entries.*1) ->
  report_order (add_reports entries empty_store) = (latest entries).*1
  /\ report_store (add_reports entries empty_store)
     = list_to_map (latest entries).
Proof.
  induction entries as [|[id data] es IH] using rev_ind; intros Hnd.
  { split; reflexivity. }
  rewrite fmap_app in Hnd. apply NoDup_app in Hnd as (Hes & Hid & _).
  destruct (IH Hes) as [Horder Hstore]. clear IH.
  rewrite add_reports_snoc.
  assert (Hfresh : id ∉ es.*1).
  { intros Hin. apply (Hid id Hin). cbn. left. }
  assert (Hsub : forall k, NoDup (drop k es).*1 /\ id ∉ (drop k es).*1).
  { intros k. split.
    - rewrite fmap_drop. eapply sublist_NoDup; [exact Hes|apply sublist_drop].
    - intros Hin. apply Hfresh. rewrite <- (take_drop k es), fmap_app.
      apply elem_of_app. right. exact Hin. }
  unfold latest in *. rewrite length_app. cbn [length].
  unfold add_to_report_store. rewrite Hstore, Horder.
  rewrite (map_size_list_to_map (M := gmap text)) by apply Hsub.
  rewrite length_drop.
  change (Z.to_nat REPORT_STORE_MAX_ITEMS) with 100 in *.
  unfold REPORT_STORE_MAX_ITEMS.
  destruct (Z.leb_spec 100 (Z.of_nat (length es - (length es - 100))))
    as [Hfull|Hroom].
  - assert (Hlen : 100 <= length es) by lia.
    destruct (drop (length es - 100) es) as [|[o od] rest] eqn:Hdrop.
    { apply (f_equal length) in Hdrop. rewrite length_drop in Hdrop.
      simpl in Hdrop. lia. }
    assert (Hrest : drop (length es + 1 - 100) es = rest).
    { replace (length es + 1 - 100) with (S (length es - 100)) by lia.
      rewrite <- (drop_drop es 1 (length es - 100)) || idtac.
      replace (S (length es - 100)) with (length es - 100 + 1) by lia.
      rewrite <- drop_drop. rewrite Hdrop. reflexivity. }
    rewrite drop_app_le by lia. rewrite Hrest.
    destruct (Hsub (length es - 100)) as [Hnd' Hid'].
    rewrite Hdrop in Hnd', Hid'. cbn in Hnd', Hid'.
    apply NoDup_cons in Hnd' as [Ho Hnd'].
    cbn [fmap list_fmap fst report_store report_order].
    rewrite fmap_app. cbn [fmap list_fmap fst]. split; [reflexivity|].
    rewrite list_to_map_cons.
    destruct (decide (is_Some (<[o:=od]> (list_to_map rest) !! o)))
      as [_|Hno].
    2:{ exfalso. apply Hno. rewrite lookup_insert_eq. eauto. }
    rewrite delete_insert_eq.
    rewrite delete_id by (apply not_elem_of_list_to_map_1; exact Ho).
    rewrite list_to_map_snoc; [reflexivity|].
    intros Hin. apply Hid'. right. exact Hin.
  - assert (Hlen : length es < 100) by lia.
    replace (length es - 100) with 0 in * by lia.
    replace (length es + 1 - 100) with 0 by lia.
    rewrite !drop_0 in *. cbn [report_store report_order].
    rewrite Hstore, Horder.
    rewrite fmap_app. split; [reflexivity|].
    rewrite list_to_map_snoc by exact Hfresh. reflexivity.
Qed.

Lemma latest_nodup (entries : list (text * report)) :
  NoDup (entries.*1) -> NoDup (latest entries).*1.
Proof.
  intros Hnd. unfold latest. rewrite fmap_drop.
  eapply sublist_NoDup; [exact Hnd|apply sublist_drop].
Qed.

(** The report added at position [i] is found as long as fewer than
    [REPORT_STORE_MAX_ITEMS] were added after it. *)
Lemma add_reports_lookup (entries : list (text * report)) (i : nat)
    (id : text) (data : report) :
  NoDup (entries.*1) ->
  entries !! i = Some (id, data) ->
  report_store (add_reports entries empty_store) !! id
  = if (Z.of_nat i + REPORT_STORE_MAX_ITEMS <? len entries)%Z
    then None else Some data.
Proof.
  intros Hnd Hi. destruct (add_reports_latest entries Hnd) as [_ Hstore].
  pose proof (latest_nodup entries Hnd) as Hlatest.
  rewrite Hstore. unfold latest, len in *.
  change (Z.to_nat REPORT_STORE_MAX_ITEMS) with 100 in *.
  unfold REPORT_STORE_MAX_ITEMS.
  pose proof (lookup_lt_Some _ _ _ Hi) as Hlt.
  destruct (Z.ltb_spec (Z.of_nat i + 100) (Z.of_nat (length entries)))
    as [Hold|Hnew].
  - apply not_elem_of_list_to_map_1.
    rewrite <- (take_drop (length entries - 100) entries) in Hnd.
    rewrite fmap_app in Hnd. apply NoDup_app in Hnd as (_ & Hdisj & _).
    apply Hdisj. apply list_elem_of_fmap. exists (id, data).
    split; [reflexivity|].
    apply (list_elem_of_lookup_2 _ i). rewrite lookup_take_lt by lia.
    exact Hi.
  - apply elem_of_list_to_map_1; [exact Hlatest|].
    apply (list_elem_of_lookup_2 _ (i - (length entries - 100))).
    rewrite lookup_drop.
    replace (length entries - 100 + (i - (length entries - 100))) with i
      by lia.
    exact Hi.
Qed.

(** X1.  With identifiers that are all different, after any number of
    additions to the empty store: the store holds at most
    [REPORT_STORE_MAX_ITEMS] reports; the order list names the latest ones,
    oldest first; and the report added at position [i] is found under its
    identifier exactly as long as fewer than [REPORT_STORE_MAX_ITEMS] reports
    were added after it. *)
Theorem store_keeps_latest_reports (entries : list (text * report)) :
  NoDup (entries.*1) ->
  (Z.of_nat (size (report_store (add_reports entries empty_store)))
   <= REPORT_STORE_MAX_ITEMS)%Z
  /\ report_order (add_reports entries empty_store) = (latest entries).*1
  /\ forall (i : nat) (id : text) (data : report),
       entries !! i = Some (id, data) ->
       report_store (add_reports entries empty_store) !! id
       = if (Z.of_nat i + REPORT_STORE_MAX_ITEMS <? len entries)%Z
         then None else Some data.
Proof.
  intros Hnd. destruct (add_reports_latest entries Hnd) as [Horder Hstore].
  pose proof (latest_nodup entries Hnd) as Hlatest.
  split; [|split; [exact Horder|]].
  - rewrite Hstore, (map_size_list_to_map (M := gmap text)) by exact Hlatest.
    unfold latest. rewrite length_drop. unfold REPORT_STORE_MAX_ITEMS. lia.
  - intros i id data Hi. apply add_reports_lookup; assumption.
Qed.

Lemma store_keeps_latest_reports_witness :
  (Z.of_nat
     (size (report_store
              (add_reports [(str "a", example_report); (str "b", example_report)]
                 empty_store)))
   <= REPORT_STORE_MAX_ITEMS)%Z
  /\ report_order
       (add_reports [(str "a", example_report); (str "b", example_report)]
          empty_store)
     = (latest [(str "a", example_report); (str "b", example_report)]).*1
  /\ forall (i : nat) (id : text) (data : report),
       [(str "a", example_report); (str "b", example_report)] !! i
       = Some (id, data) ->
       report_store
         (add_reports [(str "a", example_report); (str "b", example_report)]
            empty_store) !! id
       = if (Z.of_nat i + REPORT_STORE_MAX_ITEMS
             <? len [(str "a", example_report); (str "b", example_report)])%Z
         then None else Some data.
Proof.
  apply (store_keeps_latest_reports
           [(str "a", example_report); (str "b", example_report)]).
  apply NoDup_cons. split.
  - intros Hin. apply list_elem_of_singleton in Hin. discriminate Hin.
  - apply NoDup_singleton.
Defined.

(** ** Search *)

Lemma filter_all {A} (p : A -> bool) (l : list A) :
  Forall (fun x => p x = true) l -> List.filter p l = l.
Proof.
  induction 1 as [|x l Hx _ IH]; [reflexivity|].
  cbn [List.filter]. rewrite Hx, IH. reflexivity.
Qed.

Lemma filter_holds {A} (p : A -> bool) (l : list A) :
  Forall (fun x => p x = true) (List.filter p l).
Proof.
  induction l as [|x l IH]; [constructor|].
  cbn [List.filter]. destruct (p x) eqn:Hx; [constructor; assumption|exact IH].
Qed.

Lemma filter_map_comm {A B} (f : A -> B) (p : B -> bool) (l : list A) :
  List.filter p (map f l) = map f (List.filter (fun x => p (f x)) l).
Proof.
  induction l as [|x l IH]; [reflexivity|].
  cbn [map List.filter]. destruct (p (f x)); cbn [map]; rewrite IH; reflexivity.
Qed.

Section SearchFacts.

Context {W : Type}.
Variable ddgs_text : text -> Z -> action W (list ddgs_result).

(** X2.  A search never raises.  Its hits are the results that have a
    non-empty [href], in the order of the provider, so every hit has a URL
    and the filter of the route on the URLs keeps all of them; when the
    provider raises there are no hits. *)
Theorem search_hits_have_urls (query : text) (num_results : Z) (w : W) :
  exists hits w',
    perform_search ddgs_text query num_results w = (Returns hits, w')
    /\ Forall (fun h => truthy (hit_url h) = true) hits
    /\ List.filter (fun h => truthy (hit_url h)) hits = hits
    /\ match ddgs_text query num_results w with
       | (Returns results, w1) =>
           w' = w1
           /\ map hit_url hits
              = List.filter truthy
                  (map (fun r => get_or [] (result_href r)) results)
       | (Raises _, w1) => w' = w1 /\ hits = []
       end.
Proof.
  unfold perform_search, act_catch, act_bind, act_ret.
  destruct (ddgs_text query num_results w) as [[results|e] w1].
  - assert (Hurls :
      Forall (fun h => truthy (hit_url h) = true)
        (map (fun r =>
                {| hit_title := get_or [] (result_title r);
                   hit_url := get_or [] (result_href r);
                   hit_body := get_or [] (result_body r) |})
           (List.filter (fun r => truthy (get_or [] (result_href r)))
              results))).
    { apply Forall_map.
      apply (filter_holds (fun r => truthy (get_or [] (result_href r)))). }
    destruct results as [|r rs].
    + exists [], w1. cbn. repeat split; constructor.
    + cbn [truthy]. eexists _, w1. split; [reflexivity|].
      split; [exact Hurls|]. split.
      * apply (filter_all (fun h => truthy (hit_url h))). exact Hurls.
      * split; [reflexivity|].
        rewrite map_map. cbn [hit_url].
        symmetry. apply filter_map_comm.
  - exists [], w1. cbn. repeat split. constructor.
Qed.

End SearchFacts.

(** ** What the aggregator keeps *)

Section AggregatorSources.

Context {W : Type}.
Variable fetch : text -> action W (option text).
Hypothesis fetch_returns :
  forall url w, exists r w', fetch url w = (Returns r, w').

Lemma scrape_loop_added (urls : list text) (st : scrape_state) (w : W) :
  exists st' w' added,
    scrape_loop fetch urls st w = (Returns st', w')
    /\ scraped_data st' = scraped_data st ++ added
    /\ map item_url added `sublist_of` urls
    /\ Forall (fun item => truthy (item_text item) = true) added.
Proof.
  revert st w. induction urls as [|url rest IH]; intros st w.
  { exists st, w, []. rewrite app_nil_r. repeat split; constructor. }
  cbn [scrape_loop].
  destruct (decide (url ∈ urls_attempted st)).
  { destruct (IH st w) as (st' & w' & added & Hrun & Hdata & Hsub & Hne).
    exists st', w', added. repeat split; try assumption.
    apply sublist_cons. exact Hsub. }
  destruct (MAX_TOTAL_CONTENT_LENGTH <=? total_content_length st)%Z.
  { exists st, w, []. rewrite app_nil_r. repeat split; try constructor.
    apply sublist_nil_l. }
  destruct (fetch_returns url w) as (r & w1 & Hfetch).
  rewrite (act_bind_returns _ _ _ _ _ Hfetch).
  destruct r as [[|c cs]|]; cbn [truthy].
  - destruct (IH st w1) as (st' & w' & added & Hrun & Hdata & Hsub & Hne).
    exists st', w', added. repeat split; try assumption.
    apply sublist_cons. exact Hsub.
  - destruct (IH (record_content st url (c :: cs)) w1)
      as (st' & w' & added & Hrun & Hdata & Hsub & Hne).
    exists st', w',
      ({| item_id := len (scraped_data st); item_url := url;
          item_text := c :: cs |} :: added).
    split; [exact Hrun|]. split.
    + rewrite Hdata. cbn [record_content scraped_data].
      rewrite <- app_assoc. reflexivity.
    + split; [cbn [map item_url]; apply sublist_skip; exact Hsub|].
      constructor; [reflexivity|exact Hne].
  - destruct (IH st w1) as (st' & w' & added & Hrun & Hdata & Hsub & Hne).
    exists st', w', added. repeat split; try assumption.
    apply sublist_cons. exact Hsub.
Qed.

End AggregatorSources.

Section AggregatedSources.

Context {W : Type}.
Variable trafilatura_fetch_url : text -> action W (option text).
Variable trafilatura_extract : text -> outcome (option text).
Variable requests_get : text -> action W response.
Variable Soup : Type.
Variable BeautifulSoup : list Byte.byte -> outcome Soup.
Variable find : Soup -> selector -> option Soup.
Variable find_all_p : Soup -> list text.

Let extractor :=
  scrape_url trafilatura_fetch_url trafilatura_extract requests_get Soup
    BeautifulSoup find find_all_p.

(** X3.  The aggregator never raises.  The URLs of its sources are URLs of
    its input, in the order of the input and no more than there are; every
    source has a text that is not empty and has at most
    [MAX_CONTENT_LENGTH_PER_SITE] characters. *)
Theorem sources_come_from_input (urls : list text) (w : W) :
  exists data w',
    scrape_urls extractor urls w = (Returns data, w')
    /\ map item_url data `sublist_of` urls
    /\ length data <= length urls
    /\ Forall (fun item =>
                 truthy (item_text item) = true
                 /\ (len (item_text item) <= MAX_CONTENT_LENGTH_PER_SITE)%Z)
         data.
Proof.
  pose proof (scrape_url_returns trafilatura_fetch_url trafilatura_extract
                requests_get Soup BeautifulSoup find find_all_p) as Hreturns.
  destruct (scrape_loop_added extractor Hreturns urls scrape_start w)
    as (st & w' & added & Hrun & Hdata & Hsub & Hne).
  destruct (scrape_urls_loop trafilatura_fetch_url trafilatura_extract
              requests_get Soup BeautifulSoup find find_all_p urls w)
    as (st2 & w2 & Hrun2 & Hagg & Hinv).
  fold extractor in Hrun2, Hagg. rewrite Hrun in Hrun2.
  injection Hrun2 as <- <-.
  cbn [scrape_start scraped_data app] in Hdata.
  exists (scraped_data st), w'. split; [exact Hagg|].
  rewrite Hdata. split; [exact Hsub|]. split.
  - apply sublist_length in Hsub. rewrite length_map in Hsub. exact Hsub.
  - pose proof (inv_clipped st Hinv) as Hclip. rewrite Hdata in Hclip.
    rewrite Forall_forall in *.
    intros item Hin. split; [apply Hne|apply Hclip]; exact Hin.
Qed.

End AggregatedSources.

(** ** The context of the model *)

Lemma fold_left_append {A} (f : A -> text) (l : list A) (init : text) :
  fold_left (fun acc x => acc ++ f x) l init = init ++ concat (map f l).
Proof.
  revert init. induction l as [|x l IH]; intros init; cbn.
  - rewrite app_nil_r. reflexivity.
  - rewrite IH, <- app_assoc. reflexivity.
Qed.

Lemma format_context_blocks (data : list scraped) :
  format_context_for_llm data
  = concat
      (map (fun item =>
              context_block (item_id item + 1) (item_url item)
                (item_text item))
         data).
Proof.
  unfold format_context_for_llm.
  rewrite (fold_left_append
             (fun item =>
                context_block (item_id item + 1) (item_url item)
                  (item_text item))).
  reflexivity.
Qed.

Lemma numbered_from (data : list scraped) (n : nat) :
  map item_id data = map Z.of_nat (seq n (length data)) ->
  map (fun item =>
         context_block (item_id item + 1) (item_url item) (item_text item))
    data
  = imap (fun k item =>
            context_block (Z.of_nat (n + k) + 1) (item_url item)
              (item_text item))
      data.
Proof.
  revert n. induction data as [|item data IH]; intros n Hids; [reflexivity|].
  cbn [map length seq] in Hids. injection Hids as Hid Hrest.
  cbn [map]. rewrite imap_cons. rewrite Hid, Nat.add_0_r. f_equal.
  rewrite (IH (S n) Hrest). apply imap_ext. intros k x _. unfold compose.
  replace (S n + k) with (n + S k) by lia. reflexivity.
Qed.

Section ContextNumbers.

Context {W : Type}.
Variable trafilatura_fetch_url : text -> action W (option text).
Variable trafilatura_extract : text -> outcome (option text).
Variable requests_get : text -> action W response.
Variable Soup : Type.
Variable BeautifulSoup : list Byte.byte -> outcome Soup.
Variable find : Soup -> selector -> option Soup.
Variable find_all_p : Soup -> list text.

Let extractor :=
  scrape_url trafilatura_fetch_url trafilatura_extract requests_get Soup
    BeautifulSoup find find_all_p.

(** X4.  In the context made of what the aggregator returns, the source at
    position [k] (from 0) stands under the number [k + 1]; and a marker with
    the number [k + 1], alone in a rendered answer, becomes the anchor of
    index [k], the position of that source. *)
Theorem context_numbers_match_anchors (urls : list text) (w : W) :
  exists data w',
    scrape_urls extractor urls w = (Returns data, w')
    /\ format_context_for_llm data
       = concat
           (imap (fun k item =>
                    context_block (Z.of_nat k + 1) (item_url item)
                      (item_text item))
              data)
    /\ forall k : nat,
         postprocess_answer_html (marker (py_str (Z.of_nat k + 1)))
         = citation_anchor (Z.of_nat k) (py_str (Z.of_nat k + 1)) ++ str " ".
Proof.
  destruct (scrape_urls_loop trafilatura_fetch_url trafilatura_extract
              requests_get Soup BeautifulSoup find find_all_p urls w)
    as (st & w' & _ & Hagg & Hinv).
  exists (scraped_data st), w'. split; [exact Hagg|]. split.
  - rewrite format_context_blocks.
    rewrite (numbered_from _ 0 (inv_ids st Hinv)). reflexivity.
  - intros k.
    pose proof (marker_of_number [] [] (Z.of_nat k + 1)) as H.
    rewrite app_nil_r in H. cbn [app] in H.
    rewrite H; [|lia|exact I|exact I].
    replace (Z.of_nat k + 1 - 1)%Z with (Z.of_nat k) by lia.
    reflexivity.
Qed.

End ContextNumbers.

(** ** Texts the citation passes leave alone *)

(** A pass whose pattern can only start at an opening bracket copies a text
    that has none. *)
Lemma sub_loop_no_bracket (r : regex) (repl : captures -> text) :
  (forall prev c s, ascii_eqb c "[" = false -> re_match r prev (c :: s) = None) ->
  forall (n : nat) (prev : option ascii) (t : text),
    no_bracket t = true -> sub_loop r repl n prev t = t.
Proof.
  intros Hr n. induction n as [|n IH]; intros prev t Ht; [reflexivity|].
  destruct t as [|c t]; [reflexivity|].
  cbn [no_bracket forallb] in Ht. apply andb_prop in Ht as [Hc Ht].
  apply negb_true_iff in Hc.
  cbn [sub_loop]. rewrite (Hr prev c t Hc). f_equal. apply IH. exact Ht.
Qed.

Lemma grouped_citation_starts_at_bracket (prev : option ascii) (c : ascii)
    (s : text) :
  ascii_eqb c "[" = false ->
  re_match grouped_citation_re prev (c :: s) = None.
Proof.
  intros Hc. unfold re_match, grouped_citation_re. cbn [rmatch].
  rewrite Hc. reflexivity.
Qed.

Lemma adjacent_markers_start_at_bracket (prev : option ascii) (c : ascii)
    (s : text) :
  ascii_eqb c "[" = false ->
  re_match adjacent_markers_re prev (c :: s) = None.
Proof.
  intros Hc. unfold re_match, adjacent_markers_re. cbn [rmatch].
  rewrite Hc. reflexivity.
Qed.

Lemma marker_at_not_bracket (prev : option ascii) (c : ascii) (s : text) :
  ascii_eqb c "[" = false -> marker_at prev (c :: s) = None.
Proof.
  intros Hc. unfold marker_at. rewrite Hc.
  destruct (match prev with Some x => marker_forbidden_before x | None => false end);
    reflexivity.
Qed.

(** The marker pass copies a text without opening bracket, whatever comes
    after it. *)
Lemma mark_from_copy (repl : captures -> text) (t rest : text)
    (prev : option ascii) :
  no_bracket t = true ->
  mark_from repl prev (t ++ rest)
  = t ++ mark_from repl (last_char prev t) rest.
Proof.
  revert prev. induction t as [|c t IH]; intros prev Ht; [reflexivity|].
  cbn [no_bracket forallb] in Ht. apply andb_prop in Ht as [Hc Ht].
  apply negb_true_iff in Hc.
  cbn [app]. rewrite mark_from_cons, (marker_at_not_bracket prev c _ Hc).
  f_equal. apply IH. exact Ht.
Qed.

Lemma mark_from_nil (repl : captures -> text) (prev : option ascii) :
  mark_from repl prev [] = [].
Proof. reflexivity. Qed.

(** X5.  A text without an opening bracket passes the normalizer and the
    marker passes unchanged; after the Markdown parser only its runs of
    white space are touched. *)
Theorem text_without_bracket_unchanged (t : text) :
  no_bracket t = true ->
  preprocess_llm_text_for_citations t = t
  /\ mark_citations t = t
  /\ bind_citations_inline t = t
  /\ postprocess_answer_html t = collapse_whitespace t.
Proof.
  intros Ht.
  assert (Hmark : forall repl, mark_from repl None t = t).
  { intros repl. pose proof (mark_from_copy repl t [] None Ht) as H.
    rewrite !app_nil_r in H. exact H. }
  split; [|split; [apply Hmark|split; [apply Hmark|]]].
  - unfold preprocess_llm_text_for_citations, re_sub, re_sub_from.
    rewrite (sub_loop_no_bracket grouped_citation_re replacer
               grouped_citation_starts_at_bracket _ _ t Ht).
    apply (sub_loop_no_bracket adjacent_markers_re spaced_pair
             adjacent_markers_start_at_bracket _ _ t Ht).
  - unfold postprocess_answer_html.
    change (bind_citations_inline t)
      with (mark_from inline_citation_anchor None t).
    rewrite Hmark. reflexivity.
Qed.

Lemma text_without_bracket_unchanged_witness :
  preprocess_llm_text_for_citations (str "See (1) and  2.")
  = str "See (1) and  2."
  /\ mark_citations (str "See (1) and  2.") = str "See (1) and  2."
  /\ bind_citations_inline (str "See (1) and  2.") = str "See (1) and  2."
  /\ postprocess_answer_html (str "See (1) and  2.")
     = collapse_whitespace (str "See (1) and  2.").
Proof.
  apply (text_without_bracket_unchanged (str "See (1) and  2.")).
  reflexivity.
Defined.

(** ** Markers that stay text *)






(** ** What collapsing white space leaves *)

Lemma collapse_nil : collapse_whitespace [] = [].
Proof. reflexivity. Qed.

(** Where the text starts with a character that is not white space, so does
    the result. *)
Lemma collapse_head (y : ascii) (t : text) :
  is_space y = false ->
  collapse_whitespace (y :: t) = y :: collapse_whitespace t.
Proof.
  intros Hy. rewrite collapse_cons. unfold space_run_at.
  destruct t as [|b t]; [reflexivity|]. rewrite Hy. reflexivity.
Qed.

Lemma drop_while_head (p : ascii -> bool) (s : text) :
  match drop_while p s with
  | c :: _ => p c = false
  | [] => True
  end.
Proof.
  induction s as [|c s IH]; cbn; [exact I|].
  destruct (p c) eqn:Hc; [exact IH|exact Hc].
Qed.

Lemma no_space_run_cons (a b : ascii) (t : text) :
  no_space_run (a :: b :: t)
  = (negb (is_space a && is_space b) && no_space_run (b :: t))%bool.
Proof. reflexivity. Qed.

Lemma collapse_no_space_run (s : text) :
  no_space_run (collapse_whitespace s) = true.
Proof.
  remember (length s) as n eqn:Hn. revert s Hn.
  induction n as [n IH] using lt_wf_ind. intros s Hn.
  destruct s as [|c s]; [reflexivity|].
  rewrite collapse_cons.
  destruct (space_run_at (c :: s)) as [rest|] eqn:Hrun.
  - pose proof (space_run_shorter _ _ Hrun) as Hlt.
    pose proof (IH (length rest) ltac:(subst n; exact Hlt) rest eq_refl) as Hrest.
    assert (Hhead : match rest with c2 :: _ => is_space c2 = false | [] => True end).
    { unfold space_run_at in Hrun. destruct s as [|b t]; [discriminate|].
      destruct (is_space c && is_space b)%bool; [|discriminate].
      injection Hrun as <-. apply drop_while_head. }
    destruct rest as [|y t]; [reflexivity|].
    rewrite (collapse_head y t Hhead) in *.
    cbn [str list_ascii_of_string app]. rewrite no_space_run_cons.
    rewrite Hhead, andb_false_r. exact Hrest.
  - pose proof (IH (length s) ltac:(subst n; simpl; lia) s eq_refl) as Hs.
    destruct s as [|b t]; [reflexivity|].
    unfold space_run_at in Hrun.
    destruct (is_space c) eqn:Hc.
    + destruct (is_space b) eqn:Hb; [discriminate|].
      rewrite (collapse_head b t Hb) in *.
      rewrite no_space_run_cons, Hb, andb_false_r. exact Hs.
    + destruct (collapse_whitespace (b :: t)) as [|b' t'] eqn:E;
        [reflexivity|].
      rewrite no_space_run_cons, Hc. exact Hs.
Qed.

Lemma collapse_fixed (s : text) :
  no_space_run s = true -> collapse_whitespace s = s.
Proof.
  induction s as [|c s IH]; intros Hs; [reflexivity|].
  rewrite collapse_cons.
  destruct s as [|b t]; [reflexivity|].
  rewrite no_space_run_cons in Hs. apply andb_prop in Hs as [Hcb Hs].
  apply negb_true_iff in Hcb. unfold space_run_at. rewrite Hcb.
  f_equal. apply IH. exact Hs.
Qed.

Lemma collapse_length (s : text) :
  length (collapse_whitespace s) <= length s.
Proof.
  remember (length s) as n eqn:Hn. revert s Hn.
  induction n as [n IH] using lt_wf_ind. intros s Hn.
  destruct s as [|c s]; [subst n; cbn; lia|].
  rewrite collapse_cons.
  destruct (space_run_at (c :: s)) as [rest|] eqn:Hrun.
  - pose proof (space_run_shorter _ _ Hrun) as Hlt.
    pose proof (IH (length rest) ltac:(subst n; exact Hlt) rest eq_refl).
    rewrite length_app. cbn [str list_ascii_of_string length]. subst n. lia.
  - pose proof (IH (length s) ltac:(subst n; simpl; lia) s eq_refl).
    cbn [length]. subst n. cbn [length]. lia.
Qed.

(** X7.  After the white space pass of the synthesizer no two white space
    characters stand next to each other; the result is no longer than the
    text; and the pass changes nothing when applied again. *)
Theorem collapse_leaves_no_run (html_answer : text) :
  no_space_run (collapse_whitespace html_answer) = true
  /\ length (collapse_whitespace html_answer) <= length html_answer
  /\ collapse_whitespace (collapse_whitespace html_answer)
     = collapse_whitespace html_answer
  /\ no_space_run (postprocess_answer_html html_answer) = true.
Proof.
  split; [apply collapse_no_space_run|].
  split; [apply collapse_length|].
  split; [apply collapse_fixed, collapse_no_space_run|].
  apply collapse_no_space_run.
Qed.

(** ** What the synthesizer returns *)

Section SynthesizerResults.

Context {W : Type}.
Variable generate_content : text -> Z -> action W model_response.
Variable markdown_parser : text -> outcome text.

Let synthesize := synthesize_with_gemini generate_content markdown_parser.

(** An early return of either branch is an error. *)
Lemma quick_generation_early (prompt : text) (w w' : W)
    (early : synthesis_result) :
  quick_generation generate_content prompt w = (Returns (inl early), w') ->
  exists e, early = Error e.
Proof.
  unfold quick_generation, act_bind, act_ret, act_raise, act_lift.
  destruct (generate_content prompt 8192 w) as [[r|e] w1]; [|discriminate].
  destruct (candidates r) as [|c cs].
  - destruct (block_reason r); intros [= <- _]; eauto.
  - destruct (negb (text_eqb (finish_reason c) (str "STOP")));
      [intros [= <- _]; eauto|].
    destruct (parts c) as [[|p ps]|]; try discriminate;
      [|intros [= <- _]; eauto].
    destruct (negb (truthy p)); [intros [= <- _]; eauto|].
    destruct (response_text r); discriminate.
Qed.

Lemma deep_generation_early (query ctx : text) (w w' : W)
    (early : synthesis_result) :
  deep_generation generate_content query ctx w = (Returns (inl early), w') ->
  exists e, early = Error e.
Proof.
  unfold deep_generation, act_bind, act_ret.
  destruct (generate_chunked_deep_research generate_content query ctx w)
    as [[[t|]|e] w1]; try discriminate.
  - destruct (truthy t); [discriminate|]. intros [= <- _]; eauto.
  - intros [= <- _]; eauto.
Qed.

(** X8.  The synthesizer never raises: it returns an error, or an answer
    whose HTML is what the Markdown parser made of the raw answer it returns,
    with the markers bound and the white space collapsed.  Without a key or
    without sources it returns an error and leaves the world as it is. *)
Theorem synthesis_is_error_or_rendering (query : text)
    (data : list scraped) (key depth : text) (w : W) :
  exists result w',
    synthesize query data key depth w = (Returns result, w')
    /\ match result with
       | Error _ => True
       | Answer answer_raw answer_html =>
           truthy key = true /\ truthy data = true
           /\ exists html,
                markdown_parser answer_raw = Returns html
                /\ answer_html = postprocess_answer_html html
       end
    /\ (truthy key = false \/ truthy data = false ->
        w' = w /\ exists e, result = Error e).
Proof.
  unfold synthesize, synthesize_with_gemini.
  destruct (truthy key) eqn:Hkey; cbn [negb].
  2:{ exists (Error (str "AI key missing.")), w. unfold act_ret.
      repeat split; eauto. }
  destruct (truthy data) eqn:Hdata; cbn [negb].
  2:{ exists (Error (str "No content to synthesize.")), w. unfold act_ret.
      repeat split; eauto. }
  set (gen := if text_eqb depth (str "deep") then _ else _).
  assert (Hearly : forall w1 early,
             gen w = (Returns (inl early), w1) -> exists e, early = Error e).
  { intros w1 early. subst gen.
    destruct (text_eqb depth (str "deep"));
      [apply deep_generation_early|apply quick_generation_early]. }
  unfold act_catch, act_bind at 1.
  destruct (gen w) as [[[early|raw]|e] w1].
  - destruct (Hearly w1 early eq_refl) as [e ->].
    exists (Error e), w1. unfold act_ret.
    split; [reflexivity|]. split; [exact I|].
    intros [H|H]; discriminate H.
  - unfold render_answer, act_bind, act_lift, act_ret.
    destruct (markdown_parser (preprocess_llm_text_for_citations raw))
      as [html|e] eqn:Hmd.
    + eexists _, w1. split; [reflexivity|]. split.
      * split; [reflexivity|]. split; [reflexivity|]. eauto.
      * intros [H|H]; discriminate H.
    + eexists _, w1. split; [reflexivity|]. split; [exact I|].
      intros [H|H]; discriminate H.
  - eexists _, w1. unfold act_ret. split; [reflexivity|].
    split; [exact I|]. intros [H|H]; discriminate H.
Qed.

(** X9.  At a depth other than the deep one, a response whose first
    candidate did not finish with [STOP] gives the error of its finish
    reason, whatever text it carries. *)
Theorem unfinished_response_is_error (query : text) (data : list scraped)
    (key depth : text) (w w1 : W) (r : model_response) (c : candidate)
    (cs : list candidate) :
  truthy key = true -> truthy data = true ->
  text_eqb depth (str "deep") = false ->
  generate_content
    (create_gemini_prompt query (format_context_for_llm data) depth) 8192 w
  = (Returns r, w1) ->
  candidates r = c :: cs ->
  finish_reason c <> str "STOP" ->
  synthesize query data key depth w
  = (Returns (Error (finish_error (finish_reason c))), w1).
Proof.
  intros Hkey Hdata Hdepth Hgen Hc Hstop.
  unfold synthesize, synthesize_with_gemini.
  rewrite Hkey, Hdata, Hdepth. cbn [negb].
  unfold act_catch, act_bind at 1, quick_generation.
  rewrite (act_bind_returns _ _ _ _ _ Hgen).
  rewrite Hc.
  destruct (text_eqb (finish_reason c) (str "STOP")) eqn:E.
  { apply text_eqb_eq in E. contradiction. }
  reflexivity.
Qed.

End SynthesizerResults.

Lemma unfinished_response_is_error_witness :
  synthesize_with_gemini scripted_generate_content paragraph_markdown
    (str "q") one_source (str "key") (str "quick")
    [Returns (cut_short_response (str "Half an ans"))]
  = (Returns (Error (finish_error (str "MAX_TOKENS"))), []).
Proof.
  apply (unfinished_response_is_error scripted_generate_content
           paragraph_markdown (str "q") one_source (str "key") (str "quick")
           [Returns (cut_short_response (str "Half an ans"))] []
           (cut_short_response (str "Half an ans"))
           {| finish_reason := str "MAX_TOKENS";
              parts := Some [str "Half an ans"] |} []).
  - reflexivity.
  - reflexivity.
  - reflexivity.
  - reflexivity.
  - reflexivity.
  - discriminate.
Defined.

Section DeepFinishReasons.

Context {W : Type}.
Variable generate_content : text -> Z -> action W model_response.
Variable markdown_parser : text -> outcome text.

Lemma has_content_parts_renamed (f : text -> text) (r : model_response) :
  has_content_parts (with_finish_reasons f r) = has_content_parts r.
Proof.
  unfold has_content_parts, with_finish_reasons. cbn [candidates].
  destruct (candidates r) as [|c cs]; reflexivity.
Qed.

Lemma append_chunk_renamed (f : text -> text) (t : text)
    (r : model_response) (w : W) :
  append_chunk t (with_finish_reasons f r) w = append_chunk t r w.
Proof.
  unfold append_chunk. rewrite has_content_parts_renamed. reflexivity.
Qed.

Lemma chunked_renamed (f : text -> text) (query ctx : text) (w : W) :
  generate_chunked_deep_research (renamed_reasons f generate_content)
    query ctx w
  = generate_chunked_deep_research generate_content query ctx w.
Proof.
  unfold generate_chunked_deep_research, renamed_reasons, act_bind.
  destruct (generate_content (structure_prompt query ctx) 2000 w)
    as [[r1|e1] w1]; [|reflexivity].
  rewrite has_content_parts_renamed.
  destruct (negb (has_content_parts r1)); [reflexivity|].
  unfold act_lift. cbn [with_finish_reasons response_text].
  destruct (response_text r1) as [t1|e]; [|reflexivity].
  destruct (generate_content (middle_prompt query ctx) 3000 w1)
    as [[r2|e2] w2]; [|reflexivity].
  rewrite append_chunk_renamed.
  destruct (append_chunk t1 r2 w2) as [[t2|e] w2']; [|reflexivity].
  destruct (generate_content (conclusion_prompt query ctx) 2000 w2')
    as [[r3|e3] w3]; [|reflexivity].
  rewrite append_chunk_renamed. reflexivity.
Qed.

(** X10.  At the deep depth the finish reasons of the responses play no
    part: a model that differs from another only in them (a chunk cut short
    at the token limit, say, in place of one that stopped) gives the same
    result. *)
Theorem deep_synthesis_ignores_finish_reasons (f : text -> text)
    (query : text) (data : list scraped) (key : text) (w : W) :
  synthesize_with_gemini (renamed_reasons f generate_content)
    markdown_parser query data key (str "deep") w
  = synthesize_with_gemini generate_content markdown_parser query data key
      (str "deep") w.
Proof.
  unfold synthesize_with_gemini.
  destruct (negb (truthy key)); [reflexivity|].
  destruct (negb (truthy data)); [reflexivity|].
  change (text_eqb (str "deep") (str "deep")) with true. cbv iota.
  unfold act_catch, deep_generation, act_bind.
  rewrite chunked_renamed. reflexivity.
Qed.

End DeepFinishReasons.

(** ** The source lists of the exports *)

Lemma source_item_html_deep (i : Z) (s s' : source) :
  source_title s = source_title s' -> source_url s = source_url s' ->
  source_item_html (str "deep") i s = source_item_html (str "deep") i s'.
Proof.
  intros Ht Hu. unfold source_item_html. rewrite Ht, Hu.
  change (text_eqb (str "deep") (str "deep")) with true.
  change (text_eqb (str "deep") (str "quick")) with false.
  cbn [andb]. destruct (truthy (html_escape (source_url s'))); reflexivity.
Qed.

Lemma source_item_html_other (depth : text) (i : Z) (s s' : source) :
  text_eqb depth (str "deep") = false ->
  text_eqb depth (str "quick") = false ->
  source_title s = source_title s' ->
  source_item_html depth i s = source_item_html depth i s'.
Proof.
  intros Hd Hq Ht. unfold source_item_html. rewrite Ht, Hd, Hq. reflexivity.
Qed.

Lemma source_items_html_ext (depth : text) (ss ss' : list source) :
  length ss = length ss' ->
  (forall i s s', In (s, s') (combine ss ss') ->
     source_item_html depth i s = source_item_html depth i s') ->
  forall i, source_items_html depth i ss = source_items_html depth i ss'.
Proof.
  revert ss'. induction ss as [|s ss IH]; intros [|s' ss'] Hlen Hitem i;
    try discriminate; [reflexivity|].
  cbn [source_items_html].
  rewrite (Hitem i s s') by (left; reflexivity).
  rewrite (IH ss'); [reflexivity|simpl in Hlen; lia|].
  intros j x x' Hin. apply Hitem. right. exact Hin.
Qed.

Lemma docx_source_paragraphs_ext (depth : text) (ss ss' : list source) :
  length ss = length ss' ->
  (forall i s s', In (s, s') (combine ss ss') ->
     docx_source_paragraph depth i s = docx_source_paragraph depth i s') ->
  forall i,
    docx_source_paragraphs depth i ss = docx_source_paragraphs depth i ss'.
Proof.
  revert ss'. induction ss as [|s ss IH]; intros [|s' ss'] Hlen Hitem i;
    try discriminate; [reflexivity|].
  cbn [docx_source_paragraphs].
  rewrite (Hitem i s s') by (left; reflexivity).
  rewrite (IH ss'); [reflexivity|simpl in Hlen; lia|].
  intros j x x' Hin. apply Hitem. right. exact Hin.
Qed.

Lemma combine_map_eq {A B} (f : A -> B) (l l' : list A) (x x' : A) :
  map f l = map f l' -> In (x, x') (combine l l') -> f x = f x'.
Proof.
  revert l'. induction l as [|a l IH]; intros [|a' l'] Hmap Hin;
    try contradiction.
  cbn [map] in Hmap. injection Hmap as Ha Hl.
  destruct Hin as [[= <- <-]|Hin]; [exact Ha|].
  apply (IH l' Hl Hin).
Qed.

Lemma truthy_length {A} (l l' : list A) :
  length l = length l' -> truthy l = truthy l'.
Proof. destruct l, l'; try discriminate; reflexivity. Qed.

(** X11.  At the deep depth the source lists of the two exports show no
    preview: two source lists with the same titles and URLs give the same
    list in the PDF page and in the word-processor document. *)
Theorem deep_lists_show_no_preview (ss ss' : list source) :
  map source_title ss = map source_title ss' ->
  map source_url ss = map source_url ss' ->
  source_list_html (str "deep") ss = source_list_html (str "deep") ss'
  /\ docx_sources_section (str "deep") ss
     = docx_sources_section (str "deep") ss'.
Proof.
  intros Ht Hu.
  assert (Hlen : length ss = length ss').
  { apply (f_equal (@length _)) in Ht. rewrite !length_map in Ht. exact Ht. }
  pose proof (truthy_length ss ss' Hlen) as Htruthy.
  split.
  - unfold source_list_html. rewrite Htruthy.
    rewrite (source_items_html_ext (str "deep") ss ss' Hlen); [reflexivity|].
    intros i s s' Hin. apply source_item_html_deep.
    + apply (combine_map_eq source_title ss ss' s s' Ht Hin).
    + apply (combine_map_eq source_url ss ss' s s' Hu Hin).
  - unfold docx_sources_section. rewrite Htruthy.
    rewrite (docx_source_paragraphs_ext (str "deep") ss ss' Hlen);
      [reflexivity|].
    intros i s s' Hin. unfold docx_source_paragraph.
    rewrite (combine_map_eq source_title ss ss' s s' Ht Hin).
    rewrite (combine_map_eq source_url ss ss' s s' Hu Hin). reflexivity.
Qed.

Lemma deep_lists_show_no_preview_witness :
  source_list_html (str "deep")
    [{| source_id := 0; source_url := example_url;
        source_title := str "A title"; source_text_preview := str "p" |}]
  = source_list_html (str "deep")
      [{| source_id := 0; source_url := example_url;
          source_title := str "A title"; source_text_preview := str "q" |}]
  /\ docx_sources_section (str "deep")
       [{| source_id := 0; source_url := example_url;
           source_title := str "A title"; source_text_preview := str "p" |}]
     = docx_sources_section (str "deep")
         [{| source_id := 0; source_url := example_url;
             source_title := str "A title";
             source_text_preview := str "q" |}].
Proof.
  apply (deep_lists_show_no_preview
           [{| source_id := 0; source_url := example_url;
               source_title := str "A title";
               source_text_preview := str "p" |}]
           [{| source_id := 0; source_url := example_url;
               source_title := str "A title";
               source_text_preview := str "q" |}]);
    reflexivity.
Defined.

(** X12.  At a depth other than the deep one the source list of the
    word-processor document shows the titles only: neither URL nor preview.
    So does the list of the PDF page, unless the depth is the quick one. *)
Theorem shallow_lists_show_titles (depth : text) (ss ss' : list source) :
  map source_title ss = map source_title ss' ->
  text_eqb depth (str "deep") = false ->
  docx_sources_section depth ss = docx_sources_section depth ss'
  /\ (text_eqb depth (str "quick") = true
      \/ source_list_html depth ss = source_list_html depth ss').
Proof.
  intros Ht Hd.
  assert (Hlen : length ss = length ss').
  { apply (f_equal (@length _)) in Ht. rewrite !length_map in Ht. exact Ht. }
  pose proof (truthy_length ss ss' Hlen) as Htruthy.
  split.
  - unfold docx_sources_section. rewrite Htruthy.
    rewrite (docx_source_paragraphs_ext depth ss ss' Hlen); [reflexivity|].
    intros i s s' Hin. unfold docx_source_paragraph.
    rewrite (combine_map_eq source_title ss ss' s s' Ht Hin), Hd.
    reflexivity.
  - destruct (text_eqb depth (str "quick")) eqn:Hq; [left; reflexivity|].
    right. unfold source_list_html. rewrite Htruthy.
    rewrite (source_items_html_ext depth ss ss' Hlen); [reflexivity|].
    intros i s s' Hin. apply source_item_html_other; try assumption.
    apply (combine_map_eq source_title ss ss' s s' Ht Hin).
Qed.

Lemma shallow_lists_show_titles_witness :
  docx_sources_section (str "Deep")
    [{| source_id := 0; source_url := example_url;
        source_title := str "A title"; source_text_preview := str "p" |}]
  = docx_sources_section (str "Deep")
      [{| source_id := 0; source_url := str "http://example.org/b";
          source_title := str "A title"; source_text_preview := str "q" |}]
  /\ (text_eqb (str "Deep") (str "quick") = true
      \/ source_list_html (str "Deep")
           [{| source_id := 0; source_url := example_url;
               source_title := str "A title";
               source_text_preview := str "p" |}]
         = source_list_html (str "Deep")
             [{| source_id := 0; source_url := str "http://example.org/b";
                 source_title := str "A title";
                 source_text_preview := str "q" |}]).
Proof.
  apply (shallow_lists_show_titles (str "Deep")
           [{| source_id := 0; source_url := example_url;
               source_title := str "A title";
               source_text_preview := str "p" |}]
           [{| source_id := 0; source_url := str "http://example.org/b";
               source_title := str "A title";
               source_text_preview := str "q" |}]);
    reflexivity.
Defined.

(** ** Stripping *)

Lemma last_char_snoc (prev : option ascii) (s : text) (c : ascii) :
  last_char prev (s ++ [c]) = Some c.
Proof. rewrite last_char_app. reflexivity. Qed.

Lemma last_char_some (x : ascii) (s : text) :
  exists y, last_char (Some x) s = Some y.
Proof.
  revert x. induction s as [|c s IH]; intros x; [eauto|]. apply (IH c).
Qed.

(** What is left after stripping does not end with a stripped character. *)
Lemma strip_chars_last (p : ascii -> bool) (s : text) :
  match last_char None (strip_chars p s) with
  | Some c => p c = false
  | None => True
  end.
Proof.
  unfold strip_chars.
  pose proof (drop_while_head p (rev (drop_while p s))) as H.
  destruct (drop_while p (rev (drop_while p s))) as [|c v]; [exact I|].
  cbn [rev]. rewrite last_char_snoc. exact H.
Qed.

(** Nor does it start with one. *)
Lemma strip_chars_head (p : ascii -> bool) (s : text) :
  match strip_chars p s with
  | c :: _ => p c = false
  | [] => True
  end.
Proof.
  unfold strip_chars.
  pose proof (drop_while_head p s) as Hu.
  pose proof (take_drop_while p (rev (drop_while p s))) as Hsplit.
  apply (f_equal (@rev _)) in Hsplit. rewrite rev_app_distr, rev_involutive in Hsplit.
  destruct (rev (drop_while p (rev (drop_while p s)))) as [|c t]; [exact I|].
  rewrite <- Hsplit in Hu. exact Hu.
Qed.

Lemma drop_while_forallb (p q : ascii -> bool) (s : text) :
  forallb q s = true -> forallb q (drop_while p s) = true.
Proof.
  induction s as [|c s IH]; intros H; [reflexivity|].
  cbn [drop_while]. destruct (p c); [|exact H].
  cbn [forallb] in H. apply andb_prop in H as [_ H]. apply IH. exact H.
Qed.

Lemma forallb_rev (q : ascii -> bool) (s : text) :
  forallb q s = true -> forallb q (rev s) = true.
Proof.
  intros H. apply forallb_forall. intros x Hx. apply in_rev in Hx.
  rewrite forallb_forall in H. apply H. exact Hx.
Qed.

Lemma strip_chars_forallb (p q : ascii -> bool) (s : text) :
  forallb q s = true -> forallb q (strip_chars p s) = true.
Proof.
  intros H. unfold strip_chars.
  apply forallb_rev, drop_while_forallb, forallb_rev, drop_while_forallb.
  exact H.
Qed.

Lemma strip_chars_length (p : ascii -> bool) (s : text) :
  length (strip_chars p s) <= length s.
Proof.
  unfold strip_chars. rewrite length_rev.
  pose proof (drop_while_length p (rev (drop_while p s))) as H1.
  pose proof (drop_while_length p s) as H2.
  rewrite length_rev in H1. lia.
Qed.

Lemma strip_last (s : text) :
  match last_char None (strip s) with
  | Some c => is_space c = false
  | None => True
  end.
Proof. apply (strip_chars_last is_space s). Qed.

(** ** The numbered list item *)

Lemma digit_not_dot (c : ascii) : is_digit c = true -> ascii_eqb c "." = false.
Proof. by_cases_on_char c. Qed.

(** The pattern of lines 527 and 529 matches at the start of a text exactly
    where a numbered item stands. *)
Lemma re_match_numbered_item (s : text) :
  re_match numbered_item_re None s
  = match numbered_item_at s with
    | Some rest =>
        Some ([], last_char (Some "."%char)
                    (take_while is_space (tl (drop_while is_digit s))),
              rest)
    | None => None
    end.
Proof.
  unfold re_match, numbered_item_re, Bol, numbered_item_at.
  cbn [rmatch]. unfold digit. rewrite rmatch_plus_class.
  2:{ intros q d t cs Hd. cbn [rmatch].
      rewrite (digit_not_dot d Hd). reflexivity. }
  destruct (take_while is_digit s) as [|d ds]; [reflexivity|].
  destruct (drop_while is_digit s) as [|c t]; [reflexivity|].
  cbn [rmatch]. destruct (ascii_eqb c "."); [|reflexivity].
  unfold ws, Plus. cbn [rmatch tl].
  destruct t as [|b t]; [reflexivity|].
  cbn [take_while drop_while]. destruct (is_space b) eqn:Hb; [|reflexivity].
  apply (star_class_longest is_space _ (length t) t (Some b) []); [lia|].
  reflexivity.
Qed.

(** After the start of the text the pattern matches nowhere. *)
Lemma numbered_item_only_at_start (repl : captures -> text) (n : nat)
    (x : ascii) (s : text) :
  sub_loop numbered_item_re repl n (Some x) s = s.
Proof.
  revert x s. induction n as [|n IH]; intros x s; [reflexivity|].
  destruct s as [|c s]; [reflexivity|].
  cbn [sub_loop]. unfold re_match at 1, numbered_item_re, Bol.
  cbn [rmatch]. f_equal. apply IH.
Qed.

Lemma numbered_item_at_shorter (s rest : text) :
  numbered_item_at s = Some rest -> length rest < length s.
Proof.
  unfold numbered_item_at. intros H.
  pose proof (take_drop_while is_digit s) as Hs.
  destruct (take_while is_digit s) as [|d ds]; [discriminate|].
  destruct (drop_while is_digit s) as [|c t]; [discriminate|].
  destruct (ascii_eqb c "."); [|discriminate].
  destruct t as [|b t]; [discriminate|].
  destruct (is_space b); [|discriminate].
  injection H as <-. rewrite <- Hs.
  pose proof (drop_while_length is_space (b :: t)) as Hl.
  rewrite length_app. cbn [length drop_while] in *. lia.
Qed.

(** The substitution of line 529 leaves what follows the item. *)
Lemma re_sub_numbered_item (s rest : text) :
  numbered_item_at s = Some rest ->
  re_sub numbered_item_re (fun _ => []) s = rest.
Proof.
  intros H. pose proof (numbered_item_at_shorter s rest H) as Hlt.
  unfold re_sub, re_sub_from.
  destruct s as [|c s]; [simpl in Hlt; lia|].
  cbn [length sub_loop]. rewrite re_match_numbered_item, H.
  replace (length rest <? S (length s)) with true
    by (symmetry; apply Nat.ltb_lt; exact Hlt).
  cbn [app].
  destruct (last_char_some "."
              (take_while is_space (tl (drop_while is_digit (c :: s)))))
    as [y ->].
  apply numbered_item_only_at_start.
Qed.

(** In a stripped text something follows the item. *)
Lemma numbered_item_content (line rest : text) :
  numbered_item_at (strip line) = Some rest ->
  truthy rest = true
  /\ match rest with c :: _ => is_space c = false | [] => True end.
Proof.
  intros H. pose proof (strip_last line) as Hlast. revert H Hlast.
  generalize (strip line). intros s H Hlast.
  unfold numbered_item_at in H.
  pose proof (take_drop_while is_digit s) as Hs.
  destruct (take_while is_digit s) as [|d ds]; [discriminate|].
  destruct (drop_while is_digit s) as [|c t]; [discriminate|].
  destruct (ascii_eqb c "."); [|discriminate].
  destruct t as [|b t]; [discriminate|].
  pose proof (drop_while_head is_space (b :: t)) as Hhead.
  pose proof (take_drop_while is_space (b :: t)) as Hrun.
  pose proof (take_while_all is_space (b :: t)) as Hall.
  remember (drop_while is_space (b :: t)) as rest0 eqn:Hrest0.
  remember (take_while is_space (b :: t)) as run eqn:Hrun0.
  destruct (is_space b) eqn:Hb; [|discriminate].
  injection H as <-.
  split; [|exact Hhead].
  destruct rest0 as [|y r]; [|reflexivity].
  exfalso. rewrite app_nil_r in Hrun. rewrite Hrun in Hall.
  rewrite <- Hs in Hlast.
  destruct (exists_last (l := b :: t)) as (u & z & E); [discriminate|].
  rewrite E in Hlast, Hall.
  rewrite forallb_app in Hall. apply andb_prop in Hall as [_ Hz].
  cbn [forallb] in Hz. rewrite andb_true_r in Hz.
  replace ((d :: ds) ++ c :: u ++ [z]) with (((d :: ds) ++ c :: u) ++ [z])
    in Hlast by (rewrite <- app_assoc; reflexivity).
  rewrite last_char_snoc in Hlast. congruence.
Qed.

(** In a stripped text something follows the mark of a bullet. *)
Lemma bullet_content (line : text) :
  (starts_with (str "* ") (strip line)
   || starts_with (str "- ") (strip line))%bool = true ->
  truthy (skipn 2 (strip line)) = true.
Proof.
  pose proof (strip_last line) as Hlast. revert Hlast.
  generalize (strip line). intros s Hlast H.
  destruct s as [|a [|b [|c r]]]; try reflexivity.
  - discriminate.
  - cbn in H. rewrite !andb_false_r in H. discriminate.
  - exfalso. cbn [starts_with str list_ascii_of_string] in H.
    rewrite !andb_true_r in H.
    assert (Hb : b = " "%char).
    { apply orb_prop in H as [H|H]; apply andb_prop in H as [_ H];
        apply ascii_eqb_eq in H; congruence. }
    subst b. cbn in Hlast. discriminate.
Qed.

(** ** The lines of the word-processor document *)

(** One round of the loop, with the numbered item read off the text and the
    tests that cannot fail left out. *)
Lemma docx_line_cases (st : docx_state) (line : text) :
  docx_line st line
  = if starts_with (str "#") (strip line) then
      {| document :=
           if truthy (strip (lstrip_chars is_hash_or_space (strip line)))
           then document st
                ++ [DocHeading
                      (strip (lstrip_chars is_hash_or_space (strip line)))
                      (Z.min (count_char "#" 3 (strip line)) 3)]
           else document st;
         current_paragraph := None |}
    else if (starts_with (str "* ") (strip line)
             || starts_with (str "- ") (strip line))%bool then
      {| document :=
           document st
           ++ [DocParagraph StyleListBullet false
                 [plain_run (skipn 2 (strip line))]];
         current_paragraph := None |}
    else
      match numbered_item_at (strip line) with
      | Some rest =>
          {| document :=
               document st
               ++ [DocParagraph StyleListNumber false [plain_run rest]];
             current_paragraph := None |}
      | None =>
          if truthy (strip line) then
            match current_paragraph st with
            | None =>
                {| document :=
                     document st
                     ++ [DocParagraph StyleNormal false
                           [plain_run (strip line)]];
                   current_paragraph := Some (length (document st)) |}
            | Some i =>
                {| document :=
                     alter (add_run (plain_run (nl ++ strip line))) i
                       (document st);
                   current_paragraph := Some i |}
            end
          else {| document := document st; current_paragraph := None |}
      end.
Proof.
  unfold docx_line. cbv zeta.
  destruct (starts_with (str "#") (strip line)); [reflexivity|].
  destruct (starts_with (str "* ") (strip line)
            || starts_with (str "- ") (strip line))%bool eqn:Hbullet.
  { cbv beta iota. unfold text_paragraph.
    rewrite (bullet_content line Hbullet). reflexivity. }
  rewrite re_match_numbered_item.
  destruct (numbered_item_at (strip line)) as [rest|] eqn:Hitem.
  { cbv beta iota. rewrite (re_sub_numbered_item _ _ Hitem).
    unfold text_paragraph.
    destruct (numbered_item_content line rest Hitem) as [-> _].
    reflexivity. }
  cbv beta iota. unfold text_paragraph.
  destruct (truthy (strip line)); reflexivity.
Qed.

Lemma count_hash_bounds (s : text) :
  starts_with (str "#") s = true ->
  (1 <= Z.min (count_char "#" 3 s) 3 <= 3)%Z.
Proof.
  intros H. destruct s as [|c s]; [discriminate|].
  cbn [starts_with str list_ascii_of_string] in H.
  rewrite andb_true_r in H.
  unfold count_char, len. cbn [firstn List.filter]. rewrite H.
  cbn [length]. lia.
Qed.

Lemma body_block_add_run (runs : list docx_run) (t : text) :
  body_block (DocParagraph StyleNormal false runs) = true ->
  truthy t = true ->
  body_block (add_run (plain_run t) (DocParagraph StyleNormal false runs))
  = true.
Proof.
  cbn [body_block add_run negb andb]. intros H Ht.
  apply andb_prop in H as [Hne Hruns].
  rewrite forallb_app, Hruns. cbn [forallb plain_run run_text run_bold].
  rewrite Ht. destruct runs; [discriminate|reflexivity].
Qed.

Lemma truthy_nl_app (t : text) : truthy (nl ++ t) = true.
Proof. reflexivity. Qed.

(** The invariant of the loop. *)
Lemma docx_line_invariant (head : list docx_block) (st : docx_state)
    (line : text) :
  docx_invariant head st -> docx_invariant head (docx_line st line).
Proof.
  intros (added & Hdoc & Hadded & Hcur). rewrite docx_line_cases.
  assert (Hgrow : forall b cur,
             body_block b = true ->
             match cur with
             | None => True
             | Some i =>
                 exists runs,
                   b = DocParagraph StyleNormal false runs
                   /\ i = length (document st)
             end ->
             docx_invariant head
               {| document := document st ++ [b]; current_paragraph := cur |}).
  { intros b cur Hb Hc. exists (added ++ [b]). cbn [document current_paragraph].
    split; [rewrite Hdoc, <- app_assoc; reflexivity|].
    split; [apply Forall_app_2; [exact Hadded|repeat constructor; exact Hb]|].
    destruct cur as [i|]; [|exact I].
    destruct Hc as (runs & -> & ->). exists added, runs.
    rewrite Hdoc. split; reflexivity. }
  assert (Hsame : docx_invariant head
                    {| document := document st; current_paragraph := None |}).
  { exists added. cbn [document current_paragraph]. auto. }
  destruct (starts_with (str "#") (strip line)) eqn:Hhash.
  { destruct (truthy (strip (lstrip_chars is_hash_or_space (strip line))))
      eqn:Htext; [|exact Hsame].
    apply Hgrow; [|exact I]. cbn [body_block]. rewrite Htext.
    pose proof (count_hash_bounds _ Hhash) as [Hlo Hhi].
    apply Z.leb_le in Hlo, Hhi. rewrite Hlo, Hhi. reflexivity. }
  destruct (starts_with (str "* ") (strip line)
            || starts_with (str "- ") (strip line))%bool eqn:Hbullet.
  { apply Hgrow; [|exact I].
    cbn [body_block negb andb truthy forallb plain_run run_text run_bold].
    rewrite (bullet_content line Hbullet). reflexivity. }
  destruct (numbered_item_at (strip line)) as [rest|] eqn:Hitem.
  { apply Hgrow; [|exact I].
    cbn [body_block negb andb truthy forallb plain_run run_text run_bold].
    destruct (numbered_item_content line rest Hitem) as [-> _].
    reflexivity. }
  destruct (truthy (strip line)) eqn:Htext; [|exact Hsame].
  destruct (current_paragraph st) as [i|].
  - destruct Hcur as (init & runs & -> & ->).
    exists (init ++ [add_run (plain_run (nl ++ strip line))
                       (DocParagraph StyleNormal false runs)]).
    cbn [document current_paragraph]. split.
    + rewrite Hdoc.
      replace (head ++ init ++ [DocParagraph StyleNormal false runs])
        with ((head ++ init) ++ [DocParagraph StyleNormal false runs])
        by (rewrite <- app_assoc; reflexivity).
      rewrite <- (Nat.add_0_r (length (head ++ init))) at 1.
      rewrite alter_app_r. cbn. rewrite <- app_assoc. reflexivity.
    + split.
      * apply Forall_app in Hadded as [Hinit Hlast].
        apply Forall_app_2; [exact Hinit|]. repeat constructor.
        apply body_block_add_run; [|apply truthy_nl_app].
        inversion Hlast; assumption.
      * exists init, (runs ++ [plain_run (nl ++ strip line)]).
        split; reflexivity.
  - apply Hgrow.
    + cbn [body_block negb andb truthy forallb plain_run run_text run_bold].
      rewrite Htext. reflexivity.
    + eexists. split; reflexivity.
Qed.

Lemma docx_lines_invariant (head : list docx_block) (lines : list text)
    (st : docx_state) :
  docx_invariant head st -> docx_invariant head (fold_left docx_line lines st).
Proof.
  revert st. induction lines as [|line lines IH]; intros st Hst; [exact Hst|].
  cbn [fold_left]. apply IH, docx_line_invariant, Hst.
Qed.

Lemma docx_source_paragraphs_shape (depth : text) (i : Z)
    (sources : list source) :
  length (docx_source_paragraphs depth i sources) = length sources
  /\ ~ In DocPageBreak (docx_source_paragraphs depth i sources).
Proof.
  revert i. induction sources as [|s ss IH]; intros i.
  - split; [reflexivity|]. intros [].
  - cbn [docx_source_paragraphs length]. destruct (IH (i + 1)%Z) as [Hl Hn].
    split; [rewrite Hl; reflexivity|].
    intros [Hx|Hx]; [discriminate|]. apply Hn. exact Hx.
Qed.

(** X13.  The document of a report is its three head blocks, then body
    blocks only (headings with a text and a level from 1 to 3, paragraphs
    of plain runs that are not empty), then the sources section, which
    opens with the only page break. *)
Theorem docx_body_is_well_formed (report_data : report) :
  exists body,
    docx_document report_data
    = docx_head (report_query report_data) ++ body
      ++ docx_sources_section (report_research_depth report_data)
           (report_sources report_data)
    /\ Forall (fun b => body_block b = true) body
    /\ ~ In DocPageBreak (docx_head (report_query report_data) ++ body)
    /\ exists list,
         docx_sources_section (report_research_depth report_data)
           (report_sources report_data)
         = DocPageBreak
           :: DocHeading
                (sources_heading_text (report_research_depth report_data)) 1
           :: list
         /\ length list = Nat.max 1 (length (report_sources report_data))
         /\ ~ In DocPageBreak list.
Proof.
  unfold docx_document.
  destruct (docx_lines_invariant (docx_head (report_query report_data))
              (split_on (ascii_of_nat 10) (report_answer_raw report_data))
              {| document := docx_head (report_query report_data);
                 current_paragraph := None |})
    as (body & Hdoc & Hbody & _).
  { exists []. cbn [document current_paragraph]. rewrite app_nil_r. auto. }
  exists body. rewrite Hdoc, <- app_assoc.
  split; [reflexivity|]. split; [exact Hbody|]. split.
  - intros Hin. apply in_app_or in Hin as [Hin|Hin].
    + cbn in Hin. intuition discriminate.
    + rewrite List.Forall_forall in Hbody. apply Hbody in Hin. discriminate.
  - unfold docx_sources_section. cbn [app]. eexists. split; [reflexivity|].
    generalize (report_research_depth report_data). intros depth.
    destruct (report_sources report_data) as [|s ss]; cbn [truthy].
    + split; [reflexivity|]. cbn. intuition discriminate.
    + destruct (docx_source_paragraphs_shape depth 0 (s :: ss)) as [Hl Hn].
      split; [rewrite Hl; cbn [length]; lia|exact Hn].
Qed.

Lemma plain_line_inv (line : text) :
  plain_line line = true ->
  truthy (strip line) = true
  /\ starts_with (str "#") (strip line) = false
  /\ (starts_with (str "* ") (strip line)
      || starts_with (str "- ") (strip line))%bool = false
  /\ numbered_item_at (strip line) = None.
Proof.
  unfold plain_line. cbv zeta. intros H.
  apply andb_prop in H as [H Hnum]. apply andb_prop in H as [H Hbullet].
  apply andb_prop in H as [Htext Hhash].
  apply negb_true_iff in Hhash, Hbullet.
  destruct (numbered_item_at (strip line)); [discriminate|]. auto.
Qed.

(** Plain lines after the first go into the paragraph the first one
    opened. *)
Lemma plain_lines_continue (d : list docx_block) (runs : list docx_run)
    (more : list text) :
  forallb plain_line more = true ->
  fold_left docx_line more
    {| document := d ++ [DocParagraph StyleNormal false runs];
       current_paragraph := Some (length d) |}
  = {| document :=
         d ++ [DocParagraph StyleNormal false
                 (runs ++ map (fun x => plain_run (nl ++ strip x)) more)];
       current_paragraph := Some (length d) |}.
Proof.
  revert runs. induction more as [|x more IH]; intros runs Hmore.
  { cbn [fold_left map]. rewrite app_nil_r. reflexivity. }
  cbn [forallb] in Hmore. apply andb_prop in Hmore as [Hx Hmore].
  destruct (plain_line_inv x Hx) as (Htext & Hhash & Hbullet & Hnum).
  cbn [fold_left]. rewrite docx_line_cases.
  rewrite Hhash, Hbullet, Hnum, Htext.
  cbn [current_paragraph document].
  rewrite <- (Nat.add_0_r (length d)) at 1.
  rewrite alter_app_r.
  change (alter (add_run (plain_run (nl ++ strip x))) 0
            [DocParagraph StyleNormal false runs])
    with [DocParagraph StyleNormal false
            (runs ++ [plain_run (nl ++ strip x)])].
  rewrite (IH _ Hmore). cbn [map]. rewrite <- app_assoc. reflexivity.
Qed.

(** X14.  Lines of plain text that follow each other make one paragraph:
    the first, stripped, is its first run, and each of the others, stripped,
    is a run of its own that starts with a line break.  The reference
    [current_paragraph] is to that paragraph. *)
Theorem plain_lines_make_one_paragraph (d : list docx_block) (first : text)
    (more : list text) :
  forallb plain_line (first :: more) = true ->
  fold_left docx_line (first :: more)
    {| document := d; current_paragraph := None |}
  = {| document :=
         d ++ [DocParagraph StyleNormal false
                 (plain_run (strip first)
                  :: map (fun x => plain_run (nl ++ strip x)) more)];
       current_paragraph := Some (length d) |}.
Proof.
  intros H. cbn [forallb] in H. apply andb_prop in H as [Hfirst Hmore].
  destruct (plain_line_inv first Hfirst) as (Htext & Hhash & Hbullet & Hnum).
  cbn [fold_left]. rewrite docx_line_cases.
  rewrite Hhash, Hbullet, Hnum, Htext.
  cbn [current_paragraph document].
  rewrite (plain_lines_continue d _ more Hmore). reflexivity.
Qed.

Lemma plain_lines_make_one_paragraph_witness :
  fold_left docx_line [str "  A first line. "; str "1.5 is no item"]
    {| document := docx_head (str "q"); current_paragraph := None |}
  = {| document :=
         docx_head (str "q")
         ++ [DocParagraph StyleNormal false
               (plain_run (strip (str "  A first line. "))
                :: map (fun x => plain_run (nl ++ strip x))
                     [str "1.5 is no item"])];
       current_paragraph := Some (length (docx_head (str "q"))) |}.
Proof.
  apply (plain_lines_make_one_paragraph (docx_head (str "q"))
           (str "  A first line. ") [str "1.5 is no item"]).
  reflexivity.
Defined.

Lemma numbered_item_at_suffix (s rest : text) :
  numbered_item_at s = Some rest -> exists mark, s = mark ++ rest.
Proof.
  unfold numbered_item_at. intros H.
  pose proof (take_drop_while is_digit s) as Hs.
  destruct (take_while is_digit s) as [|d ds]; [discriminate|].
  destruct (drop_while is_digit s) as [|c t]; [discriminate|].
  destruct (ascii_eqb c "."); [|discriminate].
  destruct t as [|b t]; [discriminate|].
  pose proof (take_drop_while is_space (b :: t)) as Hrun.
  remember (drop_while is_space (b :: t)) as rest0 eqn:Hrest0.
  remember (take_while is_space (b :: t)) as run eqn:Hrun0.
  destruct (is_space b); [|discriminate].
  injection H as <-.
  exists ((d :: ds) ++ c :: run). rewrite <- Hs, <- Hrun.
  rewrite <- app_assoc. reflexivity.
Qed.

(** X15.  A line that is a list item always adds a list paragraph, and its
    text is never empty: what follows the mark of the item in the stripped
    line.  The test of the loop against empty list items never fails. *)
Theorem list_item_is_always_added (st : docx_state) (line : text) :
  starts_with (str "#") (strip line) = false ->
  (starts_with (str "* ") (strip line)
   || starts_with (str "- ") (strip line))%bool = true
  \/ (exists rest, numbered_item_at (strip line) = Some rest) ->
  exists style mark content,
    docx_line st line
    = {| document :=
           document st ++ [DocParagraph style false [plain_run content]];
         current_paragraph := None |}
    /\ truthy content = true
    /\ strip line = mark ++ content
    /\ re_match numbered_item_re None (strip line)
       = match numbered_item_at (strip line) with
         | Some rest =>
             Some ([], last_char (Some "."%char)
                         (take_while is_space
                            (tl (drop_while is_digit (strip line)))), rest)
         | None => None
         end.
Proof.
  intros Hhash Hitem. rewrite docx_line_cases, Hhash.
  destruct (starts_with (str "* ") (strip line)
            || starts_with (str "- ") (strip line))%bool eqn:Hbullet.
  - exists StyleListBullet, (firstn 2 (strip line)), (skipn 2 (strip line)).
    split; [reflexivity|]. split; [apply bullet_content; exact Hbullet|].
    split; [symmetry; apply firstn_skipn|apply re_match_numbered_item].
  - destruct Hitem as [Hb|[rest Hrest]]; [discriminate|].
    rewrite Hrest.
    destruct (numbered_item_at_suffix _ _ Hrest) as [mark Hmark].
    exists StyleListNumber, mark, rest.
    split; [reflexivity|].
    split; [apply (numbered_item_content line rest Hrest)|].
    split; [exact Hmark|].
    rewrite re_match_numbered_item, Hrest. reflexivity.
Qed.

Lemma list_item_is_always_added_witness :
  exists style mark content,
    docx_line {| document := []; current_paragraph := None |}
      (str " 12.   Twelfth ")
    = {| document :=
           document {| document := []; current_paragraph := None |}
           ++ [DocParagraph style false [plain_run content]];
         current_paragraph := None |}
    /\ truthy content = true
    /\ strip (str " 12.   Twelfth ") = mark ++ content
    /\ re_match numbered_item_re None (strip (str " 12.   Twelfth "))
       = match numbered_item_at (strip (str " 12.   Twelfth ")) with
         | Some rest =>
             Some ([], last_char (Some "."%char)
                         (take_while is_space
                            (tl (drop_while is_digit
                                   (strip (str " 12.   Twelfth "))))), rest)
         | None => None
         end.
Proof.
  apply (list_item_is_always_added
           {| document := []; current_paragraph := None |}
           (str " 12.   Twelfth ")).
  - reflexivity.
  - right. exists (str "Twelfth"). reflexivity.
Defined.

(** ** The names of the downloads *)

Lemma forallb_firstn (q : ascii -> bool) (n : nat) (s : text) :
  forallb q s = true -> forallb q (firstn n s) = true.
Proof.
  revert n. induction s as [|c s IH]; intros [|n] H; try reflexivity.
  cbn [firstn forallb] in *. apply andb_prop in H as [Hc Hs].
  rewrite Hc. apply IH. exact Hs.
Qed.

Lemma slug_chars_of_query (query : text) :
  forallb slug_char
    (map (fun c => if char_isalnum c then c else "_"%char) query) = true.
Proof.
  induction query as [|c query IH]; [reflexivity|].
  cbn [map forallb]. rewrite IH, andb_true_r.
  unfold slug_char. destruct (char_isalnum c) eqn:Hc.
  - rewrite Hc. reflexivity.
  - rewrite orb_true_r. reflexivity.
Qed.

(** X16.  The name of a download is [Research_Report_], a slug and the
    extension.  The slug is never empty, has at most 30 characters, all of
    them alphanumeric or underscores, and neither starts nor ends with an
    underscore: no character of the query that could end the quoted name or
    name a directory gets into it. *)
Theorem download_name_is_safe (query extension : text) :
  exists slug,
    download_filename query extension
    = str "Research_Report_" ++ slug ++ extension
    /\ truthy slug = true
    /\ length slug <= 30
    /\ forallb slug_char slug = true
    /\ starts_with (str "_") slug = false
    /\ match last_char None slug with
       | Some c => is_underscore c = false
       | None => False
       end.
Proof.
  unfold download_filename. cbv zeta.
  destruct (truthy (query_slug query)) eqn:Hslug.
  - exists (query_slug query). split; [reflexivity|].
    split; [exact Hslug|]. unfold query_slug in *.
    set (mapped := map (fun c => if char_isalnum c then c else "_"%char) query)
      in *.
    split.
    { pose proof (strip_chars_length is_underscore (slice_to 30 mapped)) as H1.
      pose proof (firstn_le_length 30 mapped) as H2.
      unfold slice_to in *. lia. }
    split.
    { apply strip_chars_forallb, forallb_firstn, slug_chars_of_query. }
    pose proof (strip_chars_head is_underscore (slice_to 30 mapped)) as Hhead.
    pose proof (strip_chars_last is_underscore (slice_to 30 mapped)) as Hlast.
    destruct (strip_chars is_underscore (slice_to 30 mapped)) as [|c t] eqn:E;
      [discriminate|].
    split.
    + cbn [starts_with str list_ascii_of_string].
      unfold is_underscore in Hhead. rewrite ascii_eqb_sym, Hhead. reflexivity.
    + destruct (last_char_some c t) as [y Hy].
      change (last_char None (c :: t)) with (last_char (Some c) t) in *.
      rewrite Hy in *. exact Hlast.
  - exists (str "report"). repeat split; try reflexivity.
    cbn [length str list_ascii_of_string]. lia.
Qed.

(** ** The routes *)

Lemma act_world_bind {W A B} (m : action W A)
    (f : A -> action (W * store) B) (w : W) (st : store) :
  act_bind (act_world m) f (w, st)
  = match m w with
    | (Returns a, w') => f a (w', st)
    | (Raises e, w') => (Raises e, (w', st))
    end.
Proof.
  unfold act_bind, act_world. cbn [fst snd].
  destruct (m w) as [[a|e] w']; reflexivity.
Qed.


Lemma perform_search_returns {W} (ddgs_text : text -> Z -> action W (list ddgs_result))
    (query : text) (num_results : Z) (w : W) :
  exists hits w', perform_search ddgs_text query num_results w = (Returns hits, w').
Proof.
  unfold perform_search, act_catch, act_bind, act_ret.
  destruct (ddgs_text query num_results w) as [[results|e] w1]; [|eauto].
  destruct (truthy results); eauto.
Qed.

Lemma synthesize_returns {W}
    (generate_content : text -> Z -> action W model_response)
    (markdown_parser : text -> outcome text) (query : text)
    (data : list scraped) (key depth : text) (w : W) :
  exists result w',
    synthesize_with_gemini generate_content markdown_parser query data key
      depth w
    = (Returns result, w').
Proof.
  unfold synthesize_with_gemini.
  destruct (negb (truthy key)); [unfold act_ret; eauto|].
  destruct (negb (truthy data)); [unfold act_ret; eauto|].
  unfold act_catch.
  match goal with |- context [match ?m w with _ => _ end] =>
    destruct (m w) as [[r|e] w1] end; unfold act_ret; eauto.
Qed.

Lemma url_to_title_map_snoc (hits : list search_hit) (h : search_hit) :
  url_to_title_map (hits ++ [h])
  = if truthy (hit_url h)
    then <[hit_url h := hit_title h]> (url_to_title_map hits)
    else url_to_title_map hits.
Proof. unfold url_to_title_map. rewrite fold_left_app. reflexivity. Qed.

(** Every URL handed to the aggregator has a title in the map: that of a
    hit with this URL. *)
Lemma url_to_title_map_lookup (hits : list search_hit) (url : text) :
  In url (map hit_url (List.filter (fun r => truthy (hit_url r)) hits)) ->
  exists h,
    In h hits /\ hit_url h = url
    /\ url_to_title_map hits !! url = Some (hit_title h).
Proof.
  induction hits as [|h hits IH] using rev_ind; [intros []|].
  rewrite List.filter_app, map_app, url_to_title_map_snoc. intros Hin.
  cbn [List.filter] in Hin.
  destruct (truthy (hit_url h)) eqn:Hh.
  - destruct (decide (hit_url h = url)) as [Heq|Hne].
    + exists h. split; [apply in_or_app; right; left; reflexivity|].
      split; [exact Heq|]. rewrite <- Heq. apply lookup_insert_eq.
    + apply in_app_or in Hin as [Hin|Hin].
      * destruct (IH Hin) as (h' & Hh' & Hu & Hl). exists h'.
        split; [apply in_or_app; left; exact Hh'|]. split; [exact Hu|].
        rewrite lookup_insert_ne by exact Hne. exact Hl.
      * cbn in Hin. destruct Hin as [Hin|[]]. contradiction.
  - cbn [map] in Hin. rewrite app_nil_r in Hin.
    destruct (IH Hin) as (h' & Hh' & Hu & Hl). exists h'.
    split; [apply in_or_app; left; exact Hh'|]. auto.
Qed.

Lemma sublist_In {A} (l1 l2 : list A) (x : A) :
  l1 `sublist_of` l2 -> In x l1 -> In x l2.
Proof.
  induction 1 as [|y l1 l2 _ IH|y l1 l2 _ IH]; intros Hin.
  - exact Hin.
  - destruct Hin as [->|Hin]; [left; reflexivity|right; apply IH; exact Hin].
  - right. apply IH. exact Hin.
Qed.

(** The sources made of scraped data whose URLs are among those of the
    hits. *)
Lemma sources_final_titled (hits : list search_hit) (data : list scraped) :
  (forall item, In item data ->
     In (item_url item)
       (map hit_url (List.filter (fun r => truthy (hit_url r)) hits))) ->
  Forall (fun s =>
            (len (source_text_preview s) <= SOURCE_PREVIEW_LENGTH)%Z
            /\ exists h,
                 In h hits /\ hit_url h = source_url s
                 /\ hit_title h = source_title s)
    (sources_final hits data).
Proof.
  intros Hurls. unfold sources_final. apply Forall_map.
  apply List.Forall_forall. intros item Hitem.
  cbn [source_text_preview source_url source_title]. split.
  - unfold len, slice_to, SOURCE_PREVIEW_LENGTH.
    pose proof (firstn_le_length (Z.to_nat 300) (item_text item)). lia.
  - destruct (url_to_title_map_lookup hits (item_url item) (Hurls item Hitem))
      as (h & Hh & Hu & Hl).
    exists h. rewrite Hl. auto.
Qed.

Section RouteFacts.

Context {W : Type}.
Variable ddgs_text : text -> Z -> action W (list ddgs_result).
Variable trafilatura_fetch_url : text -> action W (option text).
Variable trafilatura_extract : text -> outcome (option text).
Variable requests_get : text -> action W response.
Variable Soup : Type.
Variable BeautifulSoup : list Byte.byte -> outcome Soup.
Variable find : Soup -> selector -> option Soup.
Variable find_all_p : Soup -> list text.
Variable generate_content : text -> Z -> action W model_response.
Variable markdown_parser : text -> outcome text.
Variable pisa_CreatePDF : text -> action W pisa_status.
Variable docx_write : list docx_block -> action W (list Byte.byte).
Variable uuid4 : action W text.

Let extractor :=
  scrape_url trafilatura_fetch_url trafilatura_extract requests_get Soup
    BeautifulSoup find find_all_p.

Let process :=
  process_query_route ddgs_text trafilatura_fetch_url trafilatura_extract
    requests_get Soup BeautifulSoup find find_all_p generate_content
    markdown_parser uuid4.

Let download_pdf := download_pdf_route pisa_CreatePDF.
Let download_docx := download_docx_route docx_write.

(** The ways the route ends. *)
Lemma process_query_route_cases (data : process_request) (key : text)
    (w : W) (st : store) :
  exists body status w' st',
    process data key (w, st) = (Returns (body, status), (w', st'))
    /\ ((exists error,
           body = Failure error /\ st' = st
           /\ (status = 400 \/ status = 404 \/ status = 500)%Z)
        \/ exists hits w1 scraped w2,
             truthy (strip (get_or [] (request_query data))) = true
             /\ perform_search ddgs_text
                  (strip (get_or [] (request_query data)))
                  (if text_eqb (get_or (str "quick") (request_depth data))
                        (str "deep")
                   then DEEP_SEARCH_RESULTS else QUICK_SEARCH_RESULTS) w
                = (Returns hits, w1)
             /\ scrape_urls extractor
                  (map hit_url
                     (List.filter (fun r => truthy (hit_url r)) hits)) w1
                = (Returns scraped, w2)
             /\ truthy scraped = true
             /\ ((exists error,
                    body
                    = SynthesisFailure error (sources_final hits scraped)
                        (get_or (str "quick") (request_depth data))
                    /\ status = 500%Z /\ st' = st)
                 \/ exists answer_raw answer_html report_id,
                      body
                      = Result answer_html (sources_final hits scraped)
                          report_id
                          (get_or (str "quick") (request_depth data))
                      /\ status = 200%Z
                      /\ st'
                         = add_to_report_store report_id
                             {| report_query :=
                                  strip (get_or [] (request_query data));
                                report_answer_raw := answer_raw;
                                report_answer_html := answer_html;
                                report_sources := sources_final hits scraped;
                                report_research_depth :=
                                  get_or (str "quick") (request_depth data) |}
                             st)).
Proof.
  unfold process, process_query_route. cbv zeta.
  set (query := strip (get_or [] (request_query data))).
  set (depth := get_or (str "quick") (request_depth data)).
  set (num := if text_eqb depth (str "deep") then _ else _).
  destruct (truthy query) eqn:Hquery; cbn [negb].
  2:{ eexists _, _, _, _. split; [reflexivity|]. left. eauto 10. }
  destruct (truthy key) eqn:Hkey; cbn [negb].
  2:{ eexists _, _, _, _. split; [reflexivity|]. left. eauto 10. }
  unfold act_catch. rewrite act_world_bind.
  destruct (perform_search_returns ddgs_text query num w) as (hits & w1 & Hs).
  rewrite Hs.
  destruct (truthy (map hit_url
                      (List.filter (fun r => truthy (hit_url r)) hits)))
    eqn:Hurls; cbn [negb].
  2:{ eexists _, _, _, _. split; [reflexivity|]. left. eauto 10. }
  rewrite act_world_bind.
  destruct (scrape_urls_loop trafilatura_fetch_url trafilatura_extract
              requests_get Soup BeautifulSoup find find_all_p
              (map hit_url (List.filter (fun r => truthy (hit_url r)) hits))
              w1)
    as (sst & w2 & _ & Hagg & _).
  rewrite Hagg.
  destruct (truthy (scraped_data sst)) eqn:Hdata; cbn [negb].
  2:{ eexists _, _, _, _. split; [reflexivity|]. left. eauto 10. }
  rewrite act_world_bind.
  destruct (synthesize_returns generate_content markdown_parser query
              (scraped_data sst) key depth w2) as (result & w3 & Hsyn).
  rewrite Hsyn.
  destruct result as [error_msg|answer_raw answer_html].
  { eexists _, _, _, _. split; [reflexivity|]. right.
    exists hits, w1, (scraped_data sst), w2.
    repeat (split; [assumption || reflexivity|]). left. eauto. }
  rewrite act_world_bind.
  destruct (uuid4 w3) as [[report_id|e] w4].
  - eexists _, _, _, _. split; [reflexivity|]. right.
    exists hits, w1, (scraped_data sst), w2.
    repeat (split; [assumption || reflexivity|]). right.
    exists answer_raw, answer_html, report_id. auto.
  - eexists _, _, _, _. split; [reflexivity|]. left. eauto 10.
Qed.

(** The ways a download ends. *)
Lemma download_pdf_route_cases (report_id : text) (w : W) (st : store) :
  match report_store st !! report_id with
  | None => download_pdf report_id (w, st) = (Returns report_not_found, (w, st))
  | Some data =>
      exists reply w',
        download_pdf report_id (w, st) = (Returns reply, (w', st))
        /\ match reply with
           | File payload name =>
               name = download_filename (report_query data) (str ".pdf")
               /\ generate_pdf pisa_CreatePDF data w
                  = (Returns (Some payload), w')
           | Message _ status => status = 500%Z
           end
  end.
Proof.
  destruct (report_store st !! report_id) as [data|] eqn:Hlook;
    unfold download_pdf, download_pdf_route, act_lookup;
    unfold act_bind at 1; cbn [snd]; rewrite Hlook; [|reflexivity].
  unfold act_catch. rewrite act_world_bind.
  destruct (generate_pdf pisa_CreatePDF data w) as [[[pdf|]|e] w'] eqn:Hpdf.
  - eexists _, _. split; [reflexivity|]. cbv beta iota. auto.
  - eexists _, _. split; [reflexivity|]. reflexivity.
  - eexists _, _. split; [reflexivity|]. reflexivity.
Qed.

Lemma download_docx_route_cases (report_id : text) (w : W) (st : store) :
  match report_store st !! report_id with
  | None =>
      download_docx report_id (w, st) = (Returns report_not_found, (w, st))
  | Some data =>
      exists reply w',
        download_docx report_id (w, st) = (Returns reply, (w', st))
        /\ match reply with
           | File payload name =>
               name = download_filename (report_query data) (str ".docx")
               /\ docx_write (docx_document data) w = (Returns payload, w')
           | Message _ status => status = 500%Z
           end
  end.
Proof.
  destruct (report_store st !! report_id) as [data|] eqn:Hlook;
    unfold download_docx, download_docx_route, act_lookup;
    unfold act_bind at 1; cbn [snd]; rewrite Hlook; [|reflexivity].
  unfold act_catch. rewrite act_world_bind.
  unfold generate_docx, act_catch, act_raise.
  destruct (docx_write (docx_document data) w) as [[payload|e] w'] eqn:Hdocx.
  - eexists _, _. split; [reflexivity|]. cbv beta iota. auto.
  - eexists _, _. split; [reflexivity|]. reflexivity.
Qed.


(** What the aggregator returned to the route. *)
Lemma scrape_urls_facts (urls : list text) (w w' : W) (data : list scraped) :
  scrape_urls extractor urls w = (Returns data, w') ->
  contiguous_ids data
  /\ forall item, In item data -> In (item_url item) urls.
Proof.
  intros Hrun.
  pose proof (scrape_url_returns trafilatura_fetch_url trafilatura_extract
                requests_get Soup BeautifulSoup find find_all_p) as Hreturns.
  destruct (scrape_loop_added extractor Hreturns urls scrape_start w)
    as (st & w1 & added & Hloop & Hdata & Hsub & _).
  destruct (scrape_urls_loop trafilatura_fetch_url trafilatura_extract
              requests_get Soup BeautifulSoup find find_all_p urls w)
    as (st2 & w2 & Hloop2 & Hagg & Hinv).
  fold extractor in Hloop2, Hagg. rewrite Hloop in Hloop2.
  injection Hloop2 as <- <-. rewrite Hrun in Hagg. injection Hagg as -> _.
  split; [exact (inv_ids st Hinv)|].
  cbn [scrape_start scraped_data app] in Hdata. rewrite Hdata.
  intros item Hitem. apply (sublist_In _ _ _ Hsub).
  apply in_map. exact Hitem.
Qed.


(** X18.  The sources of a reply, with a result or with a synthesis error,
    are at least one; their identifiers count up from 0; each preview has at
    most [SOURCE_PREVIEW_LENGTH] characters; and each source has the URL and
    the title of one of the hits of the search, so the title made of the
    source number is never used. *)
Theorem reply_sources_are_titled_hits (data : process_request) (key : text)
    (w : W) (st : store) :
  exists body status ws',
    process data key (w, st) = (Returns (body, status), ws')
    /\ forall sources,
         body_sources body = Some sources ->
         truthy sources = true
         /\ map source_id sources = map Z.of_nat (seq 0 (length sources))
         /\ exists hits w1,
              perform_search ddgs_text
                (strip (get_or [] (request_query data)))
                (if text_eqb (get_or (str "quick") (request_depth data))
                      (str "deep")
                 then DEEP_SEARCH_RESULTS else QUICK_SEARCH_RESULTS) w
              = (Returns hits, w1)
              /\ Forall
                   (fun s =>
                      (len (source_text_preview s) <= SOURCE_PREVIEW_LENGTH)%Z
                      /\ exists h,
                           In h hits /\ hit_url h = source_url s
                           /\ hit_title h = source_title s)
                   sources.
Proof.
  destruct (process_query_route_cases data key w st)
    as (body & status & w' & st' & Hrun & Hcases).
  exists body, status, (w', st'). split; [exact Hrun|].
  intros sources Hsources.
  destruct Hcases as [(error & -> & _)
                     |(hits & w1 & scraped & w2 & _ & Hsearch & Hagg & Hne
                       & Hend)].
  { discriminate. }
  assert (Hs : sources = sources_final hits scraped).
  { destruct Hend as [(error & -> & _)|(raw & html & id & -> & _)];
      cbn [body_sources] in Hsources; congruence. }
  subst sources. clear Hend Hsources.
  destruct (scrape_urls_facts _ _ _ _ Hagg) as [Hids Hurls].
  split; [|split].
  - unfold sources_final. destruct scraped; [discriminate|reflexivity].
  - rewrite sources_final_ids. unfold sources_final. rewrite length_map.
    exact Hids.
  - exists hits, w1. split; [exact Hsearch|].
    apply sources_final_titled. exact Hurls.
Qed.

(** X19.  A download reads the store and leaves it as it is.  For a report
    added at position [i] of a run of additions with identifiers that are
    all different: once [REPORT_STORE_MAX_ITEMS] or more reports were added
    after it, both downloads answer that it was not found, and no backend is
    called; before that, neither does, and a file served has the name made
    of the query of the report. *)
Theorem download_until_expired (entries : list (text * report)) (i : nat)
    (id : text) (data : report) (w : W) :
  NoDup (entries.*1) ->
  entries !! i = Some (id, data) ->
  if (Z.of_nat i + REPORT_STORE_MAX_ITEMS <? len entries)%Z
  then
    download_pdf id (w, add_reports entries empty_store)
    = (Returns report_not_found, (w, add_reports entries empty_store))
    /\ download_docx id (w, add_reports entries empty_store)
       = (Returns report_not_found, (w, add_reports entries empty_store))
  else
    (exists reply w',
       download_pdf id (w, add_reports entries empty_store)
       = (Returns reply, (w', add_reports entries empty_store))
       /\ reply <> report_not_found
       /\ forall payload name,
            reply = File payload name ->
            name = download_filename (report_query data) (str ".pdf")
            /\ generate_pdf pisa_CreatePDF data w
               = (Returns (Some payload), w'))
    /\ (exists reply w',
          download_docx id (w, add_reports entries empty_store)
          = (Returns reply, (w', add_reports entries empty_store))
          /\ reply <> report_not_found
          /\ forall payload name,
               reply = File payload name ->
               name = download_filename (report_query data) (str ".docx")
               /\ docx_write (docx_document data) w = (Returns payload, w')).
Proof.
  intros Hnd Hi.
  pose proof (add_reports_lookup entries i id data Hnd Hi) as Hlook.
  pose proof (download_pdf_route_cases id w (add_reports entries empty_store))
    as Hpdf.
  pose proof (download_docx_route_cases id w (add_reports entries empty_store))
    as Hdocx.
  rewrite Hlook in Hpdf, Hdocx.
  destruct (Z.of_nat i + REPORT_STORE_MAX_ITEMS <? len entries)%Z.
  { split; assumption. }
  split.
  - destruct Hpdf as (reply & w' & Hreply & Hshape).
    exists reply, w'. split; [exact Hreply|].
    destruct reply as [msg code|payload name].
    + split; [subst code; discriminate|]. intros ? ? [=].
    + split; [discriminate|]. intros ? ? [= <- <-]. exact Hshape.
  - destruct Hdocx as (reply & w' & Hreply & Hshape).
    exists reply, w'. split; [exact Hreply|].
    destruct reply as [msg code|payload name].
    + split; [subst code; discriminate|]. intros ? ? [=].
    + split; [discriminate|]. intros ? ? [= <- <-]. exact Hshape.
Qed.

End RouteFacts.

Lemma download_until_expired_witness :
  (exists reply w',
     download_pdf_route quiet_CreatePDF (str "a")
       (tt, add_reports [(str "a", example_report); (str "b", example_report)]
              empty_store)
     = (Returns reply,
        (w', add_reports [(str "a", example_report); (str "b", example_report)]
               empty_store))
     /\ reply <> report_not_found
     /\ forall payload name,
          reply = File payload name ->
          name = download_filename (report_query example_report) (str ".pdf")
          /\ generate_pdf quiet_CreatePDF example_report tt
             = (Returns (Some payload), w'))
  /\ (exists reply w',
        download_docx_route quiet_docx_write (str "a")
          (tt, add_reports
                 [(str "a", example_report); (str "b", example_report)]
                 empty_store)
        = (Returns reply,
           (w', add_reports
                  [(str "a", example_report); (str "b", example_report)]
                  empty_store))
        /\ reply <> report_not_found
        /\ forall payload name,
             reply = File payload name ->
             name
             = download_filename (report_query example_report) (str ".docx")
             /\ quiet_docx_write (docx_document example_report) tt
                = (Returns payload, w')).
Proof.
  apply (download_until_expired quiet_CreatePDF quiet_docx_write
           [(str "a", example_report); (str "b", example_report)] 0
           (str "a") example_report tt).
  - apply NoDup_cons. split.
    + intros Hin. apply list_elem_of_singleton in Hin. discriminate Hin.
    + apply NoDup_singleton.
  - reflexivity.
Defined.

(** ** The extractor on a page the primary path accepts *)

Lemma drop_while_all (p : ascii -> bool) (s : text) :
  truthy (drop_while p s) = negb (forallb p s).
Proof.
  induction s as [|c s IH]; [reflexivity|].
  cbn [drop_while forallb]. destruct (p c); [exact IH|reflexivity].
Qed.

Lemma truthy_rev {A} (l : list A) : truthy (rev l) = truthy l.
Proof.
  destruct l as [|x l]; [reflexivity|]. cbn [rev].
  destruct (rev l); reflexivity.
Qed.

(** Stripping leaves nothing exactly of a text that is all white space. *)
Lemma truthy_strip (s : text) : truthy (strip s) = negb (forallb is_space s).
Proof.
  unfold strip, rstrip, lstrip. rewrite truthy_rev.
  rewrite <- drop_while_all.
  pose proof (drop_while_head is_space s) as Hhead.
  destruct (drop_while is_space s) as [|c t]; [reflexivity|].
  cbn [rev truthy]. rewrite drop_while_app_stop by exact Hhead.
  destruct (drop_while is_space (rev t)); reflexivity.
Qed.

Lemma truthy_clip (x : text) : truthy (clip x) = negb (forallb is_space x).
Proof.
  unfold clip, slice_to. rewrite <- truthy_strip.
  destruct (strip x); reflexivity.
Qed.

Section PrimaryPath.

Context {W : Type}.
Variable trafilatura_fetch_url : text -> action W (option text).
Variable trafilatura_extract : text -> outcome (option text).
Variable requests_get : text -> action W response.
Variable Soup : Type.
Variable BeautifulSoup : list Byte.byte -> outcome Soup.
Variable find : Soup -> selector -> option Soup.
Variable find_all_p : Soup -> list text.

Let extractor :=
  scrape_url trafilatura_fetch_url trafilatura_extract requests_get Soup
    BeautifulSoup find find_all_p.

(** X20.  When the primary extraction gives more than 100 characters, the
    extractor returns them stripped and cut, and the fallback is not tried:
    the world is as the download left it.  What it returns is empty exactly
    when the extraction was all white space; the aggregator then adds no
    source for the URL. *)
Theorem primary_extraction_is_final (url : text) (w w1 : W)
    (downloaded main_content : text) :
  trafilatura_fetch_url url w = (Returns (Some downloaded), w1) ->
  truthy downloaded = true ->
  trafilatura_extract downloaded = Returns (Some main_content) ->
  (100 < len main_content)%Z ->
  extractor url w = (Returns (Some (clip main_content)), w1)
  /\ truthy (clip main_content) = negb (forallb is_space main_content)
  /\ scrape_urls extractor [url] w
     = (Returns
          (if forallb is_space main_content then []
           else [{| item_id := 0; item_url := url;
                    item_text := clip main_content |}]),
        w1).
Proof.
  intros Hfetch Hd Hextract Hlen.
  assert (Hrun : extractor url w = (Returns (Some (clip main_content)), w1)).
  { unfold extractor, scrape_url, scrape_primary.
    unfold act_bind at 1, act_catch.
    rewrite (act_bind_returns _ _ _ _ _ Hfetch).
    rewrite Hd. unfold act_bind, act_lift. rewrite Hextract.
    assert (Hne : truthy main_content = true).
    { destruct main_content; [|reflexivity]. unfold len in Hlen.
      cbn [length] in Hlen. lia. }
    rewrite Hne. apply Z.ltb_lt in Hlen. rewrite Hlen. reflexivity. }
  split; [exact Hrun|]. split; [apply truthy_clip|].
  unfold scrape_urls. unfold act_bind at 1. cbn [scrape_loop].
  destruct (decide (url ∈ urls_attempted scrape_start)) as [Hin|_].
  { cbn in Hin. set_solver. }
  change (MAX_TOTAL_CONTENT_LENGTH <=? total_content_length scrape_start)%Z
    with false. cbv iota.
  rewrite (act_bind_returns _ _ _ _ _ Hrun).
  pose proof (truthy_clip main_content) as Htruthy.
  destruct (forallb is_space main_content); cbn [negb] in Htruthy;
    rewrite Htruthy; reflexivity.
Qed.

(** The loop over the containers finds nothing, or a text of more than 200
    characters. *)
Lemma first_container_text_long (containers : list (option Soup)) :
  first_container_text Soup find_all_p containers = []
  \/ (200 < len (first_container_text Soup find_all_p containers))%Z.
Proof.
  induction containers as [|[c|] rest IH]; cbn [first_container_text];
    [left; reflexivity| |exact IH].
  destruct (truthy (find_all_p c)); [|exact IH].
  destruct (200 <? len (join (str " ") (find_all_p c)))%Z eqn:Hlen;
    [|exact IH].
  right. apply Z.ltb_lt. exact Hlen.
Qed.

(** X21.  The text the fallback finds in a page is empty or has more than
    100 characters; and it is not empty when the paragraphs of the whole
    page join to more than 100 characters. *)
Theorem fallback_text_thresholds (soup : Soup) :
  (soup_text Soup find find_all_p soup = []
   \/ (100 < len (soup_text Soup find find_all_p soup))%Z)
  /\ ((len (join (str " ") (find_all_p soup)) <= 100)%Z
      \/ truthy (soup_text Soup find find_all_p soup) = true).
Proof.
  unfold soup_text. cbv zeta.
  destruct (first_container_text_long
              (map (find soup) container_selectors ++ [Some soup]))
    as [Hnone|Hlong].
  - rewrite Hnone. cbn [truthy].
    destruct (truthy (find_all_p soup)) eqn:Hps.
    + destruct (100 <? len (join (str " ") (find_all_p soup)))%Z eqn:Hlen.
      * apply Z.ltb_lt in Hlen. split; [right; exact Hlen|].
        right. destruct (join (str " ") (find_all_p soup));
          [unfold len in Hlen; cbn [length] in Hlen; lia|reflexivity].
      * apply Z.ltb_ge in Hlen. split; [left; reflexivity|left; exact Hlen].
    + split; [left; reflexivity|]. left.
      destruct (find_all_p soup); [|discriminate].
      unfold len. cbn [join length]. lia.
  - destruct (first_container_text Soup find_all_p
                (map (find soup) container_selectors ++ [Some soup]))
      as [|c t] eqn:E.
    { unfold len in Hlong. cbn [length] in Hlong. lia. }
    cbn [truthy]. split; [right; lia|right; reflexivity].
Qed.

End PrimaryPath.

Lemma primary_extraction_is_final_witness :
  web_scrape_url 150 200 (str "text/html") example_url []
  = (Returns (Some (clip (page_text 150))), [example_url])
  /\ truthy (clip (page_text 150)) = negb (forallb is_space (page_text 150))
  /\ scrape_urls (web_scrape_url 150 200 (str "text/html")) [example_url] []
     = (Returns
          (if forallb is_space (page_text 150) then []
           else [{| item_id := 0; item_url := example_url;
                    item_text := clip (page_text 150) |}]),
        [example_url]).
Proof.
  apply (primary_extraction_is_final web_fetch_url (web_extract 150)
           (web_get 200 (str "text/html")) unit (fun _ => Returns tt)
           (fun _ _ => None) (fun _ => []) example_url [] [example_url]
           (str "<html>") (page_text 150)).
  - reflexivity.
  - reflexivity.
  - reflexivity.
  - reflexivity.
Defined.

(** ** Titles of hits that share a URL *)

Lemma url_to_title_map_last (pre post : list search_hit) (h : search_hit) :
  truthy (hit_url h) = true ->
  Forall (fun x => hit_url x <> hit_url h) post ->
  url_to_title_map (pre ++ h :: post) !! hit_url h = Some (hit_title h).
Proof.
  intros Hh. induction post as [|x post IH] using rev_ind; intros Hpost.
  - rewrite url_to_title_map_snoc, Hh. apply lookup_insert_eq.
  - apply Forall_app in Hpost as [Hpost Hx].
    replace (pre ++ h :: post ++ [x]) with ((pre ++ h :: post) ++ [x])
      by (rewrite <- app_assoc; reflexivity).
    rewrite url_to_title_map_snoc.
    destruct (truthy (hit_url x)); [|apply IH; exact Hpost].
    rewrite lookup_insert_ne; [apply IH; exact Hpost|].
    inversion Hx; assumption.
Qed.

(** X22.  When several hits of the search have the same URL, every source
    with that URL has the title of the last of them. *)
Theorem last_hit_titles_the_source (pre post : list search_hit)
    (h : search_hit) (data : list scraped) :
  truthy (hit_url h) = true ->
  Forall (fun x => hit_url x <> hit_url h) post ->
  Forall (fun s => source_url s = hit_url h -> source_title s = hit_title h)
    (sources_final (pre ++ h :: post) data).
Proof.
  intros Hh Hpost. unfold sources_final. apply Forall_map.
  apply List.Forall_forall. intros item _.
  cbn [source_url source_title]. intros ->.
  rewrite (url_to_title_map_last pre post h Hh Hpost). reflexivity.
Qed.

Lemma last_hit_titles_the_source_witness :
  Forall (fun s => source_url s = example_url -> source_title s = str "Second")
    (sources_final
       ([{| hit_title := str "First"; hit_url := example_url;
            hit_body := [] |}]
        ++ {| hit_title := str "Second"; hit_url := example_url;
              hit_body := [] |} :: [])
       one_source).
Proof.
  apply (last_hit_titles_the_source
           [{| hit_title := str "First"; hit_url := example_url;
               hit_body := [] |}] []
           {| hit_title := str "Second"; hit_url := example_url;
              hit_body := [] |} one_source).
  - reflexivity.
  - constructor.
Defined.
